(** * The o1-pro / o3-pro adapter for Open WebUI: a shallow embedding

    This development embeds [src/o1o3-pro-plugin-openwebui.py] (class
    [Pipe]) and checks the statements of the specification against it.

    Conventions.
    - A Python [str] is the [string] of its UTF-8 encoding: one [ascii]
      is one byte, and a character is a lead byte with the continuation
      bytes that follow it.  What the code does by characters (a slice,
      an iteration, [strip]) is done by characters here; a digest is
      taken over the bytes, as [encode()] hands them over.  [repr]
      prints the characters beyond ASCII as they are, which is what the
      interpreter does for printable ones.
    - A Python object that comes from JSON (the request body, the user
      record, the decoded API response) is a [value].  JSON numbers are
      integers: the fields the adapter reads are token counts.
    - A Python [float] is a binary64 [float]; costs are computed with the
      IEEE operations, as the interpreter does.
    - An exception is a [Raise e] result.  A generator ([pipe]) is a
      function from the instance state to a [run]: what it yielded, what
      it sent over the network, the final state, and how it ended.  The
      host is taken to consume the sequence to its end, and one turn
      runs at a time.
    - The logger has no part in the results and is left out.
    - What has no value fixed by the language (the iteration order of
      a set, the wording of the interpreter's own errors) is the
      [Runtime] the development is parameterised by. *)

From Stdlib Require Import ZArith Floats Ascii String DecimalString.
From stdpp Require Import gmap strings list.

Local Open Scope string_scope.
Local Open Scope list_scope.
Local Open Scope Z_scope.

(** ** Python values *)

Set Warnings "-register-all".

Inductive value : Type :=
| VNone
| VBool (b : bool)
| VInt (z : Z)
| VStr (s : string)
| VList (l : list value)
| VDict (d : list (string * value)).

Abbreviation dict := (list (string * value)).

(** ** Exceptions and results *)

(** [Fault op v]: the interpreter refused operation [op] on [v]
    (a [TypeError], [AttributeError] or [ValueError] of its own). *)
Inductive exn : Type :=
| TimeoutException
| ValueError (msg : string)
| KeyError (key : string)
| OverflowError
| Fault (op : string) (v : value)
| HostError (msg : string).

Inductive result (A : Type) : Type :=
| Ok (a : A)
| Raise (e : exn).
Arguments Ok {A} a.
Arguments Raise {A} e.

Definition rbind {A B} (r : result A) (k : A -> result B) : result B :=
  match r with
  | Ok a => k a
  | Raise e => Raise e
  end.

Declare Scope result_scope.
Delimit Scope result_scope with res.
Notation "x <- r ;; k" := (rbind r (fun x => k))
  (at level 100, r at next level, right associativity) : result_scope.

Fixpoint rmap {A B} (f : A -> result B) (l : list A) : result (list B) :=
  match l with
  | [] => Ok []
  | a :: l' =>
      (b <- f a ;;
       bs <- rmap f l' ;;
       Ok (b :: bs))%res
  end.

(** ** Strings *)

Definition str_join (sep : string) (l : list string) : string :=
  String.concat sep l.

(** [s[:n]] on ASCII text, where a byte is a character: the digest in
    hexadecimal. *)
Fixpoint str_take (n : nat) (s : string) : string :=
  match n, s with
  | S n', String c r => String c (str_take n' r)
  | _, _ => EmptyString
  end.

(** The text after the first [n] bytes. *)
Fixpoint str_drop (n : nat) (s : string) : string :=
  match n, s with
  | S n', String _ r => str_drop n' r
  | _, _ => s
  end.

(** [c in s] for a character *)
Fixpoint str_has (c : ascii) (s : string) : bool :=
  match s with
  | EmptyString => false
  | String a r => Ascii.eqb a c || str_has c r
  end.

(** [s.find(c)] for an ASCII needle: the first index, or -1.  The
    index counts bytes; [pipe] uses it only to cut the text there
    ([str_from]), which gives the text the code gets by counting
    characters on both sides. *)
Fixpoint str_find (c : ascii) (s : string) : Z :=
  match s with
  | EmptyString => -1
  | String a r =>
      if Ascii.eqb a c then 0
      else match str_find c r with
           | Z.neg _ => -1
           | i => i + 1
           end
  end.

(** [s[i:]] for an index [i >= 0] that [str_find] gave. *)
Definition str_from (i : Z) (s : string) : string :=
  str_drop (Z.to_nat i) s.

Fixpoint str_prefix (p s : string) : bool :=
  match p, s with
  | EmptyString, _ => true
  | String a p', String b s' => Ascii.eqb a b && str_prefix p' s'
  | String _ _, EmptyString => false
  end.

(** [p in s] *)
Fixpoint str_contains (p s : string) : bool :=
  str_prefix p s
  || match s with
     | EmptyString => false
     | String _ r => str_contains p r
     end.

(** [s.split(sep)] for a one-character separator. *)
Fixpoint str_split (sep : ascii) (s : string) : list string :=
  match s with
  | EmptyString => [EmptyString]
  | String c r =>
      if Ascii.eqb c sep then EmptyString :: str_split sep r
      else match str_split sep r with
           | w :: ws => String c w :: ws
           | [] => [String c EmptyString]
           end
  end.

(** A byte that continues a character. *)
Definition is_continuation (c : ascii) : bool :=
  let n := nat_of_ascii c in
  ((128 <=? n) && (n <? 192))%nat.

(** [s[:n]]: the first [n] characters, each with its continuation
    bytes. *)
Fixpoint take_chars (n : nat) (s : string) : string :=
  match s with
  | EmptyString => EmptyString
  | String c r =>
      if is_continuation c then String c (take_chars n r)
      else match n with
           | O => EmptyString
           | S n' => String c (take_chars n' r)
           end
  end.

(** The white space of ASCII: U+0009 to U+000D and U+001C to U+0020. *)
Definition is_space (c : ascii) : bool :=
  let n := nat_of_ascii c in
  ((9 <=? n) && (n <=? 13) || (28 <=? n) && (n <=? 32))%nat.

(** The white space [str.strip()] removes, that of [str.isspace]: the
    number of bytes of the white-space character [s] starts with, [0]
    when it starts with none.  Beyond ASCII these are U+0085 and
    U+00A0 (two bytes), U+1680, U+2000 to U+200A, U+2028, U+2029,
    U+202F, U+205F and U+3000 (three bytes). *)
Definition space_len (s : string) : nat :=
  (match s with
  | EmptyString => 0
  | String a r =>
      if is_space a then 1
      else
        match r with
        | EmptyString => 0
        | String b r' =>
            let x := nat_of_ascii a in
            let y := nat_of_ascii b in
            if (x =? 194) && ((y =? 133) || (y =? 160)) then 2
            else
              match r' with
              | EmptyString => 0
              | String c _ =>
                  let z := nat_of_ascii c in
                  if (x =? 225) && (y =? 154) && (z =? 128)
                     || (x =? 226) && (y =? 128)
                        && ((128 <=? z) && (z <=? 138)
                            || (z =? 168) || (z =? 169) || (z =? 175))
                     || (x =? 226) && (y =? 129) && (z =? 159)
                     || (x =? 227) && (y =? 128) && (z =? 128)
                  then 3
                  else 0
              end
        end
  end)%nat.

(** The scan of [lstrip]: [skip] bytes belong to the white-space
    character just found. *)
Fixpoint lstrip_from (skip : nat) (s : string) : string :=
  match s with
  | EmptyString => EmptyString
  | String _ r =>
      match skip with
      | S k => lstrip_from k r
      | O =>
          match space_len s with
          | O => s
          | S k => lstrip_from k r
          end
      end
  end.

Definition lstrip (s : string) : string := lstrip_from 0 s.

(** [rstrip] cuts where white space only is left. *)
Fixpoint rstrip (s : string) : string :=
  match s with
  | EmptyString => EmptyString
  | String c r =>
      match lstrip s with
      | EmptyString => EmptyString
      | _ => String c (rstrip r)
      end
  end.

Definition strip (s : string) : string := rstrip (lstrip s).

Definition str_nonempty (s : string) : bool :=
  match s with
  | EmptyString => false
  | String _ _ => true
  end.

(** [str(z)] *)
Definition str_of_Z (z : Z) : string := NilZero.string_of_int (Z.to_int z).

(** ** SHA-256 ([hashlib.sha256]) *)

Module SHA256.

Definition word (x : Z) : Z := x mod 2 ^ 32.

Definition rotr (n x : Z) : Z :=
  word (Z.lor (Z.shiftr x n) (Z.shiftl x (32 - n))).

Definition K : list Z :=
  [1116352408; 1899447441; 3049323471; 3921009573;
   961987163; 1508970993; 2453635748; 2870763221;
   3624381080; 310598401; 607225278; 1426881987;
   1925078388; 2162078206; 2614888103; 3248222580;
   3835390401; 4022224774; 264347078; 604807628;
   770255983; 1249150122; 1555081692; 1996064986;
   2554220882; 2821834349; 2952996808; 3210313671;
   3336571891; 3584528711; 113926993; 338241895;
   666307205; 773529912; 1294757372; 1396182291;
   1695183700; 1986661051; 2177026350; 2456956037;
   2730485921; 2820302411; 3259730800; 3345764771;
   3516065817; 3600352804; 4094571909; 275423344;
   430227734; 506948616; 659060556; 883997877;
   958139571; 1322822218; 1537002063; 1747873779;
   1955562222; 2024104815; 2227730452; 2361852424;
   2428436474; 2756734187; 3204031479; 3329325298].

Definition H0 : list Z :=
  [1779033703; 3144134277; 1013904242; 2773480762;
   1359893119; 2600822924; 528734635; 1541459225].

(** The message, a [1] bit, zeros up to 56 modulo 64 bytes, and the
    bit length on eight bytes. *)
Definition pad (msg : list Z) : list Z :=
  let len := Z.of_nat (length msg) in
  let zeros := Z.to_nat ((55 - len) mod 64) in
  let bits := 8 * len in
  msg ++ [128] ++ repeat 0 zeros
      ++ map (fun i => Z.shiftr bits (8 * (7 - Z.of_nat i)) mod 256) (seq 0 8).

Fixpoint words (bytes : list Z) : list Z :=
  match bytes with
  | a :: b :: c :: d :: rest =>
      (Z.shiftl a 24 + Z.shiftl b 16 + Z.shiftl c 8 + d) :: words rest
  | _ => []
  end.

(** The message schedule, most recent word first. *)
Fixpoint schedule (n : nat) (rev_w : list Z) : list Z :=
  match n with
  | O => rev_w
  | S n' =>
      let w2 := nth 1 rev_w 0 in
      let w7 := nth 6 rev_w 0 in
      let w15 := nth 14 rev_w 0 in
      let w16 := nth 15 rev_w 0 in
      let s0 := Z.lxor (Z.lxor (rotr 7 w15) (rotr 18 w15)) (Z.shiftr w15 3) in
      let s1 := Z.lxor (Z.lxor (rotr 17 w2) (rotr 19 w2)) (Z.shiftr w2 10) in
      schedule n' (word (w16 + s0 + w7 + s1) :: rev_w)
  end.

Definition round (st : list Z) (kw : Z * Z) : list Z :=
  match st with
  | [a; b; c; d; e; f; g; h] =>
      let S1 := Z.lxor (Z.lxor (rotr 6 e) (rotr 11 e)) (rotr 25 e) in
      let ch := Z.lxor (Z.land e f) (Z.land (Z.lxor e (2 ^ 32 - 1)) g) in
      let t1 := word (h + S1 + ch + fst kw + snd kw) in
      let S0 := Z.lxor (Z.lxor (rotr 2 a) (rotr 13 a)) (rotr 22 a) in
      let maj := Z.lxor (Z.lxor (Z.land a b) (Z.land a c)) (Z.land b c) in
      let t2 := word (S0 + maj) in
      [word (t1 + t2); a; b; c; word (d + t1); e; f; g]
  | _ => st
  end.

Definition compress (h : list Z) (block : list Z) : list Z :=
  let w := rev (schedule 48 (rev (words block))) in
  let st := fold_left round (combine K w) h in
  map (fun p => word (fst p + snd p)) (combine h st).

Fixpoint blocks (n : nat) (bytes : list Z) (h : list Z) : list Z :=
  match n with
  | O => h
  | S n' => blocks n' (drop 64 bytes) (compress h (take 64 bytes))
  end.

Definition hex_digit (d : Z) : ascii :=
  ascii_of_nat (Z.to_nat (if d <? 10 then 48 + d else 87 + d)).

Definition hex8 (x : Z) : string :=
  string_of_list_ascii
    (map (fun i => hex_digit (Z.shiftr x (4 * (7 - Z.of_nat i)) mod 16)) (seq 0 8)).

(** [hashlib.sha256(s).hexdigest()] on the bytes of [s]. *)
Definition hexdigest (s : string) : string :=
  let bytes := pad (map (fun c => Z.of_nat (nat_of_ascii c)) (list_ascii_of_string s)) in
  String.concat "" (map hex8 (blocks (length bytes / 64) bytes H0)).

End SHA256.

(** ** Dictionaries and dynamic operations *)

Fixpoint dict_lookup (d : dict) (k : string) : option value :=
  match d with
  | [] => None
  | (k', v) :: d' => if String.eqb k' k then Some v else dict_lookup d' k
  end.

(** [d.get(k, default)] *)
Definition dict_get (d : dict) (k : string) (default : value) : value :=
  match dict_lookup d k with
  | Some v => v
  | None => default
  end.

(** [k in d] *)
Definition dict_has (d : dict) (k : string) : bool :=
  match dict_lookup d k with
  | Some _ => true
  | None => false
  end.

(** [d[k]] *)
Definition dict_item (d : dict) (k : string) : result value :=
  match dict_lookup d k with
  | Some v => Ok v
  | None => Raise (KeyError k)
  end.

(** [v.get(k, default)]: only a dict has the method. *)
Definition get (v : value) (k : string) (default : value) : result value :=
  match v with
  | VDict d => Ok (dict_get d k default)
  | _ => Raise (Fault "get" v)
  end.

(** [v == "s"] *)
Definition is_str (v : value) (s : string) : bool :=
  match v with
  | VStr t => String.eqb t s
  | _ => false
  end.

(** Truth value of an object ([if v:], [not v]). *)
Definition truthy (v : value) : bool :=
  match v with
  | VNone => false
  | VBool b => b
  | VInt z => negb (z =? 0)
  | VStr s => str_nonempty s
  | VList l => match l with [] => false | _ => true end
  | VDict d => match d with [] => false | _ => true end
  end.

(** Whether [s] starts in the middle of a character. *)
Definition continues (s : string) : bool :=
  match s with
  | EmptyString => false
  | String c _ => is_continuation c
  end.

(** The characters of a string, each with its continuation bytes. *)
Fixpoint split_chars (s : string) : list string :=
  match s with
  | EmptyString => []
  | String c r =>
      match split_chars r with
      | w :: ws =>
          if continues r then String c w :: ws
          else String c EmptyString :: w :: ws
      | [] => [String c EmptyString]
      end
  end.

Definition chars (s : string) : list value := map VStr (split_chars s).

(** [for x in v]: the elements of a list, the keys of a dict, the
    characters of a string; nothing else is iterable. *)
Definition iter (v : value) : result (list value) :=
  match v with
  | VList l => Ok l
  | VDict d => Ok (map (fun kv => VStr (fst kv)) d)
  | VStr s => Ok (chars s)
  | _ => Raise (Fault "iter" v)
  end.

(** An [int] (a [bool] is one). *)
Definition as_int (v : value) : option Z :=
  match v with
  | VInt z => Some z
  | VBool b => Some (Z.b2z b)
  | _ => None
  end.

(** [sep.join(l)]: every item must be a [str]. *)
Definition join (sep : string) (l : list value) : result string :=
  (parts <- rmap (fun v => match v with
                           | VStr s => Ok s
                           | _ => Raise (Fault "join" v)
                           end) l ;;
   Ok (str_join sep parts))%res.

(** ** [repr], [str] and the pattern of [pipe] *)

Definition squote : ascii := ascii_of_nat 39.
Definition dquote_char : ascii := ascii_of_nat 34.
Definition backslash : string := String (ascii_of_nat 92) EmptyString.

Definition hex_digit (d : nat) : ascii :=
  ascii_of_nat (if (d <? 10)%nat then 48 + d else 87 + d).

(** One character of a string literal delimited by [q]. *)
Definition repr_char (q c : ascii) : string :=
  let n := nat_of_ascii c in
  if (n =? 92)%nat then backslash +:+ backslash
  else if Ascii.eqb c q then backslash +:+ String q EmptyString
  else if (n =? 9)%nat then backslash +:+ "t"
  else if (n =? 10)%nat then backslash +:+ "n"
  else if (n =? 13)%nat then backslash +:+ "r"
  else if (n <? 32)%nat || (n =? 127)%nat then
    backslash +:+ "x"
    +:+ String (hex_digit (n / 16)) (String (hex_digit (n mod 16)) EmptyString)
  else String c EmptyString.

(** [repr(s)]: single quotes, unless [s] has one and no double quote. *)
Definition repr_str (s : string) : string :=
  let q := if str_has squote s && negb (str_has dquote_char s)
           then dquote_char else squote in
  String q EmptyString
  +:+ String.concat "" (map (repr_char q) (list_ascii_of_string s))
  +:+ String q EmptyString.

(** [repr(v)] *)
Fixpoint repr (v : value) : string :=
  match v with
  | VNone => "None"
  | VBool true => "True"
  | VBool false => "False"
  | VInt z => str_of_Z z
  | VStr s => repr_str s
  | VList l => "[" +:+ str_join ", " (map repr l) +:+ "]"
  | VDict d =>
      "{" +:+ str_join ", " (map (fun kv => match kv with
                                            | (k, x) => repr_str k +:+ ": " +:+ repr x
                                            end) d) +:+ "}"
  end.

(** [str(v)], also what an f-string field [{v}] prints. *)
Definition str (v : value) : string :=
  match v with
  | VStr s => s
  | _ => repr v
  end.

Definition is_quote (c : ascii) : bool :=
  Ascii.eqb c squote || Ascii.eqb c dquote_char.

(** The longest prefix without a quote, and what follows it. *)
Fixpoint until_quote (s : string) : string * string :=
  match s with
  | EmptyString => (EmptyString, EmptyString)
  | String c r =>
      if is_quote c then (EmptyString, s)
      else (String c (fst (until_quote r)), snd (until_quote r))
  end.

(** A match of the pattern at the start of [s]: [text=], a quote, one
    or more characters that are no quote (the capture), a quote.  The
    result is the capture and the length of the match. *)
Definition match_text (s : string) : option (string * nat) :=
  if str_prefix "text=" s then
    match str_drop 5 s with
    | String q r =>
        if is_quote q then
          match until_quote r with
          | (String c cs, String _ _) =>
              Some (String c cs, (5 + 1 + String.length (String c cs) + 1)%nat)
          | _ => None
          end
        else None
    | EmptyString => None
    end
  else None.

(** The scan of [re.findall]: leftmost matches that do not overlap;
    [skip] characters belong to the match just found. *)
Fixpoint findall_from (skip : nat) (s : string) : list string :=
  match s with
  | EmptyString => []
  | String c r =>
      match skip with
      | S k => findall_from k r
      | O =>
          match match_text s with
          | Some (capture, n) => capture :: findall_from (n - 1) r
          | None => findall_from 0 r
          end
      end
  end.

(** [re.findall(pattern, s)] for the pattern of [pipe]. *)
Definition findall_text (s : string) : list string := findall_from 0 s.

(** ** The runtime the adapter runs on *)

Record Runtime : Type := {
  (** [str(e)] for an error [Fault op v] of the interpreter *)
  fault_str : string -> value -> string;
  (** [list(set(l))]: the order in which a set of strings is iterated *)
  set_iter : list string -> list string
}.

(** [str(e)] *)
Definition exn_str (rt : Runtime) (e : exn) : string :=
  match e with
  | TimeoutException => ""
  | ValueError msg => msg
  | KeyError key => "'" +:+ key +:+ "'"
  | OverflowError => "integer division result too large for a float"
  | Fault op v => fault_str rt op v
  | HostError msg => msg
  end.

Definition nl : string := String (ascii_of_nat 10) EmptyString.
Definition dquote : string := String (ascii_of_nat 34) EmptyString.

(** ** Settings and instance state *)

Record Valves : Type := {
  NAME_PREFIX : string;
  BASE_URL : string;
  API_KEYS : string;
  THINKING_EFFORT : string;
  SHOW_TOKEN_STATS : bool;
  SHOW_CUMULATIVE_COST : bool;
  MAX_OUTPUT_TOKENS : Z;
  TIMEOUT_SECONDS : Z;
  DEBUG_MODE : bool
}.

Definition default_valves : Valves := {|
  NAME_PREFIX := "OpenAI: ";
  BASE_URL := "https://api.openai.com/v1";
  API_KEYS := "";
  THINKING_EFFORT := "medium";
  SHOW_TOKEN_STATS := true;
  SHOW_CUMULATIVE_COST := true;
  MAX_OUTPUT_TOKENS := 3200;
  TIMEOUT_SECONDS := 600;
  DEBUG_MODE := false
|}.

(** One entry of [conversation_costs]. *)
Record account : Type := {
  total_cost : float;
  total_input_tokens : Z;
  total_output_tokens : Z;
  total_reasoning_tokens : Z;
  message_count : Z
}.

Record Pipe : Type := {
  valves : Valves;
  openai_response_models : list string;
  api_key_index : nat;
  conversation_costs : gmap string account
}.

(** [Pipe.__init__] *)
Definition init : Pipe := {|
  valves := default_valves;
  openai_response_models := ["o1-pro"; "o3-pro"];
  api_key_index := 0;
  conversation_costs := ∅
|}.

Definition with_valves (self : Pipe) (vs : Valves) : Pipe :=
  {| valves := vs;
     openai_response_models := openai_response_models self;
     api_key_index := api_key_index self;
     conversation_costs := conversation_costs self |}.

Definition with_api_key_index (self : Pipe) (i : nat) : Pipe :=
  {| valves := valves self;
     openai_response_models := openai_response_models self;
     api_key_index := i;
     conversation_costs := conversation_costs self |}.

Definition with_conversation_costs (self : Pipe) (m : gmap string account) : Pipe :=
  {| valves := valves self;
     openai_response_models := openai_response_models self;
     api_key_index := api_key_index self;
     conversation_costs := m |}.

(** ** [Pipe._get_conversation_id] *)

(** The list comprehension over a multi-part content. *)
Fixpoint text_parts (content : list value) : result (list value) :=
  match content with
  | [] => Ok []
  | item :: rest =>
      (ty <- get item "type" VNone ;;
       if is_str ty "text" then
         t <- get item "text" (VStr "") ;;
         ts <- text_parts rest ;;
         Ok (t :: ts)
       else text_parts rest)%res
  end.

(** The text of a message content, as the loop body computes it. *)
Definition content_text (content : value) : result string :=
  match content with
  | VList parts => (ts <- text_parts parts ;; join " " ts)%res
  | _ => Ok (str content)
  end.

(** The loop: [None] when it ends without a user message. *)
Fixpoint first_user_message (messages : list value)
  : result (option string) :=
  match messages with
  | [] => Ok None
  | msg :: rest =>
      (role <- get msg "role" VNone ;;
       if is_str role "user" then
         content <- get msg "content" (VStr "") ;;
         t <- content_text content ;;
         Ok (Some t)
       else first_user_message rest)%res
  end.

(** The placeholder replaces a missing or empty first message. *)
Definition message_or_placeholder (m : option string) : string :=
  match m with
  | Some (String c r) => String c r
  | _ => "no_message"
  end.

Definition conv_id_of (user_id message_key : string) : string :=
  let conv_hash := str_take 16 (SHA256.hexdigest (user_id +:+ "_" +:+ message_key)) in
  "conv_" +:+ user_id +:+ "_" +:+ conv_hash.

(** The debug branch only logs, but it walks over every message. *)
Definition debug_count_user_messages (messages : list value) : result nat :=
  (roles <- rmap (fun m => get m "role" VNone) messages ;;
   Ok (length (filter (fun r => is_str r "user" = true) roles)))%res.

Definition _get_conversation_id (self : Pipe) (body user : dict)
  : result string :=
  (messages <- iter (dict_get body "messages" (VList [])) ;;
   first <- first_user_message messages ;;
   let first_text := message_or_placeholder first in
   let user_id := str (dict_get user "id" (VStr "unknown")) in
   let message_key := take_chars 50 first_text in
   let conv_id := conv_id_of user_id message_key in
   if DEBUG_MODE (valves self) then
     messages' <- iter (dict_get body "messages" (VList [])) ;;
     _ <- debug_count_user_messages messages' ;;
     Ok conv_id
   else Ok conv_id)%res.

(** ** [Pipe._update_conversation_cost] *)

Record tokens : Type := {
  tok_input : Z;
  tok_output : Z;
  tok_reasoning : Z
}.

Definition new_account : account := {|
  total_cost := 0;
  total_input_tokens := 0;
  total_output_tokens := 0;
  total_reasoning_tokens := 0;
  message_count := 0
|}.

Definition add_to_account (a : account) (cost : float) (t : tokens) : account := {|
  total_cost := (total_cost a + cost)%float;
  total_input_tokens := total_input_tokens a + tok_input t;
  total_output_tokens := total_output_tokens a + tok_output t;
  total_reasoning_tokens := total_reasoning_tokens a + tok_reasoning t;
  message_count := message_count a + 1
|}.

Definition _update_conversation_cost (self : Pipe) (conv_id : string)
    (cost : float) (t : tokens) : Pipe :=
  let costs := conversation_costs self in
  let costs1 :=
    match costs !! conv_id with
    | None => <[conv_id := new_account]> costs
    | Some _ => costs
    end in
  with_conversation_costs self (alter (fun a => add_to_account a cost t) conv_id costs1).

(** ** [Pipe._get_next_api_key] *)

Definition configured_keys (vs : Valves) : list string :=
  map strip (filter (fun k => str_nonempty (strip k) = true)
                    (str_split "," (API_KEYS vs))).

Definition _get_next_api_key (self : Pipe) : result (string * Pipe) :=
  let keys := configured_keys (valves self) in
  match keys with
  | [] => Raise (ValueError "No API keys configured")
  | k0 :: _ =>
      let key := nth (api_key_index self mod length keys) keys k0 in
      Ok (key, with_api_key_index self (api_key_index self + 1))
  end.

(** ** [Pipe.pipes] *)

Definition pipes (self : Pipe) : list value :=
  map (fun model =>
         VDict [("name", VStr (NAME_PREFIX (valves self) +:+ model));
                ("id", VStr model)])
      (openai_response_models self).

(** ** [Pipe._transform_messages] *)

(** [v[k]] for a string key: only a dict can be indexed by one. *)
Definition subscript (v : value) (k : string) : result value :=
  match v with
  | VDict d => dict_item d k
  | _ => Raise (Fault "subscript" v)
  end.

Definition input_text (text : value) : value :=
  VDict [("type", VStr "input_text"); ("text", text)].

Definition output_text_segment (text : value) : value :=
  VDict [("type", VStr "output_text"); ("text", text)].

Definition block (role : string) (content : list value) : value :=
  VDict [("role", VStr role); ("content", VList content)].

(** The inner loop over the parts of a user message. *)
Fixpoint transform_parts (content : list value) : result (list value) :=
  match content with
  | [] => Ok []
  | item :: rest =>
      (ty <- subscript item "type" ;;
       if is_str ty "text" then
         t <- subscript item "text" ;;
         segs <- transform_parts rest ;;
         Ok (input_text t :: segs)
       else if is_str ty "image_url" then
         image_url <- subscript item "image_url" ;;
         url <- subscript image_url "url" ;;
         segs <- transform_parts rest ;;
         Ok (VDict [("type", VStr "input_image"); ("image_url", url)] :: segs)
       else transform_parts rest)%res
  end.

(** The body of the [try]: the block a message becomes, if any. *)
Definition transform_message (message : value) : result (option value) :=
  (role <- get message "role" VNone ;;
   content <- get message "content" VNone ;;
   if is_str role "user" then
     match content with
     | VList parts =>
         segs <- transform_parts parts ;;
         Ok (Some (block "user" segs))
     | _ => Ok (Some (block "user" [input_text content]))
     end
   else if is_str role "assistant" then
     Ok (Some (block "assistant" [output_text_segment content]))
   else if is_str role "system" then
     Ok (Some (block "system" [input_text content]))
   else Ok None)%res.

Fixpoint transform_each (messages : list value) : result (list value) :=
  match messages with
  | [] => Ok []
  | message :: rest =>
      match transform_message message with
      | Raise _ => Raise (ValueError ("Invalid message format: " +:+ str message))
      | Ok b =>
          (bs <- transform_each rest ;;
           Ok (match b with
               | Some b' => b' :: bs
               | None => bs
               end))%res
      end
  end.

Definition _transform_messages (messages : value) : result (list value) :=
  (ms <- iter messages ;; transform_each ms)%res.

(** ** [Pipe._extract_text_from_output] *)

(** The segments collected from an assistant message item. *)
Fixpoint message_texts (content_items : list value) : list value :=
  match content_items with
  | [] => []
  | VDict d :: rest =>
      if is_str (dict_get d "type" VNone) "output_text" then
        let text := dict_get d "text" (VStr "") in
        if truthy text then text :: message_texts rest else message_texts rest
      else message_texts rest
  | _ :: rest => message_texts rest
  end.

(** The texts collected from a list-valued [content] of another item. *)
Fixpoint nested_texts (content : list value) : list value :=
  match content with
  | [] => []
  | VDict d :: rest =>
      if dict_has d "text" then dict_get d "text" VNone :: nested_texts rest
      else nested_texts rest
  | _ :: rest => nested_texts rest
  end.

(** What one output item appends to [text_parts]. *)
Definition item_texts (item : value) : result (list value) :=
  match item with
  | VDict d =>
      if is_str (dict_get d "type" VNone) "message"
         && is_str (dict_get d "role" VNone) "assistant"
      then
        (content_items <- iter (dict_get d "content" (VList [])) ;;
         Ok (message_texts content_items))%res
      else if dict_has d "text" then Ok [dict_get d "text" VNone]
      else if dict_has d "content" then
        match dict_get d "content" VNone with
        | VStr s => Ok [VStr s]
        | VList l => Ok (nested_texts l)
        | _ => Ok []
        end
      else Ok []
  | VStr s => Ok [VStr s]
  | _ => Ok []
  end.

Definition _extract_text_from_output (output_items : value) : result string :=
  (items <- iter output_items ;;
   parts <- rmap item_texts items ;;
   join nl (concat parts))%res.

(** The three extraction methods of [pipe], in order; [VNone] is
    Python's [None]. *)
Definition extract_output_text (response_data : dict) : result value :=
  let method1 :=
    if dict_has response_data "output_text"
       && truthy (dict_get response_data "output_text" VNone)
    then dict_get response_data "output_text" VNone
    else VNone in
  (method2 <-
     (if negb (truthy method1) && dict_has response_data "output" then
        s <- _extract_text_from_output (dict_get response_data "output" VNone) ;;
        Ok (VStr s)
      else Ok method1) ;;
   Ok (if negb (truthy method2) then
         let output_str := str (dict_get response_data "output" (VStr "")) in
         if str_contains "text='" output_str
            || str_contains ("text=" +:+ dquote) output_str
         then
           match findall_text output_str with
           | [] => method2
           | matches => VStr (str_join nl matches)
           end
         else method2
       else method2))%res.

(** ** Numbers: true division, and the two number formats *)

Definition sf_of_Z (z : Z) : spec_float :=
  match z with
  | Z0 => S754_zero false
  | Z.pos p => S754_finite false p 0
  | Z.neg p => S754_finite true p 0
  end.

(** [float(z)] for a small integer constant. *)
Definition float_of_Z (z : Z) : float :=
  SF2Prim (binary_normalize prec emax z 0 false).

(** [n / 1_000_000] on integers.  Operands below [2^53] are divided
    as floats; beyond, the quotient is rounded once, and one too large
    for a float is an error. *)
Definition per_million (n : Z) : result float :=
  if Z.abs n <? 2 ^ 53 then Ok (float_of_Z n / float_of_Z 1000000)%float
  else
    match SFdiv prec emax (sf_of_Z n) (sf_of_Z 1000000) with
    | S754_infinity _ => Raise OverflowError
    | q => Ok (SF2Prim q)
    end.

Fixpoint commas (k : nat) (rev_digits : list ascii) : list ascii :=
  match rev_digits with
  | [] => []
  | c :: r =>
      match k with
      | 3%nat => ","%char :: c :: commas 1 r
      | _ => c :: commas (S k) r
      end
  end.

(** [f"{z:,}"] *)
Definition group_thousands (z : Z) : string :=
  let digits := list_ascii_of_string (str_of_Z (Z.abs z)) in
  (if z <? 0 then "-" else "") +:+ string_of_list_ascii (rev (commas 0 (rev digits))).

(** [f"{v:,}"]: an integer prints with separators; the format is
    refused for anything else. *)
Definition fmt_grouped (v : value) : result string :=
  match as_int v with
  | Some z => Ok (group_thousands z)
  | None => Raise (Fault "format" v)
  end.

(** [v > 0] *)
Definition gt_zero (v : value) : result bool :=
  match as_int v with
  | Some z => Ok (0 <? z)
  | None => Raise (Fault ">" v)
  end.

(** [v / 1_000_000] *)
Definition truediv_million (v : value) : result float :=
  match as_int v with
  | Some z => per_million z
  | None => Raise (Fault "/" v)
  end.

Definition round_half_even (num den : Z) : Z :=
  let q := num / den in
  match (2 * (num mod den)) ?= den with
  | Lt => q
  | Gt => q + 1
  | Eq => if Z.even q then q else q + 1
  end.

Definition pad4 (s : string) : string :=
  str_drop (String.length s) "0000" +:+ s.

(** [f"{x:.4f}"]: the exact value rounded to four decimals, ties to
    even. *)
Definition fmt_4f (x : float) : string :=
  match Prim2SF x with
  | S754_nan => "nan"
  | S754_infinity s => if s then "-inf" else "inf"
  | S754_zero s => if s then "-0.0000" else "0.0000"
  | S754_finite s m e =>
      let n :=
        match e with
        | Z.neg p => round_half_even (Z.pos m * 10000) (2 ^ Z.pos p)
        | _ => Z.pos m * 10000 * 2 ^ e
        end in
      (if s then "-" else "")
      +:+ str_of_Z (n / 10000) +:+ "." +:+ pad4 (str_of_Z (n mod 10000))
  end.

(** ** Cost of one message *)

Definition pricing : list (string * (Z * Z)) :=
  [("o3-pro", (20, 80)); ("o1-pro", (150, 600))].

Fixpoint price_of (table : list (string * (Z * Z))) (model_id : string)
  : option (Z * Z) :=
  match table with
  | [] => None
  | (m, p) :: rest => if String.eqb m model_id then Some p else price_of rest model_id
  end.

(** The arithmetic of [pipe] on the three token counts read from the
    usage block: [current_cost] starts at [0.0] and is only computed
    for a model of the pricing table. *)
Definition current_cost (model_id : string)
    (input_tokens output_tokens reasoning_tokens : value) : result float :=
  match price_of pricing model_id with
  | None => Ok 0%float
  | Some (price_in, price_out) =>
      (i <- truediv_million input_tokens ;;
       let input_cost := (i * float_of_Z price_in)%float in
       o <- truediv_million output_tokens ;;
       let output_cost := (o * float_of_Z price_out)%float in
       billed <- gt_zero reasoning_tokens ;;
       reasoning_cost <-
         (if billed && String.eqb model_id "o3-pro" then
            r <- truediv_million reasoning_tokens ;;
            Ok (r * float_of_Z price_out)%float
          else Ok (float_of_Z 0)) ;;
       Ok (input_cost + output_cost + reasoning_cost)%float)%res
  end.

(** The reasoning-token count of a usage block, [0] without details. *)
Definition reasoning_of (usage : dict) : result value :=
  if dict_has usage "output_tokens_details" then
    get (dict_get usage "output_tokens_details" VNone) "reasoning_tokens" (VInt 0)
  else Ok (VInt 0).

(** The block of [pipe] under [if model_id in pricing]: the cost and
    the token counts handed to [_update_conversation_cost]; [None]
    when the model has no price, and nothing is updated then. *)
Definition usage_cost (model_id : string) (usage_data : value)
  : result (option (float * tokens)) :=
  match price_of pricing model_id with
  | None => Ok None
  | Some _ =>
      match usage_data with
      | VDict usage =>
          (let input_tokens := dict_get usage "input_tokens" (VInt 0) in
           let output_tokens := dict_get usage "output_tokens" (VInt 0) in
           reasoning_tokens <- reasoning_of usage ;;
           cost <- current_cost model_id input_tokens output_tokens reasoning_tokens ;;
           Ok (Some (cost,
                     {| tok_input := default 0 (as_int input_tokens);
                        tok_output := default 0 (as_int output_tokens);
                        tok_reasoning := default 0 (as_int reasoning_tokens) |})))%res
      | _ => Raise (Fault "get" usage_data)
      end
  end.

(** ** [Pipe._format_token_stats] *)

Definition of_bytes (codes : list nat) : string :=
  fold_right (fun n s => String (ascii_of_nat n) s) EmptyString codes.

(** The non-ASCII marks of the source literals, byte for byte. *)
Definition mark_stats : string := of_bytes [195; 176; 197; 184; 226; 128; 156; 197; 160]%nat.
Definition mark_totals : string := of_bytes [195; 176; 197; 184; 226; 128; 153; 194; 176]%nat.
Definition mark_warning : string := of_bytes [195; 162; 197; 161; 194; 160; 195; 175; 194; 184]%nat.
Definition mark_processing : string := of_bytes [195; 176; 197; 184; 226; 128; 157; 226; 128; 158]%nat.
Definition mark_tools : string := of_bytes [195; 176; 197; 184; 226; 128; 157; 194; 167]%nat.

Definition conversation_totals (a : account) : string :=
  nl +:+ mark_totals +:+ " **Conversation Totals**:" +:+ nl
  +:+ "- Messages: " +:+ str_of_Z (message_count a) +:+ nl
  +:+ "- Total Input: " +:+ group_thousands (total_input_tokens a) +:+ " tokens" +:+ nl
  +:+ (if 0 <? total_reasoning_tokens a then
         "- Total Reasoning: " +:+ group_thousands (total_reasoning_tokens a)
         +:+ " tokens" +:+ nl
       else "")
  +:+ "- Total Output: " +:+ group_thousands (total_output_tokens a) +:+ " tokens" +:+ nl
  +:+ "- **Total Cost**: $" +:+ fmt_4f (total_cost a) +:+ nl.

Definition _format_token_stats (self : Pipe) (usage : value)
    (model_id : string) (status incomplete_reason : value) (conv_id : string)
    (current_cost : float) : result string :=
  if negb (truthy usage) || negb (SHOW_TOKEN_STATS (valves self)) then Ok ""
  else
    match usage with
    | VDict u =>
        (let input_tokens := dict_get u "input_tokens" (VInt 0) in
         let output_tokens := dict_get u "output_tokens" (VInt 0) in
         let total_tokens := dict_get u "total_tokens" (VInt 0) in
         reasoning_tokens <- reasoning_of u ;;
         s_input <- fmt_grouped input_tokens ;;
         shown <- gt_zero reasoning_tokens ;;
         s_reasoning <-
           (if shown then
              g <- fmt_grouped reasoning_tokens ;;
              Ok ("- Reasoning: " +:+ g +:+ " tokens" +:+ nl)
            else Ok "") ;;
         s_output <- fmt_grouped output_tokens ;;
         s_total <- fmt_grouped total_tokens ;;
         let cumulative :=
           if SHOW_CUMULATIVE_COST (valves self) && str_nonempty conv_id then
             match conversation_costs self !! conv_id with
             | Some conv_stats => conversation_totals conv_stats
             | None => ""
             end
           else "" in
         let incomplete :=
           if is_str status "incomplete" then
             nl +:+ mark_warning +:+ " **Response Status**: Incomplete"
             +:+ (if truthy incomplete_reason then
                    " (Reason: " +:+ str incomplete_reason +:+ ")"
                  else "")
             +:+ nl
           else "" in
         Ok (nl +:+ nl +:+ "---" +:+ nl +:+ mark_stats
             +:+ " **Token Usage (This Message)**:" +:+ nl
             +:+ "- Input: " +:+ s_input +:+ " tokens" +:+ nl
             +:+ s_reasoning
             +:+ "- Output: " +:+ s_output +:+ " tokens" +:+ nl
             +:+ "- Total: " +:+ s_total +:+ " tokens" +:+ nl
             +:+ "- **Cost for this message**: $" +:+ fmt_4f current_cost +:+ nl
             +:+ cumulative +:+ incomplete +:+ "---"))%res
    | _ => Raise (Fault "get" usage)
    end.

(** ** The network, and generators *)

Record request : Type := {
  req_url : string;
  req_headers : list (string * string);
  req_json : value;
  req_timeout : Z
}.

(** What [pipe] reads of an [httpx] response; [json] is the decoded
    body, an object, or the error raised by decoding. *)
Record response : Type := {
  status_code : Z;
  text : string;
  json : result dict
}.

(** [client.post]: a response, or an exception ([TimeoutException]
    among them). *)
Definition network : Type := request -> result response.

#[projections(primitive)]
Record run (A : Type) : Type := {
  yielded : list value;
  sent : list request;
  final : Pipe;
  outcome : result A
}.
Arguments yielded {A} r.
Arguments sent {A} r.
Arguments final {A} r.
Arguments outcome {A} r.

Definition gen (A : Type) : Type := Pipe -> run A.

Definition gret {A} (a : A) : gen A :=
  fun self => {| yielded := []; sent := []; final := self; outcome := Ok a |}.

Definition gbind {A B} (m : gen A) (k : A -> gen B) : gen B :=
  fun self =>
    let r := m self in
    match outcome r with
    | Ok a =>
        let r' := k a (final r) in
        {| yielded := yielded r ++ yielded r';
           sent := sent r ++ sent r';
           final := final r';
           outcome := outcome r' |}
    | Raise e =>
        {| yielded := yielded r; sent := sent r; final := final r;
           outcome := Raise e |}
    end.

Declare Scope gen_scope.
Delimit Scope gen_scope with gen.
Notation "x <- m ;; k" := (gbind m (fun x => k))
  (at level 100, m at next level, right associativity) : gen_scope.
Notation "m ;; k" := (gbind m (fun _ => k))
  (at level 100, right associativity) : gen_scope.

(** [yield v] *)
Definition yield (v : value) : gen unit :=
  fun self => {| yielded := [v]; sent := []; final := self; outcome := Ok tt |}.

(** A call that may raise and touches no state. *)
Definition lift {A} (r : result A) : gen A :=
  fun self => {| yielded := []; sent := []; final := self; outcome := r |}.

(** Reading [self]. *)
Definition this : gen Pipe :=
  fun self => {| yielded := []; sent := []; final := self; outcome := Ok self |}.

(** A method that may raise and returns an updated instance. *)
Definition method {A} (f : Pipe -> result (A * Pipe)) : gen A :=
  fun self =>
    match f self with
    | Ok (a, self') => {| yielded := []; sent := []; final := self'; outcome := Ok a |}
    | Raise e => {| yielded := []; sent := []; final := self; outcome := Raise e |}
    end.

Definition update (f : Pipe -> Pipe) : gen unit :=
  fun self => {| yielded := []; sent := []; final := f self; outcome := Ok tt |}.

(** [await client.post(...)] *)
Definition post (net : network) (rq : request) : gen response :=
  fun self => {| yielded := []; sent := [rq]; final := self; outcome := net rq |}.

(** A run that follows some yields and requests. *)
Definition prepend {A} (ys : list value) (ss : list request) (r : run A) : run A :=
  {| yielded := ys ++ yielded r; sent := ss ++ sent r;
     final := final r; outcome := outcome r |}.

(** The run of a call that raises at once. *)
Definition raised {A} (e : exn) (self : Pipe) : run A :=
  {| yielded := []; sent := []; final := self; outcome := Raise e |}.

(** ** [Pipe.pipe] *)

(** [body["model"][body["model"].find(".") + 1 :]] *)
Definition model_suffix (model : value) : result string :=
  match model with
  | VStr m => Ok (str_from (str_find "." m + 1) m)
  | _ => Raise (Fault "find" model)
  end.

Definition supported (self : Pipe) (model_id : string) : bool :=
  existsb (String.eqb model_id) (openai_response_models self).

Definition unsupported_text (model_id : string) : string :=
  "Error: Model " +:+ model_id
  +:+ " not supported. Only o1-pro and o3-pro are available.".

Definition payload (self : Pipe) (model_id : string) (input : list value) : value :=
  VDict [("model", VStr model_id);
         ("reasoning", VDict [("effort", VStr (strip (THINKING_EFFORT (valves self))))]);
         ("max_output_tokens",
          VInt (Z.min (Z.max (MAX_OUTPUT_TOKENS (valves self)) 1) 32768));
         ("input", VList input)].

(** The one request of a turn: the POST to [{BASE_URL}/responses]. *)
Definition responses_request (self : Pipe) (api_key model_id : string)
    (input : list value) : request :=
  {| req_url := BASE_URL (valves self) +:+ "/responses";
     req_headers := [("Authorization", "Bearer " +:+ api_key);
                     ("Content-Type", "application/json")];
     req_json := payload self model_id input;
     req_timeout := TIMEOUT_SECONDS (valves self) |}.

Definition processing_text (model_id : string) (n : Z) : string :=
  mark_processing +:+ " Processing with " +:+ model_id +:+ " (Message #"
  +:+ str_of_Z n +:+ " in conversation)..." +:+ nl +:+ nl.

Definition no_text : string := "No response text found in the API response.".

Definition no_usage_text : string :=
  nl +:+ nl +:+ "---" +:+ nl +:+ mark_stats
  +:+ " **Token Usage**: Not available in response" +:+ nl +:+ "---".

(** The status block: the status, the reason ([VNone] unless the
    response is incomplete), and the notes it yields. *)
Definition report_status (response_data : dict) : gen (value * value) :=
  (let status := dict_get response_data "status" (VStr "completed") in
   if is_str status "incomplete" then
     self <- this ;;
     incomplete_reason <-
       lift (get (dict_get response_data "incomplete_details" (VDict []))
                 "reason" (VStr "Unknown")) ;;
     yield (VStr (nl +:+ nl +:+ mark_warning
                  +:+ " **Note**: Response was truncated due to: "
                  +:+ str incomplete_reason)) ;;
     (if is_str incomplete_reason "max_output_tokens" then
        yield (VStr (nl +:+ "Consider increasing MAX_OUTPUT_TOKENS (currently set to "
                     +:+ str_of_Z (MAX_OUTPUT_TOKENS (valves self)) +:+ ")"))
      else gret tt) ;;
     gret (status, incomplete_reason)
   else gret (status, VNone))%gen.

(** The loop that collects the tool items of the output. *)
Fixpoint tools_of (output_items : list value) : list string :=
  match output_items with
  | [] => []
  | VDict d :: rest =>
      let ty := dict_get d "type" VNone in
      if is_str ty "file_search" then "file_search" :: tools_of rest
      else if is_str ty "function" then "function" :: tools_of rest
      else tools_of rest
  | _ :: rest => tools_of rest
  end.

Definition report_tools (rt : Runtime) (response_data : dict) : gen unit :=
  (output_items <- lift (iter (dict_get response_data "output" (VList []))) ;;
   match tools_of output_items with
   | [] => gret tt
   | tools_used =>
       yield (VStr (nl +:+ nl +:+ mark_tools +:+ " **Tools used**: "
                    +:+ str_join ", " (set_iter rt tools_used)))
   end)%gen.

(** The accounting block: cost, update of the totals, statistics. *)
Definition report_usage (rt : Runtime) (response_data : dict) (model_id conv_id : string)
    (status incomplete_reason : value) : gen unit :=
  (let usage_data := dict_get response_data "usage" (VDict []) in
   if truthy usage_data then
     priced <- lift (usage_cost model_id usage_data) ;;
     cost <-
       match priced with
       | Some (cost, t) =>
           update (fun self => _update_conversation_cost self conv_id cost t) ;;
           gret cost
       | None => gret 0%float
       end ;;
     self <- this ;;
     stats <- lift (_format_token_stats self usage_data model_id status
                      incomplete_reason conv_id cost) ;;
     if str_nonempty stats then yield (VStr stats) else gret tt
   else
     self <- this ;;
     if SHOW_TOKEN_STATS (valves self) then yield (VStr no_usage_text) else gret tt)%gen.

(** What follows a response with status 200. *)
Definition report_response (rt : Runtime) (resp : response) (model_id conv_id : string)
  : gen unit :=
  (response_data <- lift (json resp) ;;
   output_text <- lift (extract_output_text response_data) ;;
   yield (if truthy output_text then output_text else VStr no_text) ;;
   st <- report_status response_data ;;
   report_tools rt response_data ;;
   report_usage rt response_data model_id conv_id (fst st) (snd st))%gen.

(** The body of the [try]. *)
Definition pipe_try (rt : Runtime) (net : network) (body user : dict) : gen unit :=
  (self <- this ;;
   conv_id <- lift (_get_conversation_id self body user) ;;
   api_key <- method _get_next_api_key ;;
   model <- lift (dict_item body "model") ;;
   model_id <- lift (model_suffix model) ;;
   if negb (supported self model_id) then
     yield (VStr (unsupported_text model_id))
   else
     messages <- lift (dict_item body "messages") ;;
     input <- lift (_transform_messages messages) ;;
     let current_message_number :=
       match conversation_costs self !! conv_id with
       | Some a => message_count a + 1
       | None => 1
       end in
     yield (VStr (processing_text model_id current_message_number)) ;;
     resp <- post net (responses_request self api_key model_id input) ;;
     if negb (status_code resp =? 200) then
       yield (VStr ("Error: " +:+ str_of_Z (status_code resp) +:+ " " +:+ text resp))
     else report_response rt resp model_id conv_id)%gen.

Definition timeout_text (self : Pipe) : string :=
  "Error: Request timed out after "
  +:+ str_of_Z (TIMEOUT_SECONDS (valves self)) +:+ " seconds.".

(** [pipe]: the [try] with its two handlers.  An exception that no
    handler caught would be a [Raise] outcome. *)
Definition pipe (rt : Runtime) (net : network) (body user : dict) : gen unit :=
  fun self =>
    let r := pipe_try rt net body user self in
    match outcome r with
    | Ok _ => r
    | Raise TimeoutException =>
        {| yielded := yielded r ++ [VStr (timeout_text (final r))];
           sent := sent r; final := final r; outcome := Ok tt |}
    | Raise e =>
        {| yielded := yielded r ++ [VStr ("Error: " +:+ exn_str rt e)];
           sent := sent r; final := final r; outcome := Ok tt |}
    end.

(** ** Definitions the statements below use *)

(** [n] calls of [_get_next_api_key] in a row: the keys returned, in
    order, and the instance after the last call. *)
Fixpoint next_keys (n : nat) (self : Pipe) : result (list string * Pipe) :=
  match n with
  | O => Ok ([], self)
  | S n' =>
      (r <- _get_next_api_key self ;;
       rs <- next_keys n' (snd r) ;;
       Ok (fst r :: fst rs, snd rs))%res
  end.

(** The indices [0, 1, ..., K-1, 0, 1, ...] of the first [n] turns of a
    rotation over [K] positions. *)
Definition cyclic_indices (n K : nat) : list nat :=
  map (fun i => (i mod K)%nat) (seq 0 n).

(** The cost formula as the specification words it. *)
Definition spec_cost (model_id : string) (input_tokens output_tokens reasoning_tokens : Z)
  : float :=
  match price_of pricing model_id with
  | None => 0%float
  | Some (input_price, output_price) =>
      (float_of_Z input_tokens / 1000000 * float_of_Z input_price
       + float_of_Z output_tokens / 1000000 * float_of_Z output_price
       + (if (0 <? reasoning_tokens)%Z && String.eqb model_id "o3-pro"
          then float_of_Z reasoning_tokens / 1000000 * float_of_Z output_price
          else 0))%float
  end.

(** The suffix after the last dot, as the specification words the
    model identifier ([None]: no dot seen yet). *)
Fixpoint after_last_dot (s : string) : option string :=
  match s with
  | EmptyString => None
  | String c r =>
      match after_last_dot r with
      | Some t => Some t
      | None => if Ascii.eqb c "." then Some r else None
      end
  end.

Definition suffix_after_last_dot (s : string) : string :=
  default s (after_last_dot s).

(** Shapes of messages in a history. *)
Definition is_message (m : value) : Prop :=
  match m with
  | VDict _ => True
  | _ => False
  end.

(** A message whose role is not ["user"]. *)
Definition not_user (m : value) : Prop :=
  match m with
  | VDict d => is_str (dict_get d "role" VNone) "user" = false
  | _ => False
  end.

(** A message of role ["user"] with the given content. *)
Definition user_message (content : value) (m : value) : Prop :=
  match m with
  | VDict d =>
      is_str (dict_get d "role" VNone) "user" = true
      /\ dict_get d "content" (VStr "") = content
  | _ => False
  end.

(** A part of a multi-part content that is not of type ["text"]. *)
Definition not_text_part (p : value) : Prop :=
  match p with
  | VDict d => is_str (dict_get d "type" VNone) "text" = false
  | _ => False
  end.

(** The status of a response, and the reason of an incomplete one
    ([VNone] otherwise), as [pipe] reads them. *)
Definition status_of (response_data : dict) : value :=
  dict_get response_data "status" (VStr "completed").

Definition incomplete_reason_of (response_data : dict) : result value :=
  if is_str (status_of response_data) "incomplete" then
    get (dict_get response_data "incomplete_details" (VDict [])) "reason" (VStr "Unknown")
  else Ok VNone.

(** The input contract of a history: a list of message dicts whose
    content, when it is a list, is a list of part dicts, the text
    parts carrying a string. *)
Definition well_formed_part (p : value) : Prop :=
  match p with
  | VDict d =>
      is_str (dict_get d "type" VNone) "text" = true ->
      exists s, dict_get d "text" (VStr "") = VStr s
  | _ => False
  end.

Definition well_formed_message (m : value) : Prop :=
  match m with
  | VDict d =>
      match dict_get d "content" (VStr "") with
      | VList parts => Forall well_formed_part parts
      | _ => True
      end
  | _ => False
  end.

Definition well_formed_body (body : dict) : Prop :=
  exists messages,
    dict_lookup body "messages" = Some (VList messages)
    /\ Forall well_formed_message messages.

(** A runtime to evaluate examples on: errors of the interpreter
    print the refused operation, and a set keeps the order of first
    occurrence. *)
Definition sample_runtime : Runtime := {|
  fault_str := fun op _ => "unsupported operation: " +:+ op;
  set_iter := fun l => remove_dups l
|}.

Definition user_msg (s : string) : value :=
  VDict [("role", VStr "user"); ("content", VStr s)].

Definition assistant_msg (s : string) : value :=
  VDict [("role", VStr "assistant"); ("content", VStr s)].

Definition sample_user : dict := [("id", VStr "u1")].

Definition sample_body (model : string) (messages : list value) : dict :=
  [("model", VStr model); ("messages", VList messages)].

Definition with_keys (self : Pipe) (keys : string) : Pipe :=
  with_valves self {|
    NAME_PREFIX := NAME_PREFIX (valves self);
    BASE_URL := BASE_URL (valves self);
    API_KEYS := keys;
    THINKING_EFFORT := THINKING_EFFORT (valves self);
    SHOW_TOKEN_STATS := SHOW_TOKEN_STATS (valves self);
    SHOW_CUMULATIVE_COST := SHOW_CUMULATIVE_COST (valves self);
    MAX_OUTPUT_TOKENS := MAX_OUTPUT_TOKENS (valves self);
    TIMEOUT_SECONDS := TIMEOUT_SECONDS (valves self);
    DEBUG_MODE := DEBUG_MODE (valves self)
  |}.


(** A usage block with reasoning details. *)
Definition sample_usage : value :=
  VDict [("input_tokens", VInt 1000); ("output_tokens", VInt 2000);
         ("total_tokens", VInt 3000);
         ("output_tokens_details", VDict [("reasoning_tokens", VInt 500)])].

(** A network that answers every request with the same response. *)
Definition answering (resp : response) : network := fun _ => Ok resp.

(** A network on which every request fails with the same exception. *)
Definition failing (e : exn) : network := fun _ => Raise e.

Definition ok_response (data : dict) : response :=
  {| status_code := 200; text := ""; json := Ok data |}.

(** ** Definitions the further statements use *)

(** The number [pipe] announces for the next message of a
    conversation. *)
Definition next_message_number (self : Pipe) (conv_id : string) : Z :=
  match conversation_costs self !! conv_id with
  | Some a => message_count a + 1
  | None => 1
  end.

(** [isinstance(m, dict)] *)
Definition is_object (m : value) : bool :=
  match m with
  | VDict _ => true
  | _ => false
  end.

(** The role of a message or of a block of the input. *)
Definition role_of (m : value) : value :=
  match m with
  | VDict d => dict_get d "role" VNone
  | _ => VNone
  end.

(** The roles [_transform_messages] has a branch for. *)
Definition known_role (m : value) : bool :=
  is_str (role_of m) "user" || is_str (role_of m) "assistant"
  || is_str (role_of m) "system".

(** An assistant message of a response, with its text segments. *)
Definition output_message (texts : list string) : value :=
  VDict [("type", VStr "message"); ("role", VStr "assistant");
         ("content", VList (map (fun t => output_text_segment (VStr t)) texts))].

(** A session: the turns the host makes one after the other on one
    instance, each with its own network, body and user. *)
Fixpoint turns (rt : Runtime) (ts : list (network * dict * dict)) (self : Pipe) : Pipe :=
  match ts with
  | [] => self
  | (net, body, user) :: rest => turns rt rest (final (pipe rt net body user self))
  end.

(** * Properties *)

(** ** Strings *)

Lemma str_find_no_dot (c : ascii) (p : string) :
  str_has c p = false -> str_find c p = -1.
Proof.
  induction p as [|a p IH]; simpl; [reflexivity|].
  destruct (Ascii.eqb a c); simpl; [discriminate|].
  intros H. rewrite (IH H). reflexivity.
Qed.

Lemma str_app_nil (s : string) : "" +:+ s = s.
Proof. reflexivity. Qed.

Lemma str_app_cons (a : ascii) (p s : string) :
  String a p +:+ s = String a (p +:+ s).
Proof. reflexivity. Qed.

Lemma str_app_assoc (a b c : string) : a +:+ b +:+ c = (a +:+ b) +:+ c.
Proof.
  induction a as [|x a IH]; [reflexivity|].
  rewrite !str_app_cons, IH. reflexivity.
Qed.

Lemma str_length_app (a b : string) :
  String.length (a +:+ b) = (String.length a + String.length b)%nat.
Proof.
  induction a as [|x a IH]; [reflexivity|].
  rewrite str_app_cons. simpl. rewrite IH. reflexivity.
Qed.

Lemma str_find_first (c : ascii) (p s : string) :
  str_has c p = false ->
  str_find c (p +:+ String c s) = Z.of_nat (String.length p).
Proof.
  induction p as [|a p IH].
  - intros _. rewrite str_app_nil. simpl. rewrite Ascii.eqb_refl. reflexivity.
  - rewrite str_app_cons. simpl.
    destruct (Ascii.eqb a c); simpl; [discriminate|].
    intros H. rewrite (IH H).
    destruct (String.length p); simpl; [reflexivity|].
    f_equal. lia.
Qed.

Lemma str_drop_app (p s : string) :
  str_drop (String.length p) (p +:+ s) = s.
Proof.
  induction p as [|a p IH]; [destruct s; reflexivity|].
  rewrite str_app_cons. simpl. exact IH.
Qed.

Lemma str_take_nonempty (n : nat) (s : string) :
  str_nonempty (str_take (S n) s) = str_nonempty s.
Proof. destruct s; reflexivity. Qed.

(** ** SHA-256 and the conversation identifier on known values *)

Lemma sha256_known_digests :
  SHA256.hexdigest ""
  = "e3b0c44298fc1c149afbf4c8996fb92427ae41e4649b934ca495991b7852b855"
  /\ SHA256.hexdigest "abc"
     = "ba7816bf8f01cfea414140de5dae2223b00361a396177a9cb410ff61f20015ad"
  /\ SHA256.hexdigest (String.concat "" (repeat "a" 56))
     = "b35439a4ac6f0948b6d6f9e3c6af0f5f590ce20f1bde7090ef7970686ec6738a"
  /\ SHA256.hexdigest (String.concat "" (repeat "x" 200))
     = "aa20c23e3201834050679e1d88941b9a6fed0557c9a705cb2c315e2e63fd486d".
Proof. vm_compute. repeat split; reflexivity. Qed.

Lemma conversation_id_example :
  _get_conversation_id init
    (sample_body "openai.o3-pro" [user_msg "hello"; assistant_msg "hi"]) sample_user
  = Ok "conv_u1_5a35054eb23d7d5b"
  /\ conv_id_of "u1" "no_message" = "conv_u1_bf962c65dc41bcb7".
Proof. vm_compute. split; reflexivity. Qed.

(** ** The model identifier (C7) *)

(** C7, as amended: [pipe] resolves the model identifier as the part of
    [body["model"]] after its FIRST dot, and as the whole string when
    it has no dot; with several dots, everything after the first one
    is compared against the supported models. *)
Theorem model_suffix_after_first_dot (prefix rest : string) :
  str_has "." prefix = false ->
  model_suffix (VStr (prefix +:+ "." +:+ rest)) = Ok rest
  /\ model_suffix (VStr prefix) = Ok prefix.
Proof.
  intros Hp. unfold model_suffix, str_from. split; f_equal.
  - change ("." +:+ rest) with (String "." rest).
    rewrite (str_find_first _ _ _ Hp).
    replace (Z.to_nat (Z.of_nat (String.length prefix) + 1))
      with (String.length (prefix +:+ ".")) by (rewrite str_length_app; simpl; lia).
    change (String "." rest) with ("." +:+ rest).
    rewrite str_app_assoc. apply str_drop_app.
  - rewrite (str_find_no_dot _ _ Hp). reflexivity.
Qed.

(** C7 on an identifier with two dots: the code keeps ["v1.o3-pro"],
    the segment after the last dot is ["o3-pro"], only the latter is
    a supported model, and the turn is refused. *)
Lemma model_suffix_two_dots :
  model_suffix (VStr "openai.v1.o3-pro") = Ok "v1.o3-pro"
  /\ suffix_after_last_dot "openai.v1.o3-pro" = "o3-pro"
  /\ supported init "v1.o3-pro" = false
  /\ supported init "o3-pro" = true
  /\ yielded (pipe sample_runtime (answering (ok_response []))
                (sample_body "openai.v1.o3-pro" [user_msg "hello"]) sample_user
                (with_keys init "k1"))
     = [VStr "Error: Model v1.o3-pro not supported. Only o1-pro and o3-pro are available."].
Proof. repeat split; reflexivity. Qed.

Lemma model_suffix_first_dot_witness :
  model_suffix (VStr ("openai" +:+ "." +:+ "v1.o3-pro")) = Ok "v1.o3-pro"
  /\ model_suffix (VStr "openai") = Ok "openai".
Proof. apply model_suffix_after_first_dot. reflexivity. Defined.

(** ** The cost of a message (C2) *)

Lemma per_million_small (n : Z) :
  0 <= n < 2 ^ 53 ->
  per_million n = Ok (float_of_Z n / 1000000)%float.
Proof.
  intros H. unfold per_million.
  replace (Z.abs n <? 2 ^ 53) with true by (symmetry; apply Z.ltb_lt; lia).
  reflexivity.
Qed.

(** C2: on integer token counts (below [2^53]) the cost computed by
    [pipe] is the specification's formula: tokens per million times
    the input and output prices, plus the reasoning tokens at the
    output price for o3-pro when there are some; one million input and
    one million output tokens on o3-pro cost exactly 100.0; a model
    without a price costs 0.0 and raises nothing. *)
Theorem current_cost_formula (model_id : string) (input_tokens output_tokens reasoning_tokens : Z) :
  (0 <= input_tokens < 2 ^ 53 ->
   0 <= output_tokens < 2 ^ 53 ->
   0 <= reasoning_tokens < 2 ^ 53 ->
   current_cost model_id (VInt input_tokens) (VInt output_tokens) (VInt reasoning_tokens)
   = Ok (spec_cost model_id input_tokens output_tokens reasoning_tokens))
  /\ current_cost "o3-pro" (VInt 1000000) (VInt 1000000) (VInt 0) = Ok 100%float
  /\ (price_of pricing model_id = None ->
      forall i o r : value, current_cost model_id i o r = Ok 0%float).
Proof.
  split; [|split].
  - intros Hi Ho Hr. unfold current_cost, spec_cost.
    destruct (price_of pricing model_id) as [[price_in price_out]|]; [|reflexivity].
    unfold truediv_million, gt_zero; simpl.
    rewrite (per_million_small _ Hi), (per_million_small _ Ho); simpl.
    destruct ((0 <? reasoning_tokens) && String.eqb model_id "o3-pro"); simpl.
    + rewrite (per_million_small _ Hr). reflexivity.
    + reflexivity.
  - reflexivity.
  - intros Hnone i o r. unfold current_cost. rewrite Hnone. reflexivity.
Qed.

Lemma current_cost_formula_witness :
  current_cost "o3-pro" (VInt 1234) (VInt 567) (VInt 89)
  = Ok (spec_cost "o3-pro" 1234 567 89)
  /\ (forall i o r : value, current_cost "gpt-4" i o r = Ok 0%float).
Proof.
  split.
  - apply (proj1 (current_cost_formula "o3-pro" 1234 567 89)); lia.
  - apply (proj2 (proj2 (current_cost_formula "gpt-4" 0 0 0))). reflexivity.
Defined.

(** ** Extraction of the response text (C5) *)





(** ** Credential rotation (C4) *)

Lemma succ_div_mod (n K : nat) :
  (0 < K)%nat ->
  (S n mod K = 0 /\ S n / K = S (n / K) /\ S (n mod K) = K)%nat
  \/ (S n mod K = S (n mod K) /\ S n / K = n / K /\ S (n mod K) < K)%nat.
Proof.
  intros HK.
  pose proof (Nat.div_mod_eq n K) as Hn.
  pose proof (Nat.mod_upper_bound n K ltac:(lia)) as Hm.
  destruct (decide (S (n mod K) = K)) as [Heq|Hne].
  - left. split; [|split; [|exact Heq]].
    + symmetry. apply (Nat.mod_unique _ K (S (n / K))); lia.
    + symmetry. apply (Nat.div_unique _ K _ 0%nat); lia.
  - right. split; [|split; [|lia]].
    + symmetry. apply (Nat.mod_unique _ K (n / K)); lia.
    + symmetry. apply (Nat.div_unique _ K _ (S (n mod K))); lia.
Qed.

Lemma cyclic_indices_succ (n K : nat) :
  cyclic_indices (S n) K = cyclic_indices n K ++ [(n mod K)%nat].
Proof. unfold cyclic_indices. rewrite seq_S, map_app. reflexivity. Qed.

(** Position [j] is taken [n / K] times, and once more when [j] is
    below the remainder. *)
Lemma cyclic_indices_count (n K j : nat) :
  (j < K)%nat ->
  count_occ Nat.eq_dec (cyclic_indices n K) j
  = (n / K + (if (j <? n mod K)%nat then 1 else 0))%nat.
Proof.
  intros Hj. induction n as [|n IH].
  - simpl. rewrite Nat.Div0.div_0_l, Nat.Div0.mod_0_l. reflexivity.
  - rewrite cyclic_indices_succ, count_occ_app, IH. simpl.
    destruct (succ_div_mod n K ltac:(lia)) as [(Hm & Hd & Hk)|(Hm & Hd & Hk)];
      rewrite Hm, Hd;
      destruct (Nat.eq_dec (n mod K)%nat j);
      destruct (Nat.ltb_spec j (n mod K)%nat);
      try destruct (Nat.ltb_spec j 0%nat);
      try destruct (Nat.ltb_spec j (S (n mod K))%nat);
      lia.
Qed.

Lemma next_key_step (self : Pipe) (keys : list string) :
  configured_keys (valves self) = keys ->
  keys <> [] ->
  _get_next_api_key self
  = Ok (nth (api_key_index self mod length keys) keys "",
        with_api_key_index self (api_key_index self + 1)).
Proof.
  intros Hk Hne. unfold _get_next_api_key. rewrite Hk.
  destruct keys as [|k0 ks]; [congruence|].
  do 2 f_equal. apply nth_indep.
  apply Nat.mod_upper_bound. discriminate.
Qed.

Lemma next_keys_from (n : nat) (self : Pipe) (keys : list string) :
  configured_keys (valves self) = keys ->
  keys <> [] ->
  next_keys n self
  = Ok (map (fun i => nth ((api_key_index self + i) mod length keys) keys "") (seq 0 n),
        with_api_key_index self (api_key_index self + n)).
Proof.
  revert self. induction n as [|n IH]; intros self Hk Hne.
  - simpl. rewrite Nat.add_0_r. destruct self; reflexivity.
  - cbn [next_keys]. rewrite (next_key_step self keys Hk Hne). cbn [rbind fst snd].
    rewrite (IH (with_api_key_index self (api_key_index self + 1)) Hk Hne).
    cbn [rbind fst snd]. f_equal. f_equal.
    + cbn [seq map]. rewrite Nat.add_0_r. f_equal.
      rewrite <- seq_shift, map_map. apply map_ext. intros i. simpl.
      do 2 f_equal. lia.
    + unfold with_api_key_index. simpl. f_equal. lia.
Qed.

(** C4: on a fresh instance (cursor 0) with [K >= 1] configured
    credentials, [N] calls return the credentials at positions
    [0, 1, ..., K-1, 0, 1, ...] in this order and leave the cursor at
    [N]; every position is taken [N div K] or [N div K + 1] times; and
    each call, from any cursor, selects position [cursor mod K] and
    then adds one to the cursor. *)
Theorem round_robin (self : Pipe) (keys : list string) (N : nat) :
  configured_keys (valves self) = keys ->
  (1 <= length keys)%nat ->
  api_key_index self = 0%nat ->
  next_keys N self
  = Ok (map (fun i => nth i keys "") (cyclic_indices N (length keys)),
        with_api_key_index self N)
  /\ (forall j, (j < length keys)%nat ->
        count_occ Nat.eq_dec (cyclic_indices N (length keys)) j = (N / length keys)%nat
        \/ count_occ Nat.eq_dec (cyclic_indices N (length keys)) j
           = (N / length keys + 1)%nat)
  /\ (forall p : Pipe,
        configured_keys (valves p) = keys ->
        _get_next_api_key p
        = Ok (nth (api_key_index p mod length keys) keys "",
              with_api_key_index p (api_key_index p + 1))).
Proof.
  intros Hk HK H0.
  assert (Hne : keys <> []) by (destruct keys; [simpl in HK; lia|discriminate]).
  split; [|split].
  - rewrite (next_keys_from N self keys Hk Hne), H0. simpl.
    unfold cyclic_indices. rewrite map_map. reflexivity.
  - intros j Hj. rewrite (cyclic_indices_count N _ j Hj).
    destruct (j <? N mod length keys)%nat; [right|left]; lia.
  - intros p Hp. apply next_key_step; assumption.
Qed.

Lemma round_robin_witness :
  let self := with_keys init "k1, k2 ,,k3" in
  next_keys 5 self = Ok (["k1"; "k2"; "k3"; "k1"; "k2"], with_api_key_index self 5)
  /\ (count_occ Nat.eq_dec (cyclic_indices 5 3) 2%nat = (5 / 3)%nat
      \/ count_occ Nat.eq_dec (cyclic_indices 5 3) 2%nat = (5 / 3 + 1)%nat)
  /\ _get_next_api_key (with_api_key_index self 7)
     = Ok ("k2", with_api_key_index self 8).
Proof.
  cbv zeta.
  pose proof (round_robin (with_keys init "k1, k2 ,,k3") ["k1"; "k2"; "k3"] 5
                eq_refl ltac:(simpl; lia) eq_refl) as (Hkeys & Hcount & Hstep).
  split; [exact Hkeys|]. split.
  - apply (Hcount 2%nat). simpl. lia.
  - apply (Hstep (with_api_key_index (with_keys init "k1, k2 ,,k3") 7)). reflexivity.
Defined.

(** ** The conversation identifier (C3, C10) *)

Lemma not_user_is_message (m : value) : not_user m -> is_message m.
Proof. destruct m; simpl; auto. Qed.

Lemma user_message_is_message (c m : value) : user_message c m -> is_message m.
Proof. destruct m; simpl; auto. Qed.

Lemma first_user_message_skip (pre rest : list value) :
  Forall not_user pre ->
  first_user_message (pre ++ rest) = first_user_message rest.
Proof.
  induction 1 as [|m pre Hm _ IH]; [reflexivity|].
  destruct m; simpl in Hm; try contradiction.
  simpl. rewrite Hm. exact IH.
Qed.

Lemma first_user_message_none (l : list value) :
  Forall not_user l -> first_user_message l = Ok None.
Proof.
  intros H. rewrite <- (app_nil_r l). apply first_user_message_skip, H.
Qed.

Lemma first_user_message_hit (c m : value) (t : string) (later : list value) :
  user_message c m ->
  content_text c = Ok t ->
  first_user_message (m :: later) = Ok (Some t).
Proof.
  intros Hm Ht. destruct m; simpl in Hm; try contradiction.
  destruct Hm as [Hrole Hc]. simpl. rewrite Hrole, Hc, Ht. reflexivity.
Qed.

Lemma debug_count_total (l : list value) :
  Forall is_message l -> exists n, debug_count_user_messages l = Ok n.
Proof.
  intros H. unfold debug_count_user_messages.
  assert (exists roles, rmap (fun m => get m "role" VNone) l = Ok roles) as [roles ->].
  { induction H as [|m l Hm _ [roles IH]]; [eexists; reflexivity|].
    destruct m; simpl in Hm; try contradiction.
    simpl. rewrite IH. eexists; reflexivity. }
  eexists; reflexivity.
Qed.

(** The identifier of a history, in closed form.  The debug branch
    walks over every message, so it needs all of them to be dicts. *)
Lemma conversation_id_closed_form (self : Pipe) (body user : dict)
    (messages : list value) (first : option string) :
  dict_lookup body "messages" = Some (VList messages) ->
  (DEBUG_MODE (valves self) = true -> Forall is_message messages) ->
  first_user_message messages = Ok first ->
  _get_conversation_id self body user
  = Ok (conv_id_of (str (dict_get user "id" (VStr "unknown")))
          (take_chars 50 (message_or_placeholder first))).
Proof.
  intros Hb Hall Hfirst. unfold _get_conversation_id, dict_get.
  rewrite Hb. simpl. rewrite Hfirst. simpl.
  destruct (DEBUG_MODE (valves self)); [|reflexivity].
  destruct (debug_count_total messages (Hall eq_refl)) as [n ->]. reflexivity.
Qed.

Lemma history_is_messages (pre later : list value) (c m : value) (debug : bool) :
  Forall not_user pre -> user_message c m ->
  (debug = true -> Forall is_message later) ->
  debug = true -> Forall is_message (pre ++ m :: later).
Proof.
  intros Hpre Hm Hlater Hd. apply Forall_app. split.
  - eapply Forall_impl; [exact Hpre|]. apply not_user_is_message.
  - constructor; [eapply user_message_is_message; exact Hm | exact (Hlater Hd)].
Qed.

Lemma message_key_of_prefix (t1 t2 : string) :
  take_chars 50 t1 = take_chars 50 t2 ->
  take_chars 50 (message_or_placeholder (Some t1))
  = take_chars 50 (message_or_placeholder (Some t2)).
Proof.
  destruct t1 as [|a1 r1], t2 as [|a2 r2]; cbn [message_or_placeholder];
    intros H; try exact H; try reflexivity; exfalso; revert H;
    cbn [take_chars]; [destruct (is_continuation a2)|destruct (is_continuation a1)];
    discriminate.
Qed.

(** C3: for one user, two histories whose first user messages have
    text contents that agree on their first 50 characters (characters,
    not bytes: the slice is taken before the text is encoded) get the
    same identifier, whatever comes later in either history and
    whatever the state of the instance; the identifier is the one
    built from the user id and that 50-character prefix.  (With
    [DEBUG_MODE] on, the count that is logged walks over the later
    messages, which then have to be dicts.) *)
Theorem conversation_id_determined_by_prefix
    (self1 self2 : Pipe) (user body1 body2 : dict)
    (pre1 later1 pre2 later2 : list value) (m1 m2 c1 c2 : value) (t1 t2 : string) :
  dict_lookup body1 "messages" = Some (VList (pre1 ++ m1 :: later1)) ->
  dict_lookup body2 "messages" = Some (VList (pre2 ++ m2 :: later2)) ->
  Forall not_user pre1 -> Forall not_user pre2 ->
  user_message c1 m1 -> user_message c2 m2 ->
  content_text c1 = Ok t1 -> content_text c2 = Ok t2 ->
  (DEBUG_MODE (valves self1) = true -> Forall is_message later1) ->
  (DEBUG_MODE (valves self2) = true -> Forall is_message later2) ->
  take_chars 50 t1 = take_chars 50 t2 ->
  _get_conversation_id self1 body1 user = _get_conversation_id self2 body2 user
  /\ _get_conversation_id self1 body1 user
     = Ok (conv_id_of (str (dict_get user "id" (VStr "unknown")))
             (take_chars 50 (message_or_placeholder (Some t1)))).
Proof.
  intros Hb1 Hb2 Hp1 Hp2 Hm1 Hm2 Ht1 Ht2 Hl1 Hl2 Hpre.
  assert (H1 : first_user_message (pre1 ++ m1 :: later1) = Ok (Some t1)).
  { rewrite first_user_message_skip by assumption.
    eapply first_user_message_hit; eassumption. }
  assert (H2 : first_user_message (pre2 ++ m2 :: later2) = Ok (Some t2)).
  { rewrite first_user_message_skip by assumption.
    eapply first_user_message_hit; eassumption. }
  rewrite (conversation_id_closed_form self1 body1 user _ _ Hb1
             (history_is_messages _ _ _ _ _ Hp1 Hm1 Hl1) H1).
  rewrite (conversation_id_closed_form self2 body2 user _ _ Hb2
             (history_is_messages _ _ _ _ _ Hp2 Hm2 Hl2) H2).
  rewrite (message_key_of_prefix _ _ Hpre). split; reflexivity.
Qed.

Lemma text_parts_no_text (parts : list value) :
  Forall not_text_part parts -> text_parts parts = Ok [].
Proof.
  induction 1 as [|p parts Hp _ IH]; [reflexivity|].
  destruct p; simpl in Hp; try contradiction.
  simpl. rewrite Hp. exact IH.
Qed.

(** C10: when the first user message has an empty text content (the
    empty string, or a list of parts none of which is a text part),
    the placeholder ["no_message"] is hashed in its place, so the
    conversation gets the identifier of a history of the same user
    that holds no user message at all. *)
Theorem empty_first_message_is_no_message
    (self : Pipe) (user body_empty body_none : dict)
    (pre later others parts : list value) (m content : value) :
  dict_lookup body_empty "messages" = Some (VList (pre ++ m :: later)) ->
  Forall not_user pre ->
  user_message content m ->
  content = VStr "" \/ (content = VList parts /\ Forall not_text_part parts) ->
  (DEBUG_MODE (valves self) = true -> Forall is_message later) ->
  dict_lookup body_none "messages" = Some (VList others) ->
  Forall not_user others ->
  _get_conversation_id self body_empty user
  = Ok (conv_id_of (str (dict_get user "id" (VStr "unknown"))) "no_message")
  /\ _get_conversation_id self body_none user
     = _get_conversation_id self body_empty user.
Proof.
  intros Hb Hpre Hm Hc Hlater Hb' Hothers.
  assert (Ht : content_text content = Ok "").
  { destruct Hc as [->|[-> Hparts]]; [reflexivity|].
    simpl. rewrite (text_parts_no_text _ Hparts). reflexivity. }
  assert (H1 : first_user_message (pre ++ m :: later) = Ok (Some "")).
  { rewrite first_user_message_skip by assumption.
    eapply first_user_message_hit; eassumption. }
  rewrite (conversation_id_closed_form self body_empty user _ _ Hb
             (history_is_messages _ _ _ _ _ Hpre Hm Hlater) H1).
  rewrite (conversation_id_closed_form self body_none user _ _ Hb'
             (fun _ => Forall_impl _ _ _ Hothers not_user_is_message)
             (first_user_message_none _ Hothers)).
  split; reflexivity.
Qed.

Lemma text_parts_well_formed (parts : list value) :
  Forall well_formed_part parts ->
  exists ts, text_parts parts = Ok (map VStr ts).
Proof.
  induction 1 as [|p parts Hp _ [ts IH]]; [exists []; reflexivity|].
  destruct p; simpl in Hp; try contradiction.
  simpl. destruct (is_str (dict_get d "type" VNone) "text").
  - destruct (Hp eq_refl) as [t ->]. rewrite IH. exists (t :: ts). reflexivity.
  - exists ts. exact IH.
Qed.

Lemma join_strings (sep : string) (ts : list string) :
  join sep (map VStr ts) = Ok (str_join sep ts).
Proof.
  unfold join.
  assert (H : rmap (fun v => match v with
                             | VStr s => Ok s
                             | _ => Raise (Fault "join" v)
                             end) (map VStr ts) = Ok ts).
  { induction ts as [|t ts IH]; [reflexivity|]. simpl. rewrite IH. reflexivity. }
  rewrite H. reflexivity.
Qed.

Lemma first_user_message_total (messages : list value) :
  Forall well_formed_message messages ->
  exists first, first_user_message messages = Ok first.
Proof.
  induction 1 as [|m messages Hm _ [first IH]]; [eexists; reflexivity|].
  destruct m; simpl in Hm; try contradiction.
  simpl. destruct (is_str (dict_get d "role" VNone) "user"); [|eexists; exact IH].
  destruct (dict_get d "content" (VStr "")) as [| | | |parts|]; simpl;
    try (eexists; reflexivity).
  destruct (text_parts_well_formed parts Hm) as [ts ->]. simpl.
  rewrite join_strings. eexists; reflexivity.
Qed.

Lemma well_formed_is_message (m : value) : well_formed_message m -> is_message m.
Proof. destruct m; simpl; auto. Qed.

(** On a history that meets the input contract the derivation
    returns an identifier. *)
Lemma conversation_id_total (self : Pipe) (body user : dict) :
  well_formed_body body ->
  exists conv_id, _get_conversation_id self body user = Ok conv_id.
Proof.
  intros (messages & Hb & Hall).
  destruct (first_user_message_total messages Hall) as [first Hfirst].
  eexists. eapply conversation_id_closed_form; [exact Hb| |exact Hfirst].
  intros _. eapply Forall_impl; [exact Hall|]. apply well_formed_is_message.
Qed.

Lemma conversation_id_prefix_witness :
  let text1 := "Please summarise the attached report in three short bullets." in
  let text2 := "Please summarise the attached report in three short paragraphs" in
  let body1 := sample_body "openai.o3-pro"
                 [VDict [("role", VStr "system"); ("content", VStr "Be brief.")];
                  user_msg text1; assistant_msg "Done."; user_msg "Thanks"] in
  let body2 := sample_body "openai.o1-pro"
                 [user_msg text2; VDict [("role", VStr "tool")]; VNone] in
  let accents (n : nat) (tail : string) :=
    String.concat "" (repeat (of_bytes [195; 169]%nat) n) +:+ tail in
  (_get_conversation_id init body1 sample_user
   = _get_conversation_id (with_keys init "k1") body2 sample_user
   /\ _get_conversation_id init body1 sample_user
      = Ok (conv_id_of "u1"
              "Please summarise the attached report in three shor"))
  /\ _get_conversation_id init
       (sample_body "m" [user_msg (accents 50%nat "abc")]) sample_user
     = _get_conversation_id init
         (sample_body "m" [user_msg (accents 60%nat "")]) sample_user.
Proof.
  cbv zeta. split.
  2:{ eapply proj1.
      apply (conversation_id_determined_by_prefix init init sample_user _ _
               [] [] [] []
               (user_msg (String.concat "" (repeat (of_bytes [195; 169]%nat) 50) +:+ "abc"))
               (user_msg (String.concat "" (repeat (of_bytes [195; 169]%nat) 60) +:+ ""))
               (VStr (String.concat "" (repeat (of_bytes [195; 169]%nat) 50) +:+ "abc"))
               (VStr (String.concat "" (repeat (of_bytes [195; 169]%nat) 60) +:+ ""))
               (String.concat "" (repeat (of_bytes [195; 169]%nat) 50) +:+ "abc")
               (String.concat "" (repeat (of_bytes [195; 169]%nat) 60) +:+ ""));
        try (vm_compute; reflexivity);
        try discriminate;
        repeat constructor. }
  assert (E : take_chars 50
                (message_or_placeholder
                   (Some "Please summarise the attached report in three short bullets."))
              = "Please summarise the attached report in three shor")
    by (vm_compute; reflexivity).
  rewrite <- E. clear E.
  apply (conversation_id_determined_by_prefix init (with_keys init "k1")
           sample_user _ _
           [VDict [("role", VStr "system"); ("content", VStr "Be brief.")]]
           [assistant_msg "Done."; user_msg "Thanks"]
           [] [VDict [("role", VStr "tool")]; VNone]
           (user_msg "Please summarise the attached report in three short bullets.")
           (user_msg "Please summarise the attached report in three short paragraphs")
           (VStr "Please summarise the attached report in three short bullets.")
           (VStr "Please summarise the attached report in three short paragraphs")
           "Please summarise the attached report in three short bullets."
           "Please summarise the attached report in three short paragraphs");
    try (vm_compute; reflexivity);
    try discriminate;
    repeat constructor.
Defined.

(** The key is cut by characters, not by bytes.  Texts of two-byte
    characters that differ at character 31 get different identifiers,
    and a text of 60 such characters is cut after 50 of them, 100
    bytes. *)
Lemma conversation_id_counts_characters :
  let accents (n : nat) (tail : string) :=
    String.concat "" (repeat (of_bytes [195; 169]%nat) n) +:+ tail in
  let id_of (t : string) :=
    _get_conversation_id init (sample_body "m" [user_msg t]) sample_user in
  id_of (accents 30%nat "a") = Ok "conv_u1_de5749162b4c70dc"
  /\ id_of (accents 30%nat "b") = Ok "conv_u1_46783a818c0857ce"
  /\ id_of (accents 60%nat "") = Ok "conv_u1_38ef60f89d539567"
  /\ String.length (take_chars 50 (accents 60%nat "")) = 100%nat.
Proof. vm_compute. repeat split; reflexivity. Qed.

Lemma empty_first_message_witness :
  let body_empty := sample_body "openai.o3-pro"
                      [VDict [("role", VStr "system"); ("content", VStr "Be brief.")];
                       VDict [("role", VStr "user");
                              ("content", VList [VDict [("type", VStr "image_url");
                                                        ("image_url", VDict [("url", VStr "http://x")])]])];
                       assistant_msg "A picture."] in
  let body_none := sample_body "openai.o3-pro" [assistant_msg "Hello"] in
  _get_conversation_id init body_empty sample_user
  = Ok (conv_id_of "u1" "no_message")
  /\ _get_conversation_id init body_none sample_user
     = _get_conversation_id init body_empty sample_user.
Proof.
  cbv zeta.
  apply (empty_first_message_is_no_message init sample_user _ _
           [VDict [("role", VStr "system"); ("content", VStr "Be brief.")]]
           [assistant_msg "A picture."]
           [assistant_msg "Hello"]
           [VDict [("type", VStr "image_url");
                   ("image_url", VDict [("url", VStr "http://x")])]]
           (VDict [("role", VStr "user");
                   ("content", VList [VDict [("type", VStr "image_url");
                                             ("image_url", VDict [("url", VStr "http://x")])]])])
           (VList [VDict [("type", VStr "image_url");
                          ("image_url", VDict [("url", VStr "http://x")])]]));
    try reflexivity;
    try discriminate;
    try (right; split; [reflexivity|]);
    repeat constructor.
Defined.

(** ** Runs of generators *)

Section GenSteps.
Context {A B : Type}.

Lemma bind_lift_ok (r : result A) (a : A) (k : A -> gen B) (self : Pipe) :
  r = Ok a -> gbind (lift r) k self = k a self.
Proof. intros ->. reflexivity. Qed.

Lemma bind_lift_raise (r : result A) (e : exn) (k : A -> gen B) (self : Pipe) :
  r = Raise e -> gbind (lift r) k self = raised e self.
Proof. intros ->. reflexivity. Qed.

Lemma bind_this (k : Pipe -> gen B) (self : Pipe) :
  gbind this k self = k self self.
Proof. reflexivity. Qed.

Lemma bind_yield (v : value) (k : unit -> gen B) (self : Pipe) :
  gbind (yield v) k self = prepend [v] [] (k tt self).
Proof. reflexivity. Qed.

Lemma bind_update (f : Pipe -> Pipe) (k : unit -> gen B) (self : Pipe) :
  gbind (update f) k self = k tt (f self).
Proof. reflexivity. Qed.

Lemma bind_ret (a : A) (k : A -> gen B) (self : Pipe) :
  gbind (gret a) k self = k a self.
Proof. reflexivity. Qed.

Lemma bind_update_ret (f : Pipe -> Pipe) (a : A) (k : A -> gen B) (self : Pipe) :
  gbind (gbind (update f) (fun _ => gret a)) k self = k a (f self).
Proof. reflexivity. Qed.

Lemma bind_method_ok (f : Pipe -> result (A * Pipe)) (a : A) (self' : Pipe)
    (k : A -> gen B) (self : Pipe) :
  f self = Ok (a, self') -> gbind (method f) k self = k a self'.
Proof. intros H. unfold gbind, method. rewrite H. reflexivity. Qed.

Lemma bind_method_raise (f : Pipe -> result (A * Pipe)) (e : exn)
    (k : A -> gen B) (self : Pipe) :
  f self = Raise e -> gbind (method f) k self = raised e self.
Proof. intros H. unfold gbind, method. rewrite H. reflexivity. Qed.

Lemma bind_ok (m : gen A) (a : A) (k : A -> gen B) (self : Pipe) :
  outcome (m self) = Ok a ->
  gbind m k self = prepend (yielded (m self)) (sent (m self)) (k a (final (m self))).
Proof. intros H. unfold gbind. rewrite H. reflexivity. Qed.

Lemma bind_raise (m : gen A) (e : exn) (k : A -> gen B) (self : Pipe) :
  outcome (m self) = Raise e ->
  gbind m k self
  = {| yielded := yielded (m self); sent := sent (m self);
       final := final (m self); outcome := Raise e |}.
Proof. intros H. unfold gbind. rewrite H. reflexivity. Qed.
End GenSteps.

Section PipeRuns.
Context (rt : Runtime) (net : network).

(** [pipe_try], step by step. *)
Lemma pipe_try_unfold (body user : dict) (self : Pipe) :
  pipe_try rt net body user self
  = match _get_conversation_id self body user with
    | Raise e => raised e self
    | Ok conv_id =>
    match _get_next_api_key self with
    | Raise e => raised e self
    | Ok (api_key, self1) =>
    match dict_item body "model" with
    | Raise e => raised e self1
    | Ok model =>
    match model_suffix model with
    | Raise e => raised e self1
    | Ok model_id =>
    if negb (supported self model_id) then
      {| yielded := [VStr (unsupported_text model_id)]; sent := [];
         final := self1; outcome := Ok tt |}
    else
    match dict_item body "messages" with
    | Raise e => raised e self1
    | Ok messages =>
    match _transform_messages messages with
    | Raise e => raised e self1
    | Ok input =>
    let n := match conversation_costs self !! conv_id with
             | Some a => message_count a + 1
             | None => 1
             end in
    let rq := responses_request self api_key model_id input in
    match net rq with
    | Raise e =>
        {| yielded := [VStr (processing_text model_id n)]; sent := [rq];
           final := self1; outcome := Raise e |}
    | Ok resp =>
        if negb (status_code resp =? 200) then
          {| yielded := [VStr (processing_text model_id n);
                         VStr ("Error: " +:+ str_of_Z (status_code resp)
                               +:+ " " +:+ text resp)];
             sent := [rq]; final := self1; outcome := Ok tt |}
        else
          prepend [VStr (processing_text model_id n)] [rq]
            (report_response rt resp model_id conv_id self1)
    end end end end end end end.
Proof.
  unfold pipe_try. rewrite bind_this.
  destruct (_get_conversation_id self body user) as [conv_id|e]; [|reflexivity].
  rewrite (bind_lift_ok _ _ _ _ eq_refl).
  destruct (_get_next_api_key self) as [[api_key self1]|e] eqn:Hk;
    [rewrite (bind_method_ok _ _ _ _ _ Hk) | exact (bind_method_raise _ _ _ _ Hk)].
  destruct (dict_item body "model") as [model|e]; [|reflexivity].
  rewrite (bind_lift_ok _ _ _ _ eq_refl).
  destruct (model_suffix model) as [model_id|e]; [|reflexivity].
  rewrite (bind_lift_ok _ _ _ _ eq_refl).
  destruct (negb (supported self model_id)); [reflexivity|].
  destruct (dict_item body "messages") as [messages|e]; [|reflexivity].
  rewrite (bind_lift_ok _ _ _ _ eq_refl).
  destruct (_transform_messages messages) as [input|e]; [|reflexivity].
  rewrite (bind_lift_ok _ _ _ _ eq_refl).
  rewrite bind_yield. cbv zeta.
  unfold gbind at 1, post at 1. cbn [outcome yielded sent final].
  destruct (net _) as [resp|e]; [|reflexivity].
  destruct (negb (status_code resp =? 200)); reflexivity.
Qed.

Lemma report_status_pure (data : dict) (self : Pipe) :
  final (report_status data self) = self
  /\ sent (report_status data self) = [].
Proof.
  unfold report_status.
  destruct (is_str (dict_get data "status" (VStr "completed")) "incomplete");
    [|split; reflexivity].
  rewrite bind_this.
  destruct (get (dict_get data "incomplete_details" (VDict [])) "reason" (VStr "Unknown"))
    as [reason|e]; [|split; reflexivity].
  rewrite (bind_lift_ok _ _ _ _ eq_refl), bind_yield.
  destruct (is_str reason "max_output_tokens"); split; reflexivity.
Qed.

Lemma report_status_outcome (data : dict) (self : Pipe) :
  outcome (report_status data self)
  = (reason <- incomplete_reason_of data ;; Ok (status_of data, reason))%res.
Proof.
  unfold report_status, incomplete_reason_of, status_of.
  destruct (is_str (dict_get data "status" (VStr "completed")) "incomplete");
    [|reflexivity].
  rewrite bind_this.
  destruct (get (dict_get data "incomplete_details" (VDict [])) "reason" (VStr "Unknown"))
    as [reason|e]; [|reflexivity].
  rewrite (bind_lift_ok _ _ _ _ eq_refl), bind_yield.
  destruct (is_str reason "max_output_tokens"); reflexivity.
Qed.

Lemma report_tools_pure (data : dict) (self : Pipe) :
  final (report_tools rt data self) = self
  /\ sent (report_tools rt data self) = [].
Proof.
  unfold report_tools.
  destruct (iter (dict_get data "output" (VList []))) as [items|e];
    [|split; reflexivity].
  rewrite (bind_lift_ok _ _ _ _ eq_refl).
  destruct (tools_of items); split; reflexivity.
Qed.

(** The accounting block, step by step. *)
Lemma report_usage_unfold (data : dict) (model_id conv_id : string)
    (status reason : value) (self : Pipe) :
  report_usage rt data model_id conv_id status reason self
  = let usage := dict_get data "usage" (VDict []) in
    if truthy usage then
      match usage_cost model_id usage with
      | Raise e => raised e self
      | Ok priced =>
          let self2 := match priced with
                       | Some (cost, t) => _update_conversation_cost self conv_id cost t
                       | None => self
                       end in
          let cost := match priced with
                      | Some (cost, _) => cost
                      | None => 0%float
                      end in
          match _format_token_stats self2 usage model_id status reason conv_id cost with
          | Raise e => raised e self2
          | Ok stats =>
              {| yielded := if str_nonempty stats then [VStr stats] else [];
                 sent := []; final := self2; outcome := Ok tt |}
          end
      end
    else
      {| yielded := if SHOW_TOKEN_STATS (valves self) then [VStr no_usage_text] else [];
         sent := []; final := self; outcome := Ok tt |}.
Proof.
  unfold report_usage. cbv zeta.
  destruct (truthy (dict_get data "usage" (VDict []))).
  - destruct (usage_cost model_id (dict_get data "usage" (VDict []))) as [priced|e];
      [|reflexivity].
    rewrite (bind_lift_ok _ _ _ _ eq_refl).
    destruct priced as [[cost t]|].
    + rewrite bind_update_ret, bind_this.
      destruct (_format_token_stats _ _ _ _ _ _ _) as [stats|e]; [|reflexivity].
      rewrite (bind_lift_ok _ _ _ _ eq_refl).
      destruct (str_nonempty stats); reflexivity.
    + rewrite bind_ret, bind_this.
      destruct (_format_token_stats _ _ _ _ _ _ _) as [stats|e]; [|reflexivity].
      rewrite (bind_lift_ok _ _ _ _ eq_refl).
      destruct (str_nonempty stats); reflexivity.
  - rewrite bind_this. destruct (SHOW_TOKEN_STATS (valves self)); reflexivity.
Qed.

(** What follows a 200 response, step by step. *)
Lemma report_response_unfold (resp : response) (model_id conv_id : string) (self : Pipe) :
  report_response rt resp model_id conv_id self
  = match json resp with
    | Raise e => raised e self
    | Ok data =>
    match extract_output_text data with
    | Raise e => raised e self
    | Ok output_text =>
    let answer := if truthy output_text then output_text else VStr no_text in
    let rs := report_status data self in
    match outcome rs with
    | Raise e =>
        {| yielded := answer :: yielded rs; sent := []; final := self;
           outcome := Raise e |}
    | Ok st =>
    let rtools := report_tools rt data self in
    match outcome rtools with
    | Raise e =>
        {| yielded := answer :: yielded rs ++ yielded rtools; sent := [];
           final := self; outcome := Raise e |}
    | Ok _ =>
        prepend (answer :: yielded rs ++ yielded rtools) []
          (report_usage rt data model_id conv_id (fst st) (snd st) self)
    end end end end.
Proof.
  unfold report_response.
  destruct (json resp) as [data|e]; [|reflexivity].
  rewrite (bind_lift_ok _ _ _ _ eq_refl).
  destruct (extract_output_text data) as [output_text|e]; [|reflexivity].
  rewrite (bind_lift_ok _ _ _ _ eq_refl), bind_yield. cbv zeta.
  destruct (report_status_pure data self) as [Hsf Hss].
  destruct (report_tools_pure data self) as [Htf Hts].
  destruct (outcome (report_status data self)) as [st|e] eqn:Hs.
  - rewrite (bind_ok _ st _ _ Hs), Hsf, Hss.
    destruct (outcome (report_tools rt data self)) as [u|e] eqn:Ht.
    + rewrite (bind_ok _ u _ _ Ht), Htf, Hts.
      unfold prepend. cbn [yielded sent final outcome app].
      rewrite app_assoc. reflexivity.
    + rewrite (bind_raise _ e _ _ Ht), Htf, Hts. reflexivity.
  - rewrite (bind_raise _ e _ _ Hs), Hsf, Hss. reflexivity.
Qed.
End PipeRuns.

(** ** Turns of [pipe] *)

Section Turns.
Context (rt : Runtime) (net : network).

Lemma pipe_sent (body user : dict) (self : Pipe) :
  sent (pipe rt net body user self) = sent (pipe_try rt net body user self).
Proof. unfold pipe. destruct (outcome _) as [|[]]; reflexivity. Qed.

Lemma pipe_final (body user : dict) (self : Pipe) :
  final (pipe rt net body user self) = final (pipe_try rt net body user self).
Proof. unfold pipe. destruct (outcome _) as [|[]]; reflexivity. Qed.

Lemma pipe_completed (body user : dict) (self : Pipe) (u : unit) :
  outcome (pipe_try rt net body user self) = Ok u ->
  pipe rt net body user self = pipe_try rt net body user self.
Proof. intros H. unfold pipe. rewrite H. reflexivity. Qed.

(** Whatever [pipe_try] raises, a handler of [pipe] catches it and
    yields a last fragment that begins with ["Error:"]. *)
Lemma pipe_handles (body user : dict) (self : Pipe) (e : exn) :
  outcome (pipe_try rt net body user self) = Raise e ->
  outcome (pipe rt net body user self) = Ok tt
  /\ exists t, yielded (pipe rt net body user self)
               = yielded (pipe_try rt net body user self) ++ [VStr t]
               /\ str_prefix "Error:" t = true.
Proof.
  intros H. unfold pipe. rewrite H.
  destruct e; (split; [reflexivity|]); eexists; (split; [reflexivity|]); reflexivity.
Qed.

(** C6, as amended: with no non-empty credential configured, the
    configuration error is caught by [pipe] like every other error:
    on a history that meets the input contract the turn yields the
    one fragment ["Error: No API keys configured"], sends nothing,
    leaves the instance as it was and ends normally; and no call of
    [pipe] ever ends with an exception. *)
Theorem no_credentials_reported (body user : dict) (self : Pipe) :
  configured_keys (valves self) = [] ->
  well_formed_body body ->
  (yielded (pipe rt net body user self) = [VStr "Error: No API keys configured"]
   /\ sent (pipe rt net body user self) = []
   /\ final (pipe rt net body user self) = self
   /\ outcome (pipe rt net body user self) = Ok tt)
  /\ (forall (net' : network) (body' user' : dict) (self' : Pipe),
        outcome (pipe rt net' body' user' self') = Ok tt).
Proof.
  intros Hk Hwf. split.
  - destruct (conversation_id_total self body user Hwf) as [conv_id Hc].
    assert (Ht : pipe_try rt net body user self
                 = raised (ValueError "No API keys configured") self).
    { rewrite pipe_try_unfold, Hc. unfold _get_next_api_key. rewrite Hk. reflexivity. }
    unfold pipe. rewrite Ht. repeat split; reflexivity.
  - intros net' body' user' self'. unfold pipe.
    destruct (outcome (pipe_try rt net' body' user' self')) as [[]|[]] eqn:H;
      try reflexivity; exact H.
Qed.

(** C8: with at least one credential configured and a model suffix
    outside the supported set, the turn yields exactly one fragment,
    sends no request and leaves the accounting as it was; on a
    history that meets the input contract, the fragment is the
    unsupported-model text. *)
Theorem unsupported_model_turn (body user : dict) (self : Pipe) (m model_id : string) :
  configured_keys (valves self) <> [] ->
  dict_lookup body "model" = Some (VStr m) ->
  model_suffix (VStr m) = Ok model_id ->
  supported self model_id = false ->
  length (yielded (pipe rt net body user self)) = 1%nat
  /\ sent (pipe rt net body user self) = []
  /\ conversation_costs (final (pipe rt net body user self)) = conversation_costs self
  /\ (well_formed_body body ->
      yielded (pipe rt net body user self) = [VStr (unsupported_text model_id)]).
Proof.
  intros Hk Hm Hs Hu.
  destruct (configured_keys (valves self)) as [|k0 ks] eqn:Hkeys; [congruence|].
  pose proof (next_key_step self (k0 :: ks) Hkeys Hk) as Hnext.
  assert (Hid : well_formed_body body ->
                exists conv_id, _get_conversation_id self body user = Ok conv_id)
    by apply conversation_id_total.
  unfold pipe. rewrite pipe_try_unfold, Hnext.
  unfold dict_item. rewrite Hm, Hs, Hu. cbn [negb].
  destruct (_get_conversation_id self body user) as [conv_id|e].
  - repeat split; intros; reflexivity.
  - destruct e; repeat split; intros Hwf; try reflexivity;
      destruct (Hid Hwf) as [c Hc]; discriminate Hc.
Qed.
End Turns.

(** C6 on a fresh instance (no credential configured): the error is
    reported as a fragment and the generator ends normally. *)
Lemma no_credentials_is_caught :
  configured_keys (valves init) = []
  /\ pipe sample_runtime (failing TimeoutException)
       (sample_body "openai.o3-pro" [user_msg "hello"]) sample_user init
     = {| yielded := [VStr "Error: No API keys configured"]; sent := [];
          final := init; outcome := Ok tt |}.
Proof. split; reflexivity. Qed.

Lemma no_credentials_reported_witness :
  yielded (pipe sample_runtime (failing TimeoutException)
             (sample_body "openai.o3-pro" [user_msg "hello"]) sample_user init)
  = [VStr "Error: No API keys configured"].
Proof.
  apply (proj1 (no_credentials_reported sample_runtime (failing TimeoutException)
                  (sample_body "openai.o3-pro" [user_msg "hello"]) sample_user init
                  eq_refl
                  ltac:(eexists; split; [reflexivity | repeat constructor]))).
Defined.

Lemma unsupported_model_witness :
  yielded (pipe sample_runtime (failing TimeoutException)
             (sample_body "openai.gpt-4" [user_msg "hello"]) sample_user
             (with_keys init "k1"))
  = [VStr "Error: Model gpt-4 not supported. Only o1-pro and o3-pro are available."].
Proof.
  apply (proj2 (proj2 (proj2
           (unsupported_model_turn sample_runtime (failing TimeoutException)
              (sample_body "openai.gpt-4" [user_msg "hello"]) sample_user
              (with_keys init "k1") "openai.gpt-4" "gpt-4"
              ltac:(discriminate) eq_refl eq_refl eq_refl)))
           ltac:(eexists; split; [reflexivity | repeat constructor])).
Defined.

(** ** Turns that reach the network, and the accounting *)

Section Accounting.
Context (rt : Runtime) (net : network).

Lemma next_key_costs (self self1 : Pipe) (api_key : string) :
  _get_next_api_key self = Ok (api_key, self1) ->
  conversation_costs self1 = conversation_costs self
  /\ valves self1 = valves self.
Proof.
  unfold _get_next_api_key. destruct (configured_keys (valves self)); [discriminate|].
  intros H. injection H as _ <-. split; reflexivity.
Qed.

(** A turn either ends before the network, with nothing sent and the
    accounting untouched, or it sends its one request after every
    earlier step succeeded, and goes on with what the network says. *)
Lemma pipe_try_cases (body user : dict) (self : Pipe) :
  (sent (pipe_try rt net body user self) = []
   /\ conversation_costs (final (pipe_try rt net body user self))
      = conversation_costs self)
  \/ exists conv_id api_key self1 model model_id messages input,
       _get_conversation_id self body user = Ok conv_id
       /\ _get_next_api_key self = Ok (api_key, self1)
       /\ dict_item body "model" = Ok model
       /\ model_suffix model = Ok model_id
       /\ supported self model_id = true
       /\ dict_item body "messages" = Ok messages
       /\ _transform_messages messages = Ok input
       /\ pipe_try rt net body user self
          = let n := match conversation_costs self !! conv_id with
                     | Some a => message_count a + 1
                     | None => 1
                     end in
            let rq := responses_request self api_key model_id input in
            match net rq with
            | Raise e =>
                {| yielded := [VStr (processing_text model_id n)]; sent := [rq];
                   final := self1; outcome := Raise e |}
            | Ok resp =>
                if negb (status_code resp =? 200) then
                  {| yielded := [VStr (processing_text model_id n);
                                 VStr ("Error: " +:+ str_of_Z (status_code resp)
                                       +:+ " " +:+ text resp)];
                     sent := [rq]; final := self1; outcome := Ok tt |}
                else
                  prepend [VStr (processing_text model_id n)] [rq]
                    (report_response rt resp model_id conv_id self1)
            end.
Proof.
  rewrite pipe_try_unfold.
  destruct (_get_conversation_id self body user) as [conv_id|e];
    [|left; split; reflexivity].
  destruct (_get_next_api_key self) as [[api_key self1]|e] eqn:Hk;
    [|left; split; reflexivity].
  destruct (next_key_costs _ _ _ Hk) as [Hcosts _].
  destruct (dict_item body "model") as [model|e];
    [|left; split; [reflexivity|exact Hcosts]].
  destruct (model_suffix model) as [model_id|e] eqn:Hm;
    [|left; split; [reflexivity|exact Hcosts]].
  destruct (supported self model_id) eqn:Hs;
    [|left; split; [reflexivity|exact Hcosts]].
  cbn [negb].
  destruct (dict_item body "messages") as [messages|e];
    [|left; split; [reflexivity|exact Hcosts]].
  destruct (_transform_messages messages) as [input|e] eqn:Ht;
    [|left; split; [reflexivity|exact Hcosts]].
  right. exists conv_id, api_key, self1, model, model_id, messages, input.
  repeat split; try assumption; reflexivity.
Qed.

Lemma update_lookup (self : Pipe) (conv_id : string) (cost : float) (t : tokens) :
  conversation_costs (_update_conversation_cost self conv_id cost t) !! conv_id
  = Some (add_to_account (default new_account (conversation_costs self !! conv_id)) cost t).
Proof.
  unfold _update_conversation_cost. cbn [conversation_costs with_conversation_costs].
  rewrite lookup_alter_eq.
  destruct (conversation_costs self !! conv_id) as [a|] eqn:Ha.
  - rewrite Ha. reflexivity.
  - rewrite lookup_insert_eq. reflexivity.
Qed.

Lemma update_lookup_other (self : Pipe) (conv_id other : string) (cost : float) (t : tokens) :
  conv_id <> other ->
  conversation_costs (_update_conversation_cost self conv_id cost t) !! other
  = conversation_costs self !! other.
Proof.
  intros Hne. unfold _update_conversation_cost.
  cbn [conversation_costs with_conversation_costs].
  rewrite lookup_alter_ne by exact Hne.
  destruct (conversation_costs self !! conv_id); [reflexivity|].
  apply lookup_insert_ne, Hne.
Qed.

Lemma supported_priced (self : Pipe) (model_id : string) :
  openai_response_models self = openai_response_models init ->
  supported self model_id = true ->
  exists p, price_of pricing model_id = Some p.
Proof.
  unfold supported. intros ->. cbn [init openai_response_models existsb pricing price_of].
  rewrite (String.eqb_sym "o3-pro"), (String.eqb_sym "o1-pro").
  destruct (String.eqb model_id "o3-pro"); [eexists; reflexivity|].
  destruct (String.eqb model_id "o1-pro"); [eexists; reflexivity|].
  discriminate.
Qed.

Lemma usage_cost_priced (model_id : string) (usage : value) (p : Z * Z) :
  price_of pricing model_id = Some p ->
  usage_cost model_id usage <> Ok None.
Proof.
  intros Hp. unfold usage_cost. rewrite Hp.
  destruct usage; try discriminate.
  destruct (reasoning_of d); [|discriminate]. cbn [rbind].
  destruct (current_cost model_id _ _ _); discriminate.
Qed.

(** What a 200 response does to the accounting. *)
Lemma report_response_accounting (resp : response) (model_id conv_id : string)
    (self : Pipe) :
  let r := report_response rt resp model_id conv_id self in
  (final r = self
   /\ forall data, json resp = Ok data ->
        truthy (dict_get data "usage" (VDict [])) = true ->
        outcome r <> Ok tt \/ usage_cost model_id (dict_get data "usage" (VDict [])) = Ok None)
  \/ exists data cost t st,
       json resp = Ok data
       /\ fst st = status_of data
       /\ incomplete_reason_of data = Ok (snd st)
       /\ truthy (dict_get data "usage" (VDict [])) = true
       /\ usage_cost model_id (dict_get data "usage" (VDict [])) = Ok (Some (cost, t))
       /\ final r = _update_conversation_cost self conv_id cost t
       /\ ((exists stats,
              _format_token_stats (final r) (dict_get data "usage" (VDict []))
                model_id (fst st) (snd st) conv_id cost = Ok stats
              /\ outcome r = Ok tt
              /\ exists before,
                   yielded r = before ++ (if str_nonempty stats then [VStr stats] else []))
           \/ exists e,
                _format_token_stats (final r) (dict_get data "usage" (VDict []))
                  model_id (fst st) (snd st) conv_id cost = Raise e
                /\ outcome r = Raise e).
Proof.
  cbv zeta. rewrite report_response_unfold.
  destruct (json resp) as [data|e]; [|left; split; [reflexivity|discriminate]].
  destruct (extract_output_text data) as [output_text|e];
    [|left; split; [reflexivity|intros; left; discriminate]].
  cbv zeta.
  destruct (outcome (report_status data self)) as [st|e] eqn:Hst;
    [|left; split; [reflexivity|intros; left; discriminate]].
  rewrite report_status_outcome in Hst.
  destruct (incomplete_reason_of data) as [reason|e] eqn:Hreason; [|discriminate].
  injection Hst as <-.
  destruct (outcome (report_tools rt data self)) as [u|e];
    [|left; split; [reflexivity|intros; left; discriminate]].
  rewrite report_usage_unfold. cbv zeta.
  destruct (truthy (dict_get data "usage" (VDict []))) eqn:Hu;
    [|left; split; [reflexivity|]; intros d Hd; injection Hd as <-; congruence].
  destruct (usage_cost model_id (dict_get data "usage" (VDict []))) as [[[cost t]|]|e] eqn:Hc.
  - right. exists data, cost, t, (status_of data, reason).
    split; [reflexivity|]. split; [reflexivity|]. split; [exact Hreason|].
    split; [exact Hu|]. split; [exact Hc|]. cbn [fst snd].
    destruct (_format_token_stats (_update_conversation_cost self conv_id cost t)
                (dict_get data "usage" (VDict [])) model_id (status_of data) reason
                conv_id cost)
      as [stats|e] eqn:Hf.
    + split; [reflexivity|]. left. exists stats.
      cbn [prepend final outcome yielded]. rewrite Hf.
      split; [reflexivity|]. split; [reflexivity|]. eexists; reflexivity.
    + split; [reflexivity|]. right. exists e.
      cbn [prepend raised final outcome]. rewrite Hf. split; reflexivity.
  - left. destruct (_format_token_stats self _ _ _ _ _ _);
      (split; [reflexivity|]); intros d Hd _; injection Hd as <-; right; exact Hc.
  - left. split; [reflexivity|]. intros; left; discriminate.
Qed.
Lemma report_usage_sent (data : dict) (model_id conv_id : string)
    (status reason : value) (self : Pipe) :
  sent (report_usage rt data model_id conv_id status reason self) = [].
Proof.
  rewrite report_usage_unfold. cbv zeta.
  destruct (truthy _); [|reflexivity].
  destruct (usage_cost _ _) as [priced|e]; [|reflexivity].
  destruct (_format_token_stats _ _ _ _ _ _ _); reflexivity.
Qed.

Lemma report_response_sent (resp : response) (model_id conv_id : string) (self : Pipe) :
  sent (report_response rt resp model_id conv_id self) = [].
Proof.
  rewrite report_response_unfold.
  destruct (json resp) as [data|e]; [|reflexivity].
  destruct (extract_output_text data) as [out|e]; [|reflexivity].
  cbv zeta.
  destruct (outcome (report_status data self)) as [st|e]; [|reflexivity].
  destruct (outcome (report_tools rt data self)) as [u|e]; [|reflexivity].
  cbn [prepend sent app]. apply report_usage_sent.
Qed.

Lemma report_tools_outcome (data : dict) (self : Pipe) :
  outcome (report_tools rt data self)
  = (_ <- iter (dict_get data "output" (VList [])) ;; Ok tt)%res.
Proof.
  unfold report_tools.
  destruct (iter (dict_get data "output" (VList []))) as [items|e]; [|reflexivity].
  rewrite (bind_lift_ok _ _ _ _ eq_refl).
  destruct (tools_of items); reflexivity.
Qed.

(** An exception raised before the accounting block leaves the
    instance as it was: the body that cannot be decoded, the
    extraction of the text, the reason of an incomplete response, the
    walk over the output for the tools, the cost. *)
Lemma report_response_early_failure (resp : response) (model_id conv_id : string)
    (self : Pipe) :
  (exists e, json resp = Raise e)
  \/ (exists data e,
        json resp = Ok data
        /\ (extract_output_text data = Raise e
            \/ incomplete_reason_of data = Raise e
            \/ iter (dict_get data "output" (VList [])) = Raise e
            \/ usage_cost model_id (dict_get data "usage" (VDict [])) = Raise e)) ->
  final (report_response rt resp model_id conv_id self) = self.
Proof.
  intros H. rewrite report_response_unfold.
  destruct (json resp) as [data|e0] eqn:Hj; [|reflexivity].
  destruct (extract_output_text data) as [out|e1] eqn:He; [|reflexivity].
  cbv zeta.
  destruct (outcome (report_status data self)) as [st|e2] eqn:Hst; [|reflexivity].
  destruct (outcome (report_tools rt data self)) as [u|e3] eqn:Hto; [|reflexivity].
  cbn [prepend final]. rewrite report_usage_unfold. cbv zeta.
  destruct (truthy (dict_get data "usage" (VDict []))); [|reflexivity].
  destruct (usage_cost model_id (dict_get data "usage" (VDict []))) as [priced|e4] eqn:Hc;
    [|reflexivity].
  exfalso. rewrite report_status_outcome in Hst. rewrite report_tools_outcome in Hto.
  destruct H as [[e H]|(d & e & Hd & H)]; [discriminate|].
  injection Hd as <-.
  destruct H as [H|[H|[H|H]]]; [congruence| | |congruence].
  - rewrite H in Hst. discriminate.
  - rewrite H in Hto. discriminate.
Qed.
End Accounting.

Section Failures.
Context (rt : Runtime) (net : network).

(** A turn whose request was answered with a status other than 200
    ends with the HTTP error fragment. *)
Lemma http_error_turn (body user : dict) (self : Pipe) (rq : request) (resp : response) :
  sent (pipe rt net body user self) = [rq] ->
  net rq = Ok resp ->
  status_code resp <> 200 ->
  last (yielded (pipe rt net body user self))
  = Some (VStr ("Error: " +:+ str_of_Z (status_code resp) +:+ " " +:+ text resp))
  /\ conversation_costs (final (pipe rt net body user self)) = conversation_costs self.
Proof.
  intros Hsent Hnet Hstatus. apply Z.eqb_neq in Hstatus.
  rewrite pipe_sent in Hsent. rewrite pipe_final. unfold pipe.
  destruct (pipe_try_cases rt net body user self)
    as [[Hs _]|(conv_id & api_key & self1 & model & model_id & messages & input
                & _ & Hk & _ & _ & _ & _ & _ & Hform)];
    [congruence|].
  destruct (next_key_costs _ _ _ Hk) as [Hcosts _].
  rewrite Hform in *. cbv zeta in *. clear Hform.
  destruct (net (responses_request self api_key model_id input)) as [resp0|e] eqn:Hn.
  - destruct (negb (status_code resp0 =? 200)) eqn:Hb.
    + injection Hsent as <-. rewrite Hnet in Hn. injection Hn as <-.
      split; [reflexivity|exact Hcosts].
    + cbn [prepend sent app] in Hsent. injection Hsent as <- _.
      rewrite Hnet in Hn. injection Hn as <-.
      rewrite Hstatus in Hb. discriminate.
  - injection Hsent as <-. congruence.
Qed.

(** C9: whatever exception the body of [pipe] raises (a timeout, the
    configuration error, a message-format error, any other), the last
    fragment of the turn is a text that begins with ["Error:"]; so
    does a turn answered with a status other than 200.  The
    unsupported-model text has a wording of its own (it begins with
    ["Error: Model"]), and the text shown when no response text is
    found does not begin with ["Error:"]: it takes the place of the
    answer and the turn goes on. *)
Theorem failures_begin_with_error (body user : dict) (self : Pipe) :
  (forall e,
     outcome (pipe_try rt net body user self) = Raise e ->
     exists t, last (yielded (pipe rt net body user self)) = Some (VStr t)
               /\ str_prefix "Error:" t = true)
  /\ (forall rq resp,
        sent (pipe rt net body user self) = [rq] ->
        net rq = Ok resp ->
        status_code resp <> 200 ->
        exists t, last (yielded (pipe rt net body user self)) = Some (VStr t)
                  /\ str_prefix "Error:" t = true)
  /\ (forall model_id, str_prefix "Error: Model " (unsupported_text model_id) = true)
  /\ str_prefix "Error:" no_text = false
  /\ (forall resp data v model_id conv_id self1,
        json resp = Ok data ->
        extract_output_text data = Ok v ->
        truthy v = false ->
        exists rest,
          yielded (report_response rt resp model_id conv_id self1) = VStr no_text :: rest).
Proof.
  split; [|split; [|split; [|split]]].
  - intros e He. destruct (pipe_handles rt net body user self e He) as (_ & t & Hy & Ht).
    exists t. rewrite Hy, last_snoc. split; [reflexivity|exact Ht].
  - intros rq resp Hsent Hnet Hstatus.
    destruct (http_error_turn body user self rq resp Hsent Hnet Hstatus) as [Hlast _].
    eexists. split; [exact Hlast|reflexivity].
  - intros model_id. reflexivity.
  - reflexivity.
  - intros resp data v model_id conv_id self1 Hj He Hv.
    rewrite report_response_unfold, Hj, He. cbv zeta. rewrite Hv.
    destruct (outcome (report_status data self1));
      [destruct (outcome (report_tools rt data self1))|]; eexists; reflexivity.
Qed.
End Failures.

Lemma failures_begin_with_error_witness :
  let self := with_keys init "k1" in
  let body := sample_body "openai.o3-pro" [user_msg "hello"] in
  let busy := {| status_code := 429; text := "rate limited";
                 json := Raise (HostError "no body") |} in
  (exists t,
     last (yielded (pipe sample_runtime (failing TimeoutException) body sample_user self))
     = Some (VStr t)
     /\ str_prefix "Error:" t = true)
  /\ (exists t,
        last (yielded (pipe sample_runtime (answering busy) body sample_user self))
        = Some (VStr t)
        /\ str_prefix "Error:" t = true)
  /\ (exists rest,
        yielded (report_response sample_runtime (ok_response [("output", VList [])])
                   "o3-pro" "conv" self)
        = VStr no_text :: rest).
Proof.
  cbv zeta. split; [|split].
  - apply (proj1 (failures_begin_with_error sample_runtime (failing TimeoutException)
                    (sample_body "openai.o3-pro" [user_msg "hello"]) sample_user
                    (with_keys init "k1")) TimeoutException).
    reflexivity.
  - eapply (proj1 (proj2 (failures_begin_with_error sample_runtime
                            (answering {| status_code := 429; text := "rate limited";
                                          json := Raise (HostError "no body") |})
                            (sample_body "openai.o3-pro" [user_msg "hello"]) sample_user
                            (with_keys init "k1"))));
      [reflexivity | reflexivity | discriminate].
  - eapply (proj2 (proj2 (proj2 (proj2
              (failures_begin_with_error sample_runtime (failing TimeoutException)
                 [] [] init)))));
      reflexivity.
Defined.

Section TurnAccounting.
Context (rt : Runtime) (net : network).

Lemma update_costs_congr (a b : Pipe) (conv_id : string) (cost : float) (t : tokens) :
  conversation_costs a = conversation_costs b ->
  conversation_costs (_update_conversation_cost a conv_id cost t)
  = conversation_costs (_update_conversation_cost b conv_id cost t).
Proof.
  intros H. unfold _update_conversation_cost.
  cbn [conversation_costs with_conversation_costs]. rewrite H. reflexivity.
Qed.

(** The accounting of a turn whose request got a response. *)
Lemma answered_turn (body user : dict) (self : Pipe) (rq : request) (resp : response) :
  sent (pipe rt net body user self) = [rq] ->
  net rq = Ok resp ->
  status_code resp = 200 ->
  exists conv_id api_key self1 model model_id,
    _get_conversation_id self body user = Ok conv_id
    /\ _get_next_api_key self = Ok (api_key, self1)
    /\ dict_item body "model" = Ok model
    /\ model_suffix model = Ok model_id
    /\ supported self model_id = true
    /\ exists n,
         pipe_try rt net body user self
         = prepend [VStr (processing_text model_id n)] [rq]
             (report_response rt resp model_id conv_id self1).
Proof.
  intros Hsent Hnet Hstatus. apply Z.eqb_eq in Hstatus.
  rewrite pipe_sent in Hsent.
  destruct (pipe_try_cases rt net body user self)
    as [[Hs _]|(conv_id & api_key & self1 & model & model_id & messages & input
                & Hc & Hk & Hmod & Hsuf & Hsup & _ & _ & Hform)];
    [congruence|].
  exists conv_id, api_key, self1, model, model_id.
  do 5 (split; [assumption|]).
  rewrite Hform in *. cbv zeta in *. clear Hform.
  destruct (net (responses_request self api_key model_id input)) as [resp0|e] eqn:Hn.
  - destruct (negb (status_code resp0 =? 200)) eqn:Hb.
    + injection Hsent as <-. rewrite Hnet in Hn. injection Hn as <-.
      rewrite Hstatus in Hb. discriminate.
    + cbn [prepend sent app] in Hsent. injection Hsent as <- _.
      rewrite Hnet in Hn. injection Hn as <-.
      eexists. reflexivity.
  - injection Hsent as <-. congruence.
Qed.

(** C1, as amended.  A turn that completes on a 200 response with a
    non-empty usage block adds the cost and the token counts of the
    message to the account of the derived conversation identifier,
    and the statistics fragment is formatted from the updated
    accounting; a completed turn whose response has no usage block
    leaves the accounting unchanged.  A turn that fails on the
    network (a timeout or another error), on a status other than 200,
    on a message-format error, or before any request is sent leaves
    the accounting unchanged; so does an exception raised before the
    statistics are formatted (a body that cannot be decoded, the
    extraction of the text, the reason of an incomplete response, the
    walk over the output, the cost).  The one exception that leaves an
    update behind is the one raised by the formatting of the
    statistics of this very response, called on the updated instance
    after every earlier step has succeeded. *)
Theorem accounting_follows_usage (body user : dict) (self : Pipe) :
  (forall rq resp data,
     openai_response_models self = openai_response_models init ->
     outcome (pipe_try rt net body user self) = Ok tt ->
     sent (pipe rt net body user self) = [rq] ->
     net rq = Ok resp ->
     status_code resp = 200 ->
     json resp = Ok data ->
     truthy (dict_get data "usage" (VDict [])) = true ->
     exists conv_id model model_id cost t reason stats,
       _get_conversation_id self body user = Ok conv_id
       /\ dict_item body "model" = Ok model
       /\ model_suffix model = Ok model_id
       /\ incomplete_reason_of data = Ok reason
       /\ usage_cost model_id (dict_get data "usage" (VDict [])) = Ok (Some (cost, t))
       /\ conversation_costs (final (pipe rt net body user self))
          = conversation_costs (_update_conversation_cost self conv_id cost t)
       /\ conversation_costs (final (pipe rt net body user self)) !! conv_id
          = Some (add_to_account
                    (default new_account (conversation_costs self !! conv_id)) cost t)
       /\ _format_token_stats (final (pipe rt net body user self))
            (dict_get data "usage" (VDict [])) model_id (status_of data) reason conv_id cost
          = Ok stats
       /\ (str_nonempty stats = true ->
           last (yielded (pipe rt net body user self)) = Some (VStr stats)))
  /\ (forall rq resp data,
        sent (pipe rt net body user self) = [rq] ->
        net rq = Ok resp ->
        json resp = Ok data ->
        truthy (dict_get data "usage" (VDict [])) = false ->
        conversation_costs (final (pipe rt net body user self)) = conversation_costs self)
  /\ (forall rq e,
        sent (pipe rt net body user self) = [rq] ->
        net rq = Raise e ->
        conversation_costs (final (pipe rt net body user self)) = conversation_costs self)
  /\ (forall rq resp,
        sent (pipe rt net body user self) = [rq] ->
        net rq = Ok resp ->
        status_code resp <> 200 ->
        conversation_costs (final (pipe rt net body user self)) = conversation_costs self)
  /\ (forall messages e,
        dict_item body "messages" = Ok messages ->
        _transform_messages messages = Raise e ->
        conversation_costs (final (pipe rt net body user self)) = conversation_costs self)
  /\ (sent (pipe rt net body user self) = [] ->
      conversation_costs (final (pipe rt net body user self)) = conversation_costs self)
  /\ (forall rq resp e,
        sent (pipe rt net body user self) = [rq] ->
        net rq = Ok resp ->
        json resp = Raise e ->
        conversation_costs (final (pipe rt net body user self)) = conversation_costs self)
  /\ (forall rq resp data model model_id e,
        sent (pipe rt net body user self) = [rq] ->
        net rq = Ok resp ->
        json resp = Ok data ->
        dict_item body "model" = Ok model ->
        model_suffix model = Ok model_id ->
        extract_output_text data = Raise e
        \/ incomplete_reason_of data = Raise e
        \/ iter (dict_get data "output" (VList [])) = Raise e
        \/ usage_cost model_id (dict_get data "usage" (VDict [])) = Raise e ->
        conversation_costs (final (pipe rt net body user self)) = conversation_costs self)
  /\ (forall e,
        outcome (pipe_try rt net body user self) = Raise e ->
        conversation_costs (final (pipe rt net body user self)) = conversation_costs self
        \/ exists rq resp data conv_id model model_id reason cost t,
             sent (pipe rt net body user self) = [rq]
             /\ net rq = Ok resp
             /\ status_code resp = 200
             /\ json resp = Ok data
             /\ _get_conversation_id self body user = Ok conv_id
             /\ dict_item body "model" = Ok model
             /\ model_suffix model = Ok model_id
             /\ (exists text, extract_output_text data = Ok text)
             /\ (exists items, iter (dict_get data "output" (VList [])) = Ok items)
             /\ truthy (dict_get data "usage" (VDict [])) = true
             /\ incomplete_reason_of data = Ok reason
             /\ usage_cost model_id (dict_get data "usage" (VDict [])) = Ok (Some (cost, t))
             /\ conversation_costs (final (pipe rt net body user self))
                = conversation_costs (_update_conversation_cost self conv_id cost t)
             /\ _format_token_stats (final (pipe rt net body user self))
                  (dict_get data "usage" (VDict [])) model_id (status_of data) reason
                  conv_id cost
                = Raise e).
Proof.
  split; [|split; [|split; [|split; [|split; [|split; [|split; [|split]]]]]]].
  - (* completed, with a usage block *)
    intros rq resp data Hmodels Hout Hsent Hnet Hstatus Hjson Husage.
    destruct (answered_turn body user self rq resp Hsent Hnet Hstatus)
      as (conv_id & api_key & self1 & model & model_id
          & Hc & Hk & Hmod & Hsuf & Hsup & n & Hform).
    destruct (next_key_costs _ _ _ Hk) as [Hcosts _].
    destruct (supported_priced self model_id Hmodels Hsup) as [p Hp].
    rewrite (pipe_completed rt net body user self tt Hout).
    rewrite Hform in *. cbn [prepend final outcome yielded] in *.
    destruct (report_response_accounting rt resp model_id conv_id self1)
      as [[_ Hno]|(data' & cost & t & st & Hj & Hstatus' & Hreason & _ & Huc & Hfin & Hstats)].
    + destruct (Hno data Hjson Husage) as [Hbad|Hnone]; [congruence|].
      destruct (usage_cost_priced model_id _ p Hp Hnone).
    + rewrite Hjson in Hj. injection Hj as <-. rewrite Hstatus' in Hstats.
      destruct Hstats as [(stats & Hf & _ & before & Hy)|(e & _ & He)]; [|congruence].
      exists conv_id, model, model_id, cost, t, (snd st), stats.
      do 5 (split; [assumption|]).
      rewrite Hfin.
      split; [apply update_costs_congr, Hcosts|].
      split; [rewrite update_lookup, Hcosts; reflexivity|].
      split; [rewrite <- Hfin; exact Hf|].
      intros Hne. rewrite Hy, Hne, app_assoc. apply last_snoc.
  - (* completed or not, without a usage block *)
    intros rq resp data Hsent Hnet Hjson Husage.
    destruct (Z.eq_dec (status_code resp) 200) as [Hstatus|Hstatus];
      [|exact (proj2 (http_error_turn rt net body user self rq resp Hsent Hnet Hstatus))].
    destruct (answered_turn body user self rq resp Hsent Hnet Hstatus)
      as (conv_id & api_key & self1 & model & model_id
          & _ & Hk & _ & _ & _ & n & Hform).
    destruct (next_key_costs _ _ _ Hk) as [Hcosts _].
    rewrite pipe_final, Hform. cbn [prepend final].
    destruct (report_response_accounting rt resp model_id conv_id self1)
      as [[Hfin _]|(data' & cost & t & st & Hj & _ & _ & Hu & _)].
    + rewrite Hfin. exact Hcosts.
    + rewrite Hjson in Hj. injection Hj as <-. congruence.
  - (* the network raised *)
    intros rq e Hsent Hnet. rewrite pipe_sent in Hsent. rewrite pipe_final.
    destruct (pipe_try_cases rt net body user self)
      as [[_ Hsame]|(conv_id & api_key & self1 & model & model_id & messages & input
                     & _ & Hk & _ & _ & _ & _ & _ & Hform)];
      [exact Hsame|].
    destruct (next_key_costs _ _ _ Hk) as [Hcosts _].
    rewrite Hform in *. cbv zeta in *. clear Hform.
    destruct (net (responses_request self api_key model_id input)) as [resp0|e0] eqn:Hn.
    + destruct (negb (status_code resp0 =? 200)).
      * injection Hsent as <-. congruence.
      * cbn [prepend sent app] in Hsent. injection Hsent as <- _. congruence.
    + exact Hcosts.
  - (* a status other than 200 *)
    intros rq resp Hsent Hnet Hstatus.
    exact (proj2 (http_error_turn rt net body user self rq resp Hsent Hnet Hstatus)).
  - (* a message-format error *)
    intros messages e Hmsg Htr. rewrite pipe_final.
    destruct (pipe_try_cases rt net body user self)
      as [[_ Hsame]|(conv_id & api_key & self1 & model & model_id & messages' & input
                     & _ & _ & _ & _ & _ & Hmsg' & Htr' & _)];
      [exact Hsame|congruence].
  - (* nothing sent *)
    intros Hsent. rewrite pipe_sent in Hsent. rewrite pipe_final.
    destruct (pipe_try_cases rt net body user self)
      as [[_ Hsame]|(conv_id & api_key & self1 & model & model_id & messages & input
                     & _ & _ & _ & _ & _ & _ & _ & Hform)];
      [exact Hsame|].
    rewrite Hform in Hsent. cbv zeta in Hsent.
    destruct (net _); [destruct (negb _)|]; discriminate Hsent.
  - (* a body that cannot be decoded *)
    intros rq resp e Hsent Hnet Hjson.
    destruct (Z.eq_dec (status_code resp) 200) as [Hstatus|Hstatus];
      [|exact (proj2 (http_error_turn rt net body user self rq resp Hsent Hnet Hstatus))].
    destruct (answered_turn body user self rq resp Hsent Hnet Hstatus)
      as (conv_id & api_key & self1 & model & model_id
          & _ & Hk & _ & _ & _ & n & Hform).
    destruct (next_key_costs _ _ _ Hk) as [Hcosts _].
    rewrite pipe_final, Hform. cbn [prepend final].
    rewrite report_response_early_failure; [exact Hcosts|].
    left. exists e. exact Hjson.
  - (* an exception before the accounting block *)
    intros rq resp data model model_id e Hsent Hnet Hjson Hmod Hsuf Hearly.
    destruct (Z.eq_dec (status_code resp) 200) as [Hstatus|Hstatus];
      [|exact (proj2 (http_error_turn rt net body user self rq resp Hsent Hnet Hstatus))].
    destruct (answered_turn body user self rq resp Hsent Hnet Hstatus)
      as (conv_id & api_key & self1 & model' & model_id'
          & _ & Hk & Hmod' & Hsuf' & _ & n & Hform).
    assert (model_id' = model_id) as -> by congruence.
    destruct (next_key_costs _ _ _ Hk) as [Hcosts _].
    rewrite pipe_final, Hform. cbn [prepend final].
    rewrite report_response_early_failure; [exact Hcosts|].
    right. exists data, e. split; [exact Hjson|exact Hearly].
  - (* any exception *)
    intros e Hout. rewrite pipe_final, pipe_sent.
    destruct (pipe_try_cases rt net body user self)
      as [[_ Hsame]|(conv_id & api_key & self1 & model & model_id & messages & input
                     & Hc & Hk & Hmod & Hsuf & _ & _ & _ & Hform)];
      [left; exact Hsame|].
    destruct (next_key_costs _ _ _ Hk) as [Hcosts _].
    rewrite Hform in *. cbv zeta in *. clear Hform.
    destruct (net (responses_request self api_key model_id input)) as [resp|e0] eqn:Hnet;
      [|left; exact Hcosts].
    destruct (negb (status_code resp =? 200)) eqn:Hneg; [left; exact Hcosts|].
    cbn [prepend final outcome sent] in *.
    destruct (report_response_accounting rt resp model_id conv_id self1)
      as [[Hfin _]|(data & cost & t & st & Hj & Hst & Hreason & Hu & Huc & Hfin & Hstats)].
    + left. rewrite Hfin. exact Hcosts.
    + destruct Hstats as [(stats & _ & Hok & _)|(e' & Hf & He)]; [congruence|].
      assert (e' = e) as -> by congruence.
      right.
      exists (responses_request self api_key model_id input), resp, data, conv_id,
             model, model_id, (snd st), cost, t.
      rewrite report_response_sent.
      split; [reflexivity|]. split; [exact Hnet|].
      split; [apply Z.eqb_eq; destruct (status_code resp =? 200); [reflexivity|discriminate]|].
      split; [exact Hj|]. split; [exact Hc|]. split; [exact Hmod|]. split; [exact Hsuf|].
      assert (Hno : forall e1,
                extract_output_text data = Raise e1
                \/ incomplete_reason_of data = Raise e1
                \/ iter (dict_get data "output" (VList [])) = Raise e1
                \/ usage_cost model_id (dict_get data "usage" (VDict [])) = Raise e1 ->
                False).
      { intros e1 Hx.
        rewrite (report_response_early_failure rt resp model_id conv_id self1) in Hfin
          by (right; exists data, e1; split; [exact Hj|exact Hx]).
        pose proof (update_lookup self1 conv_id cost t) as Hl. rewrite <- Hfin in Hl.
        destruct (conversation_costs self1 !! conv_id) as [a|]; [|discriminate].
        injection Hl as Hl. apply (f_equal message_count) in Hl. simpl in Hl. lia. }
      split.
      { destruct (extract_output_text data) as [text|e1] eqn:Hx; [eexists; reflexivity|].
        destruct (Hno e1). left. reflexivity. }
      split.
      { destruct (iter (dict_get data "output" (VList []))) as [items|e1] eqn:Hx;
          [eexists; reflexivity|].
        destruct (Hno e1). right. right. left. reflexivity. }
      split; [exact Hu|]. split; [exact Hreason|]. split; [exact Huc|].
      split; [rewrite Hfin; apply update_costs_congr, Hcosts|].
      rewrite <- Hst. exact Hf.
Qed.
End TurnAccounting.

(** C1 on a 200 response that carries no usage block: the turn
    completes (progress notice, answer, the note that no usage is
    available) and no account exists afterwards. *)
Lemma completed_turn_without_usage :
  let self := with_keys init "k1" in
  let body := sample_body "openai.o3-pro" [user_msg "hello"] in
  let net := answering (ok_response [("output_text", VStr "hi")]) in
  outcome (pipe_try sample_runtime net body sample_user self) = Ok tt
  /\ yielded (pipe sample_runtime net body sample_user self)
     = [VStr (processing_text "o3-pro" 1); VStr "hi"; VStr no_usage_text]
  /\ _get_conversation_id self body sample_user
     = Ok (conv_id_of "u1" "hello")
  /\ conversation_costs (final (pipe sample_runtime net body sample_user self))
       !! conv_id_of "u1" "hello" = None
  /\ conversation_costs (final (pipe sample_runtime net body sample_user self)) = ∅.
Proof. cbv zeta. repeat split; reflexivity. Qed.

(** A turn that ends with an error fragment after its update: the
    usage block has a [total_tokens] that cannot be formatted, so the
    exception is raised while the statistics are formatted. *)
Lemma failed_turn_after_update :
  let self := with_keys init "k1" in
  let body := sample_body "openai.o3-pro" [user_msg "hello"] in
  let usage := VDict [("input_tokens", VInt 1000); ("output_tokens", VInt 2000);
                      ("total_tokens", VNone)] in
  let net := answering (ok_response [("output_text", VStr "hi"); ("usage", usage)]) in
  outcome (pipe_try sample_runtime net body sample_user self)
  = Raise (Fault "format" VNone)
  /\ yielded (pipe sample_runtime net body sample_user self)
     = [VStr (processing_text "o3-pro" 1); VStr "hi";
        VStr ("Error: " +:+ fault_str sample_runtime "format" VNone)]
  /\ message_count
       <$> conversation_costs (final (pipe sample_runtime net body sample_user self))
             !! conv_id_of "u1" "hello"
     = Some 1.
Proof. cbv zeta. repeat split; reflexivity. Qed.

(** Two turns of one conversation: the second is announced as message
    2 and the account holds both. *)
Lemma two_turns :
  let self := with_keys init "k1, k2" in
  let body := sample_body "openai.o3-pro" [user_msg "hello"] in
  let net := answering (ok_response [("output_text", VStr "hi"); ("usage", sample_usage)]) in
  let first := pipe sample_runtime net body sample_user self in
  let second := pipe sample_runtime net body sample_user (final first) in
  head (yielded second) = Some (VStr (processing_text "o3-pro" 2))
  /\ map req_headers (sent first ++ sent second)
     = [[("Authorization", "Bearer k1"); ("Content-Type", "application/json")];
        [("Authorization", "Bearer k2"); ("Content-Type", "application/json")]]
  /\ (fun a => (fmt_4f (total_cost a), total_input_tokens a, total_output_tokens a,
                total_reasoning_tokens a, message_count a))
       <$> conversation_costs (final second) !! "conv_u1_5a35054eb23d7d5b"
     = Some ("0.4400", 2000, 4000, 1000, 2).
Proof. vm_compute. repeat split; reflexivity. Qed.

Lemma accounting_follows_usage_witness :
  let self := with_keys init "k1" in
  let body := sample_body "openai.o3-pro" [user_msg "hello"] in
  let data := [("output_text", VStr "hi"); ("usage", sample_usage)] in
  let net := answering (ok_response data) in
  let no_usage := answering (ok_response [("output_text", VStr "hi")]) in
  let busy := answering {| status_code := 429; text := "rate limited";
                           json := Raise (HostError "no body") |} in
  let malformed := sample_body "openai.o3-pro"
                     [VDict [("role", VStr "user");
                             ("content", VList [VDict [("type", VStr "text")]])]] in
  let garbled := answering {| status_code := 200; text := "<html>";
                              json := Raise (HostError "no JSON") |} in
  let null_reasoning :=
    [("output_text", VStr "hi");
     ("usage", VDict [("input_tokens", VInt 1000); ("output_tokens", VInt 2000);
                      ("total_tokens", VInt 3000);
                      ("output_tokens_details", VDict [("reasoning_tokens", VNone)])])] in
  let null_total :=
    [("output_text", VStr "hi");
     ("usage", VDict [("input_tokens", VInt 1000); ("output_tokens", VInt 2000);
                      ("total_tokens", VNone)])] in
  (exists conv_id model model_id cost t reason stats,
     _get_conversation_id self body sample_user = Ok conv_id
     /\ dict_item body "model" = Ok model
     /\ model_suffix model = Ok model_id
     /\ incomplete_reason_of data = Ok reason
     /\ usage_cost model_id (dict_get data "usage" (VDict [])) = Ok (Some (cost, t))
     /\ conversation_costs (final (pipe sample_runtime net body sample_user self))
        = conversation_costs (_update_conversation_cost self conv_id cost t)
     /\ conversation_costs (final (pipe sample_runtime net body sample_user self)) !! conv_id
        = Some (add_to_account
                  (default new_account (conversation_costs self !! conv_id)) cost t)
     /\ _format_token_stats
          (final (pipe sample_runtime net body sample_user self))
          (dict_get data "usage" (VDict [])) model_id (status_of data) reason conv_id cost
        = Ok stats
     /\ (str_nonempty stats = true ->
         last (yielded (pipe sample_runtime net body sample_user self)) = Some (VStr stats)))
  /\ conversation_costs (final (pipe sample_runtime no_usage body sample_user self))
     = conversation_costs self
  /\ conversation_costs
       (final (pipe sample_runtime (failing TimeoutException) body sample_user self))
     = conversation_costs self
  /\ conversation_costs (final (pipe sample_runtime busy body sample_user self))
     = conversation_costs self
  /\ conversation_costs (final (pipe sample_runtime net malformed sample_user self))
     = conversation_costs self
  /\ conversation_costs (final (pipe sample_runtime net body sample_user init))
     = conversation_costs init
  /\ conversation_costs (final (pipe sample_runtime garbled body sample_user self))
     = conversation_costs self
  /\ conversation_costs
       (final (pipe sample_runtime (answering (ok_response null_reasoning))
                 body sample_user self))
     = conversation_costs self
  /\ (conversation_costs
        (final (pipe sample_runtime (answering (ok_response null_total))
                  body sample_user self))
      = conversation_costs self
      \/ exists rq resp data conv_id model model_id reason cost t,
           sent (pipe sample_runtime (answering (ok_response null_total))
                   body sample_user self) = [rq]
           /\ answering (ok_response null_total) rq = Ok resp
           /\ status_code resp = 200
           /\ json resp = Ok data
           /\ _get_conversation_id self body sample_user = Ok conv_id
           /\ dict_item body "model" = Ok model
           /\ model_suffix model = Ok model_id
           /\ (exists text, extract_output_text data = Ok text)
           /\ (exists items, iter (dict_get data "output" (VList [])) = Ok items)
           /\ truthy (dict_get data "usage" (VDict [])) = true
           /\ incomplete_reason_of data = Ok reason
           /\ usage_cost model_id (dict_get data "usage" (VDict [])) = Ok (Some (cost, t))
           /\ conversation_costs
                (final (pipe sample_runtime (answering (ok_response null_total))
                          body sample_user self))
              = conversation_costs (_update_conversation_cost self conv_id cost t)
           /\ _format_token_stats
                (final (pipe sample_runtime (answering (ok_response null_total))
                          body sample_user self))
                (dict_get data "usage" (VDict [])) model_id (status_of data) reason
                conv_id cost
              = Raise (Fault "format" VNone)).
Proof.
  cbv zeta. split; [|split; [|split; [|split; [|split; [|split; [|split; [|split]]]]]]].
  - eapply (proj1 (accounting_follows_usage sample_runtime
                     (answering (ok_response [("output_text", VStr "hi");
                                              ("usage", sample_usage)]))
                     (sample_body "openai.o3-pro" [user_msg "hello"]) sample_user
                     (with_keys init "k1")));
      reflexivity.
  - eapply (proj1 (proj2 (accounting_follows_usage sample_runtime _ _ _ _)));
      reflexivity.
  - eapply (proj1 (proj2 (proj2 (accounting_follows_usage sample_runtime _ _ _ _))));
      reflexivity.
  - eapply (proj1 (proj2 (proj2 (proj2
              (accounting_follows_usage sample_runtime _ _ _ _)))));
      [reflexivity | reflexivity | discriminate].
  - eapply (proj1 (proj2 (proj2 (proj2 (proj2
              (accounting_follows_usage sample_runtime _ _ _ _))))));
      reflexivity.
  - apply (proj1 (proj2 (proj2 (proj2 (proj2 (proj2
             (accounting_follows_usage sample_runtime _ _ _ _))))))).
    reflexivity.
  - eapply (proj1 (proj2 (proj2 (proj2 (proj2 (proj2 (proj2
              (accounting_follows_usage sample_runtime _ _ _ _))))))));
      reflexivity.
  - eapply (proj1 (proj2 (proj2 (proj2 (proj2 (proj2 (proj2 (proj2
              (accounting_follows_usage sample_runtime _ _ _ _)))))))))
      with (model_id := "o3-pro") (e := Fault ">" VNone);
      [reflexivity ..|].
    right. right. right. reflexivity.
  - apply (proj2 (proj2 (proj2 (proj2 (proj2 (proj2 (proj2 (proj2
             (accounting_follows_usage sample_runtime _ _ _ _))))))))).
    reflexivity.
Defined.

(** * Further properties *)

(** ** The accounts *)

(** X1: updates add to the totals and never replace them: after two
    updates of one conversation its account holds the earlier totals
    (zero for a new account) plus both messages, and the message count
    has grown by two. *)
Theorem update_accumulates (self : Pipe) (conv_id : string)
    (cost1 cost2 : float) (t1 t2 : tokens) :
  let before := default new_account (conversation_costs self !! conv_id) in
  let after := _update_conversation_cost
                 (_update_conversation_cost self conv_id cost1 t1) conv_id cost2 t2 in
  conversation_costs after !! conv_id
  = Some {| total_cost := (total_cost before + cost1 + cost2)%float;
            total_input_tokens := total_input_tokens before + tok_input t1 + tok_input t2;
            total_output_tokens := total_output_tokens before + tok_output t1 + tok_output t2;
            total_reasoning_tokens :=
              total_reasoning_tokens before + tok_reasoning t1 + tok_reasoning t2;
            message_count := message_count before + 1 + 1 |}.
Proof.
  cbv zeta. rewrite update_lookup, update_lookup. reflexivity.
Qed.

(** X2: an update touches one account only: the accounts are those
    there were plus the one of the conversation, every other account
    is as it was, and the settings and the cursor are as they were. *)
Theorem update_touches_one_account (self : Pipe) (conv_id : string)
    (cost : float) (t : tokens) :
  let after := _update_conversation_cost self conv_id cost t in
  dom (conversation_costs after) = {[conv_id]} ∪ dom (conversation_costs self)
  /\ (forall other, other <> conv_id ->
        conversation_costs after !! other = conversation_costs self !! other)
  /\ valves after = valves self
  /\ api_key_index after = api_key_index self
  /\ openai_response_models after = openai_response_models self.
Proof.
  cbv zeta. split; [|split; [|repeat split]].
  - apply set_eq. intros c. rewrite elem_of_union, elem_of_singleton, !elem_of_dom.
    destruct (decide (c = conv_id)) as [->|Hne].
    + rewrite update_lookup. split; [intros _; left; reflexivity|intros _; eexists; reflexivity].
    + rewrite update_lookup_other by congruence.
      split; [intros H; right; exact H|intros [H|H]; [contradiction|exact H]].
  - intros other Hne. apply update_lookup_other. congruence.
Qed.

Lemma update_touches_one_account_witness :
  conversation_costs (_update_conversation_cost init "conv_a" 1 {| tok_input := 1; tok_output := 2; tok_reasoning := 0 |}) !! "conv_b"
  = conversation_costs init !! "conv_b".
Proof.
  apply (proj1 (proj2 (update_touches_one_account init "conv_a" 1
                         {| tok_input := 1; tok_output := 2; tok_reasoning := 0 |}))).
  discriminate.
Defined.

(** ** What a turn does to the instance *)

Section TurnState.
Context (rt : Runtime) (net : network).

Lemma report_response_final (resp : response) (model_id conv_id : string) (self : Pipe) :
  final (report_response rt resp model_id conv_id self) = self
  \/ exists cost t,
       final (report_response rt resp model_id conv_id self)
       = _update_conversation_cost self conv_id cost t.
Proof.
  destruct (report_response_accounting rt resp model_id conv_id self)
    as [[H _]|(data & cost & t & st & _ & _ & _ & _ & _ & H & _)].
  - left. exact H.
  - right. exists cost, t. exact H.
Qed.

(** The instance after a turn: as it was when the identifier or the
    credential could not be obtained; otherwise with the cursor moved
    on, and possibly one account updated. *)
Lemma pipe_final_cases (body user : dict) (self : Pipe) :
  ((exists e, _get_conversation_id self body user = Raise e)
   /\ final (pipe rt net body user self) = self)
  \/ ((exists conv_id, _get_conversation_id self body user = Ok conv_id)
      /\ configured_keys (valves self) = []
      /\ final (pipe rt net body user self) = self)
  \/ exists conv_id api_key self1,
       _get_conversation_id self body user = Ok conv_id
       /\ _get_next_api_key self = Ok (api_key, self1)
       /\ (final (pipe rt net body user self) = self1
           \/ exists cost t,
                final (pipe rt net body user self)
                = _update_conversation_cost self1 conv_id cost t).
Proof.
  rewrite pipe_final, pipe_try_unfold.
  destruct (_get_conversation_id self body user) as [conv_id|e];
    [|left; split; [eexists|]; reflexivity].
  right.
  destruct (_get_next_api_key self) as [[api_key self1]|e] eqn:Hk.
  2:{ left. split; [eexists; reflexivity|]. split; [|reflexivity].
      unfold _get_next_api_key in Hk.
      destruct (configured_keys (valves self)); [reflexivity|discriminate]. }
  right. exists conv_id, api_key, self1. do 2 (split; [reflexivity|]).
  destruct (dict_item body "model") as [model|e]; [|left; reflexivity].
  destruct (model_suffix model) as [model_id|e]; [|left; reflexivity].
  destruct (negb (supported self model_id)); [left; reflexivity|].
  destruct (dict_item body "messages") as [messages|e]; [|left; reflexivity].
  destruct (_transform_messages messages) as [input|e]; [|left; reflexivity].
  cbv zeta. destruct (net _) as [resp|e]; [|left; reflexivity].
  destruct (negb (status_code resp =? 200)); [left; reflexivity|].
  cbn [prepend final].
  destruct (report_response_final resp model_id conv_id self1) as [H|(cost & t & H)].
  - left. exact H.
  - right. exists cost, t. exact H.
Qed.

Lemma next_key_result (self self1 : Pipe) (api_key : string) :
  _get_next_api_key self = Ok (api_key, self1) ->
  self1 = with_api_key_index self (api_key_index self + 1)
  /\ api_key ∈ configured_keys (valves self).
Proof.
  destruct (configured_keys (valves self)) as [|k0 ks] eqn:Hkeys.
  - unfold _get_next_api_key. rewrite Hkeys. discriminate.
  - rewrite (next_key_step self (k0 :: ks) Hkeys) by discriminate.
    intros H.
    assert (Hi : (api_key_index self mod length (k0 :: ks) < length (k0 :: ks))%nat)
      by (apply Nat.mod_upper_bound; discriminate).
    revert H Hi. generalize (api_key_index self mod length (k0 :: ks))%nat.
    generalize (k0 :: ks). intros l i H Hi.
    assert (Ha : api_key = nth i l "") by congruence.
    split; [congruence|]. rewrite Ha, list_elem_of_In. apply nth_In, Hi.
Qed.

(** X3: a turn never changes the settings or the list of supported
    models, and it moves the cursor by one exactly when an identifier
    was derived and a credential is configured, whatever happens
    afterwards (unsupported model, failure, success); otherwise the
    cursor stays where it was. *)
Theorem turn_moves_cursor_once (body user : dict) (self : Pipe) :
  valves (final (pipe rt net body user self)) = valves self
  /\ openai_response_models (final (pipe rt net body user self))
     = openai_response_models self
  /\ (forall conv_id,
        _get_conversation_id self body user = Ok conv_id ->
        configured_keys (valves self) <> [] ->
        api_key_index (final (pipe rt net body user self)) = S (api_key_index self))
  /\ (forall e,
        _get_conversation_id self body user = Raise e ->
        api_key_index (final (pipe rt net body user self)) = api_key_index self)
  /\ (configured_keys (valves self) = [] ->
      api_key_index (final (pipe rt net body user self)) = api_key_index self).
Proof.
  destruct (pipe_final_cases body user self)
    as [[[e He] Hf]|[([c Hc] & Hk & Hf)|(c & api_key & self1 & Hc & Hk & Hf)]].
  - rewrite Hf. repeat split; try reflexivity. intros c Hc. congruence.
  - rewrite Hf. repeat split; try reflexivity. intros c' _ Hne. contradiction.
  - destruct (next_key_result _ _ _ Hk) as [-> Hin].
    assert (Hkeys : configured_keys (valves self) <> []).
    { intros H. rewrite H in Hin. inversion Hin. }
    destruct Hf as [->|(cost & t & ->)]; (repeat split; try reflexivity);
      try (intros; simpl; lia); try congruence; try contradiction.
Qed.
End TurnState.

Lemma turn_moves_cursor_once_witness :
  api_key_index
    (final (pipe sample_runtime (failing TimeoutException)
              (sample_body "openai.o3-pro" [user_msg "hello"]) sample_user
              (with_keys init "k1, k2")))
  = 1%nat.
Proof.
  eapply (proj1 (proj2 (proj2 (turn_moves_cursor_once sample_runtime
            (failing TimeoutException)
            (sample_body "openai.o3-pro" [user_msg "hello"]) sample_user
            (with_keys init "k1, k2"))))).
  - vm_compute. reflexivity.
  - vm_compute. discriminate.
Defined.

Section TurnAccounts.
Context (rt : Runtime) (net : network).

(** The accounts after a turn: those before it, or those with one
    update of the conversation of the turn. *)
Lemma pipe_costs_cases (body user : dict) (self : Pipe) :
  conversation_costs (final (pipe rt net body user self)) = conversation_costs self
  \/ exists conv_id cost t,
       _get_conversation_id self body user = Ok conv_id
       /\ conversation_costs (final (pipe rt net body user self))
          = conversation_costs (_update_conversation_cost self conv_id cost t).
Proof.
  destruct (pipe_final_cases rt net body user self)
    as [[_ Hf]|[(_ & _ & Hf)|(c & api_key & self1 & Hc & Hk & Hf)]];
    [left; rewrite Hf; reflexivity ..|].
  destruct (next_key_costs _ _ _ Hk) as [Hcosts _].
  destruct Hf as [->|(cost & t & ->)]; [left; exact Hcosts|].
  right. exists c, cost, t. split; [exact Hc|].
  apply update_costs_congr, Hcosts.
Qed.

(** X4: a turn never removes an account and changes at most one, the
    one of its own conversation: every other account is as it was, and
    an account that was there is still there with a message count that
    is the same or one more. *)
Theorem turn_keeps_accounts (body user : dict) (self : Pipe) :
  let after := final (pipe rt net body user self) in
  (forall c, _get_conversation_id self body user <> Ok c ->
     conversation_costs after !! c = conversation_costs self !! c)
  /\ (forall c a, conversation_costs self !! c = Some a ->
        exists a', conversation_costs after !! c = Some a'
                   /\ (a' = a \/ message_count a' = message_count a + 1)).
Proof.
  cbv zeta.
  destruct (pipe_costs_cases body user self) as [->|(c0 & cost & t & Hc & ->)].
  - split; [reflexivity|]. intros c a Ha. exists a. split; [exact Ha|left; reflexivity].
  - split.
    + intros c Hne. apply update_lookup_other. congruence.
    + intros c a Ha. destruct (decide (c0 = c)) as [->|Hne].
      * rewrite update_lookup, Ha. eexists. split; [reflexivity|right; reflexivity].
      * rewrite update_lookup_other by exact Hne. exists a. split; [exact Ha|left; reflexivity].
Qed.
End TurnAccounts.

Lemma turn_keeps_accounts_witness :
  let self := _update_conversation_cost (with_keys init "k1") "conv_other" 1
                {| tok_input := 1; tok_output := 2; tok_reasoning := 0 |} in
  let net := answering (ok_response [("output_text", VStr "hi"); ("usage", sample_usage)]) in
  let body := sample_body "openai.o3-pro" [user_msg "hello"] in
  conversation_costs (final (pipe sample_runtime net body sample_user self)) !! "conv_other"
  = conversation_costs self !! "conv_other".
Proof.
  cbv zeta.
  apply (proj1 (turn_keeps_accounts sample_runtime
                  (answering (ok_response [("output_text", VStr "hi"); ("usage", sample_usage)]))
                  (sample_body "openai.o3-pro" [user_msg "hello"]) sample_user _)).
  vm_compute. discriminate.
Defined.

(** ** The request of a turn *)

Section TurnRequest.
Context (rt : Runtime) (net : network).

(** What a turn sends: nothing, or the one request built from the
    body, with the credential the cursor points at. *)
Lemma pipe_sent_cases (body user : dict) (self : Pipe) :
  sent (pipe rt net body user self) = []
  \/ exists conv_id api_key self1 model model_id messages input,
       _get_conversation_id self body user = Ok conv_id
       /\ _get_next_api_key self = Ok (api_key, self1)
       /\ dict_item body "model" = Ok model
       /\ model_suffix model = Ok model_id
       /\ supported self model_id = true
       /\ dict_item body "messages" = Ok messages
       /\ _transform_messages messages = Ok input
       /\ sent (pipe rt net body user self)
          = [responses_request self api_key model_id input].
Proof.
  rewrite pipe_sent.
  destruct (pipe_try_cases rt net body user self)
    as [[H _]|(c & k & self1 & model & model_id & messages & input
               & Hc & Hk & Hm & Hs & Hsup & Hms & Ht & Hrun)];
    [left; exact H|].
  right. exists c, k, self1, model, model_id, messages, input.
  do 7 (split; [assumption|]).
  rewrite Hrun. cbv zeta.
  destruct (net _) as [resp|e]; [|reflexivity].
  destruct (negb _); [reflexivity|].
  cbn [prepend sent]. rewrite report_response_sent. reflexivity.
Qed.

(** X5: a turn sends at most one request, and what it sends is a
    request to [BASE_URL/responses] that carries one of the configured
    credentials as bearer token, the timeout of the settings, and a
    limit of output tokens between 1 and 32768, whatever the setting
    is. *)
Theorem turn_sends_one_bounded_request (body user : dict) (self : Pipe) :
  (length (sent (pipe rt net body user self)) <= 1)%nat
  /\ forall rq, rq ∈ sent (pipe rt net body user self) ->
       req_url rq = BASE_URL (valves self) +:+ "/responses"
       /\ req_timeout rq = TIMEOUT_SECONDS (valves self)
       /\ (exists key,
             key ∈ configured_keys (valves self)
             /\ req_headers rq = [("Authorization", "Bearer " +:+ key);
                                  ("Content-Type", "application/json")])
       /\ exists n,
            get (req_json rq) "max_output_tokens" VNone = Ok (VInt n)
            /\ 1 <= n <= 32768.
Proof.
  destruct (pipe_sent_cases body user self)
    as [->|(c & k & self1 & model & model_id & messages & input
            & _ & Hk & _ & _ & _ & _ & _ & ->)].
  - split; [simpl; lia|]. intros rq H. inversion H.
  - split; [simpl; lia|]. intros rq H.
    apply list_elem_of_singleton in H. subst rq.
    destruct (next_key_result _ _ _ Hk) as [_ Hin].
    split; [reflexivity|]. split; [reflexivity|]. split.
    + exists k. split; [exact Hin|reflexivity].
    + eexists. split; [reflexivity|]. lia.
Qed.

(** X6: the request of a turn is built from the body alone and the
    instance as it was before the turn: the model is what follows the
    first dot of [body["model"]], the input is the transformed
    [body["messages"]], and the credential is the one the cursor
    pointed at, counted around the configured credentials. *)
Theorem turn_request_contents (body user : dict) (self : Pipe) (rq : request) :
  sent (pipe rt net body user self) = [rq] ->
  exists model model_id messages input,
    dict_item body "model" = Ok model
    /\ model_suffix model = Ok model_id
    /\ dict_item body "messages" = Ok messages
    /\ _transform_messages messages = Ok input
    /\ rq = responses_request self
              (nth (api_key_index self mod length (configured_keys (valves self)))
                   (configured_keys (valves self)) "")
              model_id input.
Proof.
  intros Hsent.
  destruct (pipe_sent_cases body user self)
    as [H|(c & k & self1 & model & model_id & messages & input
           & _ & Hk & Hm & Hs & _ & Hms & Ht & H)];
    rewrite H in Hsent; [discriminate|].
  exists model, model_id, messages, input. do 4 (split; [assumption|]).
  injection Hsent as <-.
  assert (Hne : configured_keys (valves self) <> []).
  { intros E. unfold _get_next_api_key in Hk. rewrite E in Hk. discriminate. }
  rewrite (next_key_step self _ eq_refl Hne) in Hk.
  congruence.
Qed.
End TurnRequest.

Lemma turn_sends_one_bounded_request_witness :
  req_url (responses_request (with_keys init "k1") "k1" "o3-pro"
             [block "user" [input_text (VStr "hello")]])
  = BASE_URL (valves (with_keys init "k1")) +:+ "/responses".
Proof.
  apply (proj2 (turn_sends_one_bounded_request sample_runtime (failing TimeoutException)
                  (sample_body "openai.o3-pro" [user_msg "hello"]) sample_user
                  (with_keys init "k1"))).
  vm_compute. constructor.
Defined.

Lemma turn_request_contents_witness :
  exists model model_id messages input,
    dict_item (sample_body "openai.o3-pro" [user_msg "hello"]) "model" = Ok model
    /\ model_suffix model = Ok model_id
    /\ dict_item (sample_body "openai.o3-pro" [user_msg "hello"]) "messages" = Ok messages
    /\ _transform_messages messages = Ok input
    /\ responses_request (with_keys init "k1") "k1" "o3-pro"
         [block "user" [input_text (VStr "hello")]]
       = responses_request (with_keys init "k1")
           (nth (api_key_index (with_keys init "k1")
                 mod length (configured_keys (valves (with_keys init "k1"))))
                (configured_keys (valves (with_keys init "k1"))) "")
           model_id input.
Proof.
  apply (turn_request_contents sample_runtime (failing TimeoutException)
           (sample_body "openai.o3-pro" [user_msg "hello"]) sample_user
           (with_keys init "k1")).
  vm_compute. reflexivity.
Defined.

(** ** The fragments of a turn *)

Section TurnFragments.
Context (rt : Runtime) (net : network).

Lemma handled_text (e : exn) (self : Pipe) :
  str_prefix "Error:"
    match e with
    | TimeoutException => timeout_text self
    | _ => "Error: " +:+ exn_str rt e
    end = true.
Proof. destruct e; reflexivity. Qed.

(** [pipe] on a run of the [try] that raised. *)
Lemma pipe_raised (body user : dict) (self : Pipe) (e : exn) :
  outcome (pipe_try rt net body user self) = Raise e ->
  pipe rt net body user self
  = {| yielded := yielded (pipe_try rt net body user self)
                  ++ [VStr match e with
                           | TimeoutException =>
                               timeout_text (final (pipe_try rt net body user self))
                           | _ => "Error: " +:+ exn_str rt e
                           end];
       sent := sent (pipe_try rt net body user self);
       final := final (pipe_try rt net body user self);
       outcome := Ok tt |}.
Proof. intros H. unfold pipe. rewrite H. destruct e; reflexivity. Qed.

(** X7: a turn that sends no request yields exactly one fragment, a
    text that starts with [Error:], and completes: whatever went wrong
    before the request (no identifier, no credential, a body without
    model or messages, a model that is not supported, a message that
    cannot be transformed) is reported and not raised, and nothing is
    accounted. *)
Theorem silent_turn_is_one_error (body user : dict) (self : Pipe) :
  sent (pipe rt net body user self) = [] ->
  outcome (pipe rt net body user self) = Ok tt
  /\ (exists t, yielded (pipe rt net body user self) = [VStr t]
                /\ str_prefix "Error:" t = true)
  /\ conversation_costs (final (pipe rt net body user self)) = conversation_costs self.
Proof.
  intros Hsent. rewrite pipe_sent in Hsent.
  assert (Hraised : forall e s, pipe_try rt net body user self = raised e s ->
            outcome (pipe rt net body user self) = Ok tt
            /\ exists t, yielded (pipe rt net body user self) = [VStr t]
                         /\ str_prefix "Error:" t = true).
  { intros e s H. rewrite (pipe_raised body user self e) by (rewrite H; reflexivity).
    rewrite H. split; [reflexivity|]. eexists. split; [reflexivity|]. apply handled_text. }
  assert (Hcosts : conversation_costs (final (pipe rt net body user self))
                   = conversation_costs self).
  { rewrite pipe_final.
    destruct (pipe_try_cases rt net body user self)
      as [[_ H]|(c & k & self1 & model & model_id & messages & input
                 & _ & _ & _ & _ & _ & _ & _ & Hrun)]; [exact H|].
    rewrite Hrun in Hsent. cbv zeta in Hsent.
    destruct (net _); [destruct (negb _)|]; discriminate. }
  cut (outcome (pipe rt net body user self) = Ok tt
       /\ exists t, yielded (pipe rt net body user self) = [VStr t]
                    /\ str_prefix "Error:" t = true).
  { intros [H1 H2]. split; [exact H1|]. split; [exact H2|exact Hcosts]. }
  clear Hcosts. pose proof (pipe_try_unfold rt net body user self) as Hr.
  destruct (_get_conversation_id self body user) as [conv_id|e];
    [|exact (Hraised _ _ Hr)].
  destruct (_get_next_api_key self) as [[api_key self1]|e];
    [|exact (Hraised _ _ Hr)].
  destruct (dict_item body "model") as [model|e]; [|exact (Hraised _ _ Hr)].
  destruct (model_suffix model) as [model_id|e]; [|exact (Hraised _ _ Hr)].
  destruct (negb (supported self model_id)).
  { rewrite (pipe_completed rt net body user self tt) by (rewrite Hr; reflexivity).
    rewrite Hr. split; [reflexivity|]. eexists. split; reflexivity. }
  destruct (dict_item body "messages") as [messages|e]; [|exact (Hraised _ _ Hr)].
  destruct (_transform_messages messages) as [input|e]; [|exact (Hraised _ _ Hr)].
  rewrite Hr in Hsent. cbv zeta in Hsent.
  destruct (net _); [destruct (negb _)|]; discriminate.
Qed.

(** What a turn that reached the network has done before. *)
Lemma pipe_try_sent (body user : dict) (self : Pipe) (rq : request) :
  sent (pipe_try rt net body user self) = [rq] ->
  exists conv_id api_key self1 model model_id,
    _get_conversation_id self body user = Ok conv_id
    /\ _get_next_api_key self = Ok (api_key, self1)
    /\ dict_item body "model" = Ok model
    /\ model_suffix model = Ok model_id
    /\ supported self model_id = true
    /\ pipe_try rt net body user self
       = match net rq with
         | Raise e =>
             {| yielded := [VStr (processing_text model_id (next_message_number self conv_id))];
                sent := [rq]; final := self1; outcome := Raise e |}
         | Ok resp =>
             if negb (status_code resp =? 200) then
               {| yielded := [VStr (processing_text model_id (next_message_number self conv_id));
                              VStr ("Error: " +:+ str_of_Z (status_code resp)
                                    +:+ " " +:+ text resp)];
                  sent := [rq]; final := self1; outcome := Ok tt |}
             else
               prepend [VStr (processing_text model_id (next_message_number self conv_id))] [rq]
                 (report_response rt resp model_id conv_id self1)
         end.
Proof.
  intros Hsent.
  destruct (pipe_try_cases rt net body user self)
    as [[H _]|(c & k & self1 & model & model_id & messages & input
               & Hc & Hk & Hm & Hs & Hsup & Hms & Ht & Hrun)];
    [rewrite H in Hsent; discriminate|].
  exists c, k, self1, model, model_id. do 5 (split; [assumption|]).
  cbv zeta in Hrun.
  assert (Hrq : responses_request self k model_id input = rq).
  { rewrite Hrun in Hsent.
    destruct (net _); [destruct (negb _)|]; cbn [prepend sent app] in Hsent;
      congruence. }
  rewrite Hrq in Hrun. exact Hrun.
Qed.

(** X8: when the request of a turn fails on the network, the turn
    yields two fragments and completes: the notice, and the text of the
    failure, which for a timeout names the configured number of
    seconds; the credential is consumed, and nothing is accounted. *)
Theorem network_failure_turn (body user : dict) (self : Pipe) (rq : request) (e : exn) :
  sent (pipe rt net body user self) = [rq] ->
  net rq = Raise e ->
  outcome (pipe rt net body user self) = Ok tt
  /\ (exists conv_id model_id,
        _get_conversation_id self body user = Ok conv_id
        /\ yielded (pipe rt net body user self)
           = [VStr (processing_text model_id (next_message_number self conv_id));
              VStr match e with
                   | TimeoutException => timeout_text self
                   | _ => "Error: " +:+ exn_str rt e
                   end])
  /\ final (pipe rt net body user self)
     = with_api_key_index self (api_key_index self + 1).
Proof.
  intros Hsent Hnet. rewrite pipe_sent in Hsent.
  destruct (pipe_try_sent body user self rq Hsent)
    as (c & k & self1 & model & model_id & Hc & Hk & _ & _ & _ & Hrun).
  rewrite Hnet in Hrun.
  rewrite (pipe_raised body user self e) by (rewrite Hrun; reflexivity).
  rewrite Hrun. cbn [yielded final outcome app].
  destruct (next_key_result _ _ _ Hk) as [-> _].
  split; [reflexivity|]. split; [|reflexivity].
  exists c, model_id. split; [exact Hc|]. reflexivity.
Qed.

Lemma report_status_yields (data : dict) (self : Pipe) :
  (length (yielded (report_status data self)) <= 2)%nat.
Proof.
  unfold report_status.
  destruct (is_str (dict_get data "status" (VStr "completed")) "incomplete");
    [|simpl; lia].
  rewrite bind_this.
  destruct (get (dict_get data "incomplete_details" (VDict [])) "reason" (VStr "Unknown"))
    as [reason|e]; [|simpl; lia].
  rewrite (bind_lift_ok _ _ _ _ eq_refl), bind_yield.
  destruct (is_str reason "max_output_tokens"); simpl; lia.
Qed.

Lemma report_tools_yields (data : dict) (self : Pipe) :
  (length (yielded (report_tools rt data self)) <= 1)%nat.
Proof.
  unfold report_tools.
  destruct (iter (dict_get data "output" (VList []))) as [items|e]; [|simpl; lia].
  rewrite (bind_lift_ok _ _ _ _ eq_refl).
  destruct (tools_of items); simpl; lia.
Qed.

Lemma report_usage_yields (data : dict) (model_id conv_id : string)
    (status reason : value) (self : Pipe) :
  let r := report_usage rt data model_id conv_id status reason self in
  match outcome r with
  | Ok _ => (length (yielded r) <= 1)%nat
  | Raise _ => yielded r = []
  end.
Proof.
  cbv zeta. rewrite report_usage_unfold. cbv zeta.
  destruct (truthy _); [|destruct (SHOW_TOKEN_STATS _); simpl; lia].
  destruct (usage_cost _ _) as [priced|e]; [|reflexivity].
  destruct (_format_token_stats _ _ _ _ _ _ _) as [stats|e]; [|reflexivity].
  destruct (str_nonempty stats); simpl; lia.
Qed.

(** The fragments that follow a 200 response: the answer first when
    the body could be decoded, then at most four notes. *)
Lemma report_response_yields (resp : response) (model_id conv_id : string) (self : Pipe) :
  let r := report_response rt resp model_id conv_id self in
  match outcome r with
  | Ok _ => (1 <= length (yielded r) <= 5)%nat
  | Raise _ => (length (yielded r) <= 4)%nat
  end.
Proof.
  cbv zeta. rewrite report_response_unfold.
  destruct (json resp) as [data|e]; [|simpl; lia].
  destruct (extract_output_text data) as [out|e]; [|simpl; lia].
  cbv zeta.
  pose proof (report_status_yields data self) as Hs.
  pose proof (report_tools_yields data self) as Ht.
  destruct (outcome (report_status data self)) as [st|e];
    [|cbn [outcome yielded length]; lia].
  destruct (outcome (report_tools rt data self)) as [u|e];
    [|cbn [outcome yielded length]; rewrite length_app; lia].
  pose proof (report_usage_yields data model_id conv_id (fst st) (snd st) self) as Hu.
  cbv zeta in Hu. cbn [prepend outcome yielded].
  destruct (outcome (report_usage rt data model_id conv_id (fst st) (snd st) self));
    [|rewrite Hu]; cbn [length app]; rewrite !length_app; simpl; lia.
Qed.

(** X9: a turn that sends its request yields between two and six
    fragments and completes; the first is the notice, which names the
    model and the number of the message: one more than the messages
    accounted to the conversation so far. *)
Theorem sent_turn_fragments (body user : dict) (self : Pipe) (rq : request) :
  sent (pipe rt net body user self) = [rq] ->
  outcome (pipe rt net body user self) = Ok tt
  /\ exists conv_id model_id rest,
       _get_conversation_id self body user = Ok conv_id
       /\ supported self model_id = true
       /\ yielded (pipe rt net body user self)
          = VStr (processing_text model_id (next_message_number self conv_id)) :: rest
       /\ (1 <= length rest <= 5)%nat.
Proof.
  intros Hsent. rewrite pipe_sent in Hsent.
  destruct (pipe_try_sent body user self rq Hsent)
    as (c & k & self1 & model & model_id & Hc & Hk & _ & _ & Hsup & Hrun).
  assert (Hgoal : forall r : run unit,
            pipe_try rt net body user self
            = prepend [VStr (processing_text model_id (next_message_number self c))] [rq] r ->
            match outcome r with
            | Ok _ => (1 <= length (yielded r) <= 5)%nat
            | Raise _ => (length (yielded r) <= 4)%nat
            end ->
            outcome (pipe rt net body user self) = Ok tt
            /\ exists conv_id model_id rest,
                 _get_conversation_id self body user = Ok conv_id
                 /\ supported self model_id = true
                 /\ yielded (pipe rt net body user self)
                    = VStr (processing_text model_id (next_message_number self conv_id)) :: rest
                 /\ (1 <= length rest <= 5)%nat).
  { intros r Hr Hlen. destruct (outcome r) as [[]|e] eqn:Ho.
    - rewrite (pipe_completed rt net body user self tt) by (rewrite Hr; exact Ho).
      rewrite Hr. split; [exact Ho|].
      exists c, model_id, (yielded r). repeat split; try assumption; lia.
    - rewrite (pipe_raised body user self e) by (rewrite Hr; exact Ho).
      rewrite Hr. split; [reflexivity|].
      eexists c, model_id, _. split; [exact Hc|]. split; [exact Hsup|].
      split; [reflexivity|]. rewrite length_app. simpl. lia. }
  destruct (net rq) as [resp|e].
  - destruct (negb (status_code resp =? 200)).
    + apply (Hgoal {| yielded := [VStr ("Error: " +:+ str_of_Z (status_code resp)
                                         +:+ " " +:+ text resp)];
                      sent := []; final := self1; outcome := Ok tt |});
        [exact Hrun|simpl; lia].
    + apply (Hgoal _ Hrun). apply report_response_yields.
  - apply (Hgoal {| yielded := []; sent := []; final := self1; outcome := Raise e |});
      [exact Hrun|simpl; lia].
Qed.
End TurnFragments.

Lemma silent_turn_is_one_error_witness :
  conversation_costs
    (final (pipe sample_runtime (failing TimeoutException)
              (sample_body "openai.gpt-4" [user_msg "hello"]) sample_user
              (with_keys init "k1")))
  = conversation_costs (with_keys init "k1").
Proof.
  apply (silent_turn_is_one_error sample_runtime (failing TimeoutException)
           (sample_body "openai.gpt-4" [user_msg "hello"]) sample_user
           (with_keys init "k1")).
  vm_compute. reflexivity.
Defined.

Lemma network_failure_turn_witness :
  final (pipe sample_runtime (failing TimeoutException)
           (sample_body "openai.o3-pro" [user_msg "hello"]) sample_user
           (with_keys init "k1"))
  = with_api_key_index (with_keys init "k1") (api_key_index (with_keys init "k1") + 1).
Proof.
  eapply (network_failure_turn sample_runtime (failing TimeoutException)
            (sample_body "openai.o3-pro" [user_msg "hello"]) sample_user
            (with_keys init "k1")).
  - vm_compute. reflexivity.
  - reflexivity.
Defined.

Lemma sent_turn_fragments_witness :
  outcome (pipe sample_runtime
             (answering (ok_response [("output_text", VStr "hi"); ("usage", sample_usage)]))
             (sample_body "openai.o3-pro" [user_msg "hello"]) sample_user
             (with_keys init "k1"))
  = Ok tt.
Proof.
  eapply (sent_turn_fragments sample_runtime
            (answering (ok_response [("output_text", VStr "hi"); ("usage", sample_usage)]))
            (sample_body "openai.o3-pro" [user_msg "hello"]) sample_user
            (with_keys init "k1")).
  vm_compute. reflexivity.
Defined.

(** ** The number of a message *)

Lemma next_number_after_update (self : Pipe) (conv_id : string) (cost : float) (t : tokens) :
  next_message_number (_update_conversation_cost self conv_id cost t) conv_id
  = next_message_number self conv_id + 1.
Proof.
  unfold next_message_number. rewrite update_lookup.
  destruct (conversation_costs self !! conv_id); reflexivity.
Qed.

(** X10: the number a conversation is announced with grows with the
    accounting and with nothing else: after a turn of the conversation
    the next number is one more when the turn updated the account, and
    the same when it did not (a failure, an answer without usage), so
    that the next turn announces the same number again. *)
Theorem number_follows_accounting (rt : Runtime) (net : network) (body user : dict)
    (self : Pipe) (conv_id : string) :
  _get_conversation_id self body user = Ok conv_id ->
  let after := final (pipe rt net body user self) in
  (conversation_costs after = conversation_costs self
   /\ next_message_number after conv_id = next_message_number self conv_id)
  \/ ((exists cost t,
         conversation_costs after
         = conversation_costs (_update_conversation_cost self conv_id cost t))
      /\ next_message_number after conv_id = next_message_number self conv_id + 1).
Proof.
  intros Hc. cbv zeta.
  destruct (pipe_costs_cases rt net body user self) as [H|(c & cost & t & Hc' & H)].
  - left. split; [exact H|]. unfold next_message_number. rewrite H. reflexivity.
  - right. assert (c = conv_id) as -> by congruence.
    split; [exists cost, t; exact H|].
    rewrite <- (next_number_after_update self conv_id cost t).
    unfold next_message_number. rewrite H. reflexivity.
Qed.

Lemma number_follows_accounting_witness :
  let self := with_keys init "k1" in
  let net := answering (ok_response [("output_text", VStr "hi")]) in
  let body := sample_body "openai.o3-pro" [user_msg "hello"] in
  let after := final (pipe sample_runtime net body sample_user self) in
  (conversation_costs after = conversation_costs self
   /\ next_message_number after "conv_u1_5a35054eb23d7d5b"
      = next_message_number self "conv_u1_5a35054eb23d7d5b")
  \/ ((exists cost t,
         conversation_costs after
         = conversation_costs
             (_update_conversation_cost self "conv_u1_5a35054eb23d7d5b" cost t))
      /\ next_message_number after "conv_u1_5a35054eb23d7d5b"
         = next_message_number self "conv_u1_5a35054eb23d7d5b" + 1).
Proof.
  cbv zeta.
  apply (number_follows_accounting sample_runtime
           (answering (ok_response [("output_text", VStr "hi")]))
           (sample_body "openai.o3-pro" [user_msg "hello"]) sample_user
           (with_keys init "k1")).
  vm_compute. reflexivity.
Defined.

(** ** The transformation of the history *)

Lemma is_str_eq (v : value) (s : string) : is_str v s = true -> v = VStr s.
Proof.
  destruct v; try discriminate. simpl. intros H.
  apply String.eqb_eq in H. congruence.
Qed.


(** X12: a message fails to transform in exactly two cases: it is no
    object, and the error is that it has no [get]; or it is a user
    message whose content is a list with a part that cannot be
    transformed, and the error is that of the parts.  So an object
    that is an assistant or system message, a message of any other
    role, or a user message whose content is no list never fails. *)
Theorem transform_message_failures (m : value) (e : exn) :
  transform_message m = Raise e <->
  (is_object m = false /\ e = Fault "get" m)
  \/ exists d parts,
       m = VDict d
       /\ role_of m = VStr "user"
       /\ dict_get d "content" VNone = VList parts
       /\ transform_parts parts = Raise e.
Proof.
  unfold transform_message. split.
  - destruct m as [| | | | |d];
      try (cbn; intros H; left; split; [reflexivity|congruence]).
    cbn [get rbind role_of].
    destruct (is_str (dict_get d "role" VNone) "user") eqn:Hu.
    + destruct (dict_get d "content" VNone) as [| | | |parts|] eqn:Hcont;
        try discriminate.
      destruct (transform_parts parts) as [segs|e'] eqn:Hp; [discriminate|].
      cbn [rbind]. intros H. right. exists d, parts.
      split; [reflexivity|]. split; [apply is_str_eq, Hu|].
      split; [exact Hcont|congruence].
    + destruct (is_str _ "assistant"); [discriminate|].
      destruct (is_str _ "system"); discriminate.
  - intros [[Hm ->]|(d & parts & -> & Hrole & Hcont & Hparts)].
    + destruct m as [| | | | |d]; try reflexivity. discriminate.
    + cbn [get rbind role_of] in *. rewrite Hrole, Hcont. cbn [is_str String.eqb].
      change ("user" =? "user")%string with true. cbn iota. rewrite Hparts. reflexivity.
Qed.

Lemma transform_message_failures_witness :
  ((is_object (VStr "hello") = false
    /\ Fault "get" (VStr "hello") = Fault "get" (VStr "hello"))
   \/ exists d parts,
        VStr "hello" = VDict d
        /\ role_of (VStr "hello") = VStr "user"
        /\ dict_get d "content" VNone = VList parts
        /\ transform_parts parts = Raise (Fault "get" (VStr "hello")))
  /\ transform_message
       (VDict [("role", VStr "user"); ("content", VList [VDict [("type", VStr "text")]])])
     = Raise (KeyError "text").
Proof.
  split.
  - apply (proj1 (transform_message_failures (VStr "hello") (Fault "get" (VStr "hello")))).
    reflexivity.
  - apply (proj2 (transform_message_failures
                    (VDict [("role", VStr "user");
                            ("content", VList [VDict [("type", VStr "text")]])])
                    (KeyError "text"))).
    right. eexists _, _. repeat split; reflexivity.
Defined.

Lemma transform_message_roles (m : value) (b : option value) :
  transform_message m = Ok b ->
  match b with
  | Some b' => known_role m = true /\ role_of b' = role_of m
  | None => known_role m = false
  end.
Proof.
  unfold transform_message, known_role.
  destruct m as [| | | | |d]; try discriminate.
  cbn [get rbind role_of].
  destruct (is_str (dict_get d "role" VNone) "user") eqn:Hu.
  - apply is_str_eq in Hu. rewrite Hu.
    destruct (dict_get d "content" VNone) as [| | | |parts|];
      try (intros H; injection H as <-; split; reflexivity).
    destruct (transform_parts parts); [|discriminate].
    cbn [rbind]. intros H; injection H as <-; split; reflexivity.
  - destruct (is_str (dict_get d "role" VNone) "assistant") eqn:Ha.
    + apply is_str_eq in Ha. rewrite Ha.
      intros H; injection H as <-; split; reflexivity.
    + destruct (is_str (dict_get d "role" VNone) "system") eqn:Hs.
      * apply is_str_eq in Hs. rewrite Hs.
        intros H; injection H as <-; split; reflexivity.
      * intros H; injection H as <-. reflexivity.
Qed.

(** X13: a successful transformation keeps, in their order, exactly
    the messages whose role is user, assistant or system, each as the
    block of that role it becomes on its own; every other message is
    dropped without a trace. *)
Theorem transform_keeps_known_roles (ms input : list value) :
  _transform_messages (VList ms) = Ok input ->
  Forall2 (fun m b => transform_message m = Ok (Some b) /\ role_of b = role_of m)
          (filter (fun m => known_role m = true) ms) input.
Proof.
  unfold _transform_messages. cbn [iter rbind].
  revert input. induction ms as [|m ms IH]; intros input.
  - intros H; injection H as <-. constructor.
  - cbn [transform_each].
    destruct (transform_message m) as [b|e] eqn:Hm; [|discriminate].
    destruct (transform_each ms) as [bs|e]; [|discriminate].
    cbn [rbind]. intros H; injection H as <-.
    pose proof (transform_message_roles m b Hm) as Hr.
    destruct b as [b'|].
    + destruct Hr as [Hk Hrole]. rewrite filter_cons_True by exact Hk.
      constructor; [split; assumption|]. apply IH. reflexivity.
    + rewrite filter_cons_False by (rewrite Hr; discriminate).
      apply IH. reflexivity.
Qed.

Lemma transform_keeps_known_roles_witness :
  Forall2 (fun m b => transform_message m = Ok (Some b) /\ role_of b = role_of m)
          (filter (fun m => known_role m = true)
                  [user_msg "hello"; VDict [("role", VStr "tool"); ("content", VStr "x")];
                   assistant_msg "hi"])
          [block "user" [input_text (VStr "hello")];
           block "assistant" [output_text_segment (VStr "hi")]].
Proof.
  apply (transform_keeps_known_roles
           [user_msg "hello"; VDict [("role", VStr "tool"); ("content", VStr "x")];
            assistant_msg "hi"]).
  reflexivity.
Defined.

(** ** The text of an answer *)

Lemma message_texts_segments (ts : list string) :
  message_texts (map (fun t => output_text_segment (VStr t)) ts)
  = map VStr (filter (fun t => str_nonempty t = true) ts).
Proof.
  induction ts as [|t ts IH]; [reflexivity|].
  cbn [map message_texts output_text_segment]. 
  change (is_str (dict_get [("type", VStr "output_text"); ("text", VStr t)] "type" VNone)
                 "output_text") with true.
  change (dict_get [("type", VStr "output_text"); ("text", VStr t)] "text" (VStr ""))
    with (VStr t).
  cbn [truthy]. fold (output_text_segment). 
  destruct (str_nonempty t) eqn:Ht.
  - rewrite filter_cons_True by exact Ht. cbn [map]. f_equal. exact IH.
  - rewrite filter_cons_False by (rewrite Ht; discriminate). exact IH.
Qed.

(** X14: from an output made of assistant messages the extraction
    takes every text segment that is not empty, in the order of the
    messages and of their segments, and joins them with newlines;
    empty segments leave no blank line. *)
Theorem extraction_joins_segments (tss : list (list string)) :
  _extract_text_from_output (VList (map output_message tss))
  = Ok (str_join nl (filter (fun t => str_nonempty t = true) (concat tss))).
Proof.
  unfold _extract_text_from_output. cbn [iter rbind].
  assert (H : rmap item_texts (map output_message tss)
              = Ok (map (fun ts => map VStr (filter (fun t => str_nonempty t = true) ts)) tss)).
  { induction tss as [|ts tss IH]; [reflexivity|].
    cbn [map rmap]. rewrite IH.
    change (item_texts (output_message ts))
      with (Ok (message_texts (map (fun t => output_text_segment (VStr t)) ts))).
    rewrite message_texts_segments. reflexivity. }
  rewrite H. cbn [rbind]. clear H.
  assert (Hc : concat (map (fun ts => map VStr (filter (fun t => str_nonempty t = true) ts)) tss)
               = map VStr (filter (fun t => str_nonempty t = true) (concat tss))).
  { induction tss as [|ts tss IH]; [reflexivity|].
    cbn [map concat]. rewrite IH, filter_app, map_app. reflexivity. }
  rewrite Hc. apply join_strings.
Qed.

(** ** The configured credentials *)

Lemma lstrip_from_drop (k : nat) (s : string) :
  lstrip_from k s = lstrip (str_drop k s).
Proof.
  revert k. induction s as [|c r IH]; intros k.
  - destruct k; reflexivity.
  - destruct k as [|k]; [reflexivity|]. cbn [lstrip_from str_drop]. apply IH.
Qed.

Lemma lstrip_unfold (s : string) :
  lstrip s = match space_len s with
             | O => s
             | S k => lstrip (str_drop (S k) s)
             end.
Proof.
  destruct s as [|c r]; [reflexivity|].
  unfold lstrip at 1. cbn [lstrip_from].
  destruct (space_len (String c r)) as [|k]; [reflexivity|].
  cbn [str_drop]. apply lstrip_from_drop.
Qed.

Lemma space_len_length (s : string) : (space_len s <= String.length s)%nat.
Proof.
  unfold space_len.
  destruct s as [|a [|b [|c r]]]; cbn [String.length]; try lia;
    repeat match goal with
           | |- context [if ?b then _ else _] => destruct b
           end; lia.
Qed.

Lemma space_len_app (p x : string) (k : nat) :
  space_len p = S k -> space_len (p +:+ x) = S k.
Proof.
  unfold space_len.
  destruct p as [|a [|b [|c r]]]; rewrite ?str_app_cons, ?str_app_nil;
    try discriminate.
  - destruct (is_space a); [intros H; exact H|discriminate].
  - destruct (is_space a); [intros H; exact H|].
    cbv zeta. destruct (_ && _)%bool; [intros H; exact H|discriminate].
  - intros H. exact H.
Qed.

Lemma str_drop_length (n : nat) (s : string) :
  (String.length (str_drop n s) <= String.length s)%nat.
Proof.
  revert s. induction n as [|n IH]; intros s; [simpl; lia|].
  destruct s as [|c r]; [simpl; lia|]. cbn [str_drop String.length].
  specialize (IH r). lia.
Qed.

Lemma str_drop_app_le (n : nat) (p x : string) :
  (n <= String.length p)%nat -> str_drop n (p +:+ x) = str_drop n p +:+ x.
Proof.
  revert p. induction n as [|n IH]; intros p H; [reflexivity|].
  destruct p as [|c r]; [simpl in H; lia|].
  rewrite str_app_cons. cbn [str_drop]. apply IH. simpl in H. lia.
Qed.

(** What [lstrip] returns starts with no white space. *)
Lemma lstrip_space_len (s : string) : space_len (lstrip s) = 0%nat.
Proof.
  remember (String.length s) as n eqn:Hn. revert s Hn.
  induction n as [n IH] using lt_wf_ind. intros s Hn.
  rewrite lstrip_unfold. destruct (space_len s) as [|k] eqn:Hk; [exact Hk|].
  pose proof (space_len_length s) as Hl.
  destruct s as [|c r]; [discriminate|].
  apply (IH (String.length (str_drop (S k) (String c r)))); [|reflexivity].
  subst n. cbn [str_drop String.length].
  pose proof (str_drop_length k r). lia.
Qed.

Lemma lstrip_fixed (s : string) : space_len s = 0%nat -> lstrip s = s.
Proof. intros H. rewrite lstrip_unfold, H. reflexivity. Qed.

(** White space in front of [x] is stripped with that of [x]. *)
Lemma lstrip_app_space (p x : string) : lstrip p = "" -> lstrip (p +:+ x) = lstrip x.
Proof.
  remember (String.length p) as n eqn:Hn. revert p Hn.
  induction n as [n IH] using lt_wf_ind. intros p Hn Hp.
  destruct p as [|c r]; [reflexivity|].
  rewrite lstrip_unfold in Hp.
  destruct (space_len (String c r)) as [|k] eqn:Hk; [discriminate|].
  rewrite (lstrip_unfold (String c r +:+ x)), (space_len_app _ x _ Hk).
  pose proof (space_len_length (String c r)) as Hl. rewrite Hk in Hl.
  rewrite str_drop_app_le by exact Hl.
  apply (IH (String.length (str_drop (S k) (String c r)))); [|reflexivity|exact Hp].
  subst n. cbn [str_drop String.length]. pose proof (str_drop_length k r). lia.
Qed.

Lemma rstrip_cons (c : ascii) (r : string) :
  rstrip (String c r)
  = match lstrip (String c r) with
    | EmptyString => EmptyString
    | _ => String c (rstrip r)
    end.
Proof. reflexivity. Qed.

(** What [rstrip] cuts off is white space. *)
Lemma rstrip_rest (s : string) : exists x, s = rstrip s +:+ x /\ lstrip x = "".
Proof.
  induction s as [|c r (x & Hx & Hs)]; [exists ""; split; reflexivity|].
  rewrite rstrip_cons. destruct (lstrip (String c r)) as [|a t] eqn:Hl.
  - exists (String c r). split; [reflexivity|exact Hl].
  - exists x. split; [|exact Hs]. rewrite str_app_cons, <- Hx. reflexivity.
Qed.

Lemma rstrip_idem (s : string) : rstrip (rstrip s) = rstrip s.
Proof.
  induction s as [|c r IH]; [reflexivity|].
  rewrite rstrip_cons. destruct (lstrip (String c r)) as [|a t] eqn:Hl; [reflexivity|].
  rewrite rstrip_cons, IH.
  destruct (lstrip (String c (rstrip r))) as [|a' t'] eqn:Hl'; [|reflexivity].
  exfalso. destruct (rstrip_rest r) as (x & Hx & Hs).
  pose proof (lstrip_app_space _ x Hl') as H.
  rewrite str_app_cons, <- Hx, Hs, Hl in H. discriminate.
Qed.

(** [rstrip] brings no white space to the front. *)
Lemma rstrip_space_len (s : string) : space_len s = 0%nat -> space_len (rstrip s) = 0%nat.
Proof.
  intros H. destruct (space_len (rstrip s)) as [|k] eqn:Hk; [reflexivity|].
  destruct (rstrip_rest s) as (x & Hx & _).
  pose proof (space_len_app _ x _ Hk) as H'. rewrite <- Hx, H in H'. discriminate.
Qed.

Lemma strip_fixed (s : string) :
  lstrip (strip s) = strip s /\ rstrip (strip s) = strip s.
Proof.
  unfold strip. split.
  - apply lstrip_fixed, rstrip_space_len, lstrip_space_len.
  - apply rstrip_idem.
Qed.

(** X15: the credentials taken from [API_KEYS] are never empty and
    carry no white space around them, that of [str.strip()], ASCII or
    not: nothing is left to strip on either side; and there are at
    most as many as the setting has fields between commas.  So a
    request never carries an empty bearer token. *)
Theorem configured_keys_are_stripped (vs : Valves) :
  Forall (fun k => str_nonempty k = true
                   /\ lstrip k = k /\ rstrip k = k /\ strip k = k)
         (configured_keys vs)
  /\ (length (configured_keys vs) <= length (str_split "," (API_KEYS vs)))%nat.
Proof.
  unfold configured_keys. split.
  - apply Forall_forall. intros k Hk.
    apply list_elem_of_fmap in Hk. destruct Hk as (k0 & -> & Hk0).
    apply list_elem_of_filter in Hk0. destruct Hk0 as [Hne _].
    destruct (strip_fixed k0) as [Hl Hr].
    split; [exact Hne|]. split; [exact Hl|]. split; [exact Hr|].
    unfold strip at 1. rewrite Hl. exact Hr.
  - rewrite length_map. apply length_filter.
Qed.

(** White space beyond ASCII is stripped too: a no-break space
    (U+00A0) around a credential, and a field that holds an em space
    (U+2003) only. *)
Lemma configured_keys_unicode_space :
  let nbsp := of_bytes [194; 160]%nat in
  let emsp := of_bytes [226; 128; 131]%nat in
  configured_keys
    (valves (with_keys init (nbsp +:+ "k1" +:+ nbsp +:+ "," +:+ emsp +:+ ", k2 ,")))
  = ["k1"; "k2"].
Proof. vm_compute. reflexivity. Qed.

(** ** The shape of an identifier *)

Lemma sha256_round_length (st : list Z) (kw : Z * Z) :
  length (SHA256.round st kw) = length st.
Proof.
  unfold SHA256.round.
  destruct st as [|a [|b [|c [|d [|e [|f [|g [|h [|i st]]]]]]]]]; reflexivity.
Qed.

Lemma sha256_rounds_length (kws : list (Z * Z)) (st : list Z) :
  length (fold_left SHA256.round kws st) = length st.
Proof.
  revert st. induction kws as [|kw kws IH]; intros st; [reflexivity|].
  cbn [fold_left]. rewrite IH. apply sha256_round_length.
Qed.

Lemma sha256_compress_length (h block : list Z) :
  length (SHA256.compress h block) = length h.
Proof.
  unfold SHA256.compress. cbv zeta.
  rewrite length_map, length_combine, sha256_rounds_length. lia.
Qed.

Lemma sha256_blocks_length (n : nat) (bytes h : list Z) :
  length (SHA256.blocks n bytes h) = length h.
Proof.
  revert bytes h. induction n as [|n IH]; intros bytes h; [reflexivity|].
  cbn [SHA256.blocks]. rewrite IH. apply sha256_compress_length.
Qed.

Lemma hex8_length (x : Z) : String.length (SHA256.hex8 x) = 8%nat.
Proof. reflexivity. Qed.

Lemma hex_words_length (ws : list Z) :
  String.length (String.concat "" (map SHA256.hex8 ws)) = (8 * length ws)%nat.
Proof.
  induction ws as [|w ws IH]; [reflexivity|].
  cbn [map]. destruct ws as [|w' ws].
  - apply hex8_length.
  - change (String.concat "" (SHA256.hex8 w :: map SHA256.hex8 (w' :: ws)))
      with (SHA256.hex8 w +:+ "" +:+ String.concat "" (map SHA256.hex8 (w' :: ws))).
    rewrite !str_length_app, IH, hex8_length. simpl. lia.
Qed.

Lemma hexdigest_length (s : string) : String.length (SHA256.hexdigest s) = 64%nat.
Proof.
  unfold SHA256.hexdigest. cbv zeta.
  rewrite hex_words_length, sha256_blocks_length. reflexivity.
Qed.

Lemma str_take_length (n : nat) (s : string) :
  (n <= String.length s)%nat -> String.length (str_take n s) = n.
Proof.
  revert s. induction n as [|n IH]; intros s H; [reflexivity|].
  destruct s as [|c r]; simpl in H; [lia|].
  cbn [str_take String.length]. rewrite IH by lia. reflexivity.
Qed.

Lemma str_app_same_length (a b x y : string) :
  String.length a = String.length b -> a +:+ x = b +:+ y -> a = b.
Proof.
  revert b. induction a as [|c a IH]; intros [|d b] Hl H; try discriminate.
  - reflexivity.
  - rewrite !str_app_cons in H. injection H as -> H.
    rewrite (IH b); [reflexivity| |exact H]. simpl in Hl. lia.
Qed.

Lemma conversation_id_form (self : Pipe) (body user : dict) (conv_id : string) :
  _get_conversation_id self body user = Ok conv_id ->
  exists message_key,
    conv_id = conv_id_of (str (dict_get user "id" (VStr "unknown"))) message_key.
Proof.
  unfold _get_conversation_id.
  destruct (iter _) as [messages|e]; [|discriminate]. cbn [rbind].
  destruct (first_user_message messages) as [first|e]; [|discriminate].
  cbn [rbind]. cbv zeta.
  destruct (DEBUG_MODE (valves self)).
  - destruct (debug_count_user_messages messages); [|discriminate].
    cbn [rbind]. intros H; injection H as <-. eexists. reflexivity.
  - intros H; injection H as <-. eexists. reflexivity.
Qed.

(** X16: an identifier is [conv_], the user id, an underscore and
    sixteen characters of the digest, and it determines the user: two
    calls that return the same identifier were made for the same user
    id, so the accounts of different users are never merged. *)
Theorem identifier_determines_user (self1 self2 : Pipe) (body1 body2 user1 user2 : dict)
    (conv_id : string) :
  _get_conversation_id self1 body1 user1 = Ok conv_id ->
  _get_conversation_id self2 body2 user2 = Ok conv_id ->
  str (dict_get user1 "id" (VStr "unknown")) = str (dict_get user2 "id" (VStr "unknown"))
  /\ String.length conv_id
     = (String.length (str (dict_get user1 "id" (VStr "unknown"))) + 22)%nat
  /\ str_prefix ("conv_" +:+ str (dict_get user1 "id" (VStr "unknown")) +:+ "_") conv_id
     = true.
Proof.
  intros H1 H2.
  destruct (conversation_id_form _ _ _ _ H1) as [k1 E1].
  destruct (conversation_id_form _ _ _ _ H2) as [k2 E2].
  set (u1 := str (dict_get user1 "id" (VStr "unknown"))) in *.
  set (u2 := str (dict_get user2 "id" (VStr "unknown"))) in *.
  assert (Hlen : forall u k, String.length (conv_id_of u k) = (String.length u + 22)%nat).
  { intros u k. unfold conv_id_of. cbv zeta.
    rewrite !str_length_app, str_take_length by (rewrite hexdigest_length; lia).
    simpl. lia. }
  assert (Hu : u1 = u2).
  { assert (Hl : String.length u1 = String.length u2).
    { pose proof (Hlen u1 k1) as L1. pose proof (Hlen u2 k2) as L2.
      rewrite <- E1 in L1. rewrite <- E2 in L2. lia. }
    rewrite E1 in E2. unfold conv_id_of in E2. cbv zeta in E2.
    rewrite !str_app_cons, str_app_nil in E2.
    injection E2 as E2. exact (str_app_same_length _ _ _ _ Hl E2). }
  split; [exact Hu|]. split; [rewrite E1; apply Hlen|].
  rewrite E1. unfold conv_id_of. cbv zeta.
  generalize (str_take 16 (SHA256.hexdigest (u1 +:+ "_" +:+ k1))). intros h.
  assert (Hp : forall a b, str_prefix a (a +:+ b) = true).
  { intros a b. induction a as [|c a IH]; [reflexivity|].
    rewrite str_app_cons. cbn [str_prefix]. rewrite Ascii.eqb_refl. exact IH. }
  rewrite !str_app_assoc. apply Hp.
Qed.

Lemma identifier_determines_user_witness :
  str (dict_get sample_user "id" (VStr "unknown"))
  = str (dict_get [("id", VStr "u1"); ("name", VStr "Ann")] "id" (VStr "unknown")).
Proof.
  eapply (identifier_determines_user init (with_keys init "k1")
            (sample_body "openai.o3-pro" [user_msg "hello"])
            (sample_body "openai.o1-pro" [user_msg "hello"; assistant_msg "hi"])
            sample_user [("id", VStr "u1"); ("name", VStr "Ann")]).
  - vm_compute. reflexivity.
  - vm_compute. reflexivity.
Defined.

(** ** The advertised models *)

(** X17: [pipes] advertises one entry per supported model, named with
    the configured prefix, and every advertised id is accepted by
    [pipe]: addressed as [provider.id] with a provider name without a
    dot, the id is what [pipe] extracts, and it is in the list of
    supported models. *)
Theorem advertised_models_are_accepted (self : Pipe) (entry : value) (provider : string) :
  entry ∈ pipes self ->
  str_has "." provider = false ->
  exists model,
    entry = VDict [("name", VStr (NAME_PREFIX (valves self) +:+ model)); ("id", VStr model)]
    /\ model_suffix (VStr (provider +:+ "." +:+ model)) = Ok model
    /\ supported self model = true.
Proof.
  intros Hin Hp. unfold pipes in Hin.
  apply list_elem_of_fmap in Hin. destruct Hin as (model & -> & Hm).
  exists model. split; [reflexivity|]. split.
  - unfold model_suffix, str_from. f_equal.
    change ("." +:+ model) with (String "." model).
    rewrite (str_find_first _ _ _ Hp).
    replace (Z.to_nat (Z.of_nat (String.length provider) + 1))
      with (String.length (provider +:+ ".")) by (rewrite str_length_app; simpl; lia).
    change (String "." model) with ("." +:+ model).
    rewrite str_app_assoc. apply str_drop_app.
  - unfold supported. apply existsb_exists. exists model.
    split; [apply list_elem_of_In, Hm|apply String.eqb_refl].
Qed.

Lemma advertised_models_are_accepted_witness :
  exists model,
    VDict [("name", VStr "OpenAI: o3-pro"); ("id", VStr "o3-pro")]
    = VDict [("name", VStr (NAME_PREFIX (valves init) +:+ model)); ("id", VStr model)]
    /\ model_suffix (VStr ("o1o3pro" +:+ "." +:+ model)) = Ok model
    /\ supported init model = true.
Proof.
  apply (advertised_models_are_accepted init
           (VDict [("name", VStr "OpenAI: o3-pro"); ("id", VStr "o3-pro")]) "o1o3pro").
  - vm_compute. right. left.
  - reflexivity.
Defined.

(** ** Statistics switched off *)

Section Statistics.
Context (rt : Runtime).

(** X18: switching the statistics off hides them and nothing else: a
    priced usage block is still accounted to the conversation, no
    fragment is yielded for it, and the formatting, which is skipped,
    cannot fail on a block it would otherwise refuse. *)
Theorem hidden_statistics_are_accounted (data : dict) (model_id conv_id : string)
    (status reason : value) (self : Pipe) (cost : float) (t : tokens) :
  SHOW_TOKEN_STATS (valves self) = false ->
  truthy (dict_get data "usage" (VDict [])) = true ->
  usage_cost model_id (dict_get data "usage" (VDict [])) = Ok (Some (cost, t)) ->
  report_usage rt data model_id conv_id status reason self
  = {| yielded := []; sent := [];
       final := _update_conversation_cost self conv_id cost t;
       outcome := Ok tt |}.
Proof.
  intros Hoff Hu Hc. rewrite report_usage_unfold. cbv zeta.
  rewrite Hu, Hc. unfold _format_token_stats.
  change (valves (_update_conversation_cost self conv_id cost t)) with (valves self).
  rewrite Hoff, Hu. reflexivity.
Qed.
End Statistics.

Lemma hidden_statistics_are_accounted_witness :
  let self := with_valves init {|
    NAME_PREFIX := "OpenAI: "; BASE_URL := "https://api.openai.com/v1";
    API_KEYS := "k1"; THINKING_EFFORT := "medium";
    SHOW_TOKEN_STATS := false; SHOW_CUMULATIVE_COST := true;
    MAX_OUTPUT_TOKENS := 3200; TIMEOUT_SECONDS := 600; DEBUG_MODE := false |} in
  let data := [("usage", VDict [("input_tokens", VInt 1000); ("output_tokens", VInt 2000);
                                ("total_tokens", VNone)])] in
  report_usage sample_runtime data "o3-pro" "conv_a" (VStr "completed") VNone self
  = {| yielded := []; sent := [];
       final := _update_conversation_cost self "conv_a"
                  (1000 / 1000000 * 20 + 2000 / 1000000 * 80 + 0)%float
                  {| tok_input := 1000; tok_output := 2000; tok_reasoning := 0 |};
       outcome := Ok tt |}.
Proof.
  cbv zeta. apply hidden_statistics_are_accounted; reflexivity.
Defined.

(** ** Sessions *)

Section Sessions.
Context (rt : Runtime).

Lemma pipe_final_settings (net : network) (body user : dict) (self : Pipe) :
  valves (final (pipe rt net body user self)) = valves self
  /\ openai_response_models (final (pipe rt net body user self))
     = openai_response_models self
  /\ (api_key_index self <= api_key_index (final (pipe rt net body user self))
      <= api_key_index self + 1)%nat.
Proof.
  destruct (pipe_final_cases rt net body user self)
    as [[_ Hf]|[(_ & _ & Hf)|(c & api_key & self1 & _ & Hk & Hf)]];
    [rewrite Hf; repeat split; lia ..|].
  destruct (next_key_result _ _ _ Hk) as [-> _].
  destruct Hf as [->|(cost & t & ->)]; repeat split; simpl; lia.
Qed.

Lemma conversation_id_settings (a b : Pipe) (body user : dict) :
  valves a = valves b ->
  _get_conversation_id a body user = _get_conversation_id b body user.
Proof. intros H. unfold _get_conversation_id. rewrite H. reflexivity. Qed.

(** X19: over a whole session the settings and the supported models
    stay what they were, the cursor moves on by at most one per turn,
    and so every later call computes the identifier of a body and a
    user as the first call would: identifiers are stable across the
    turns of a session. *)
Theorem session_keeps_settings (ts : list (network * dict * dict)) (self : Pipe) :
  valves (turns rt ts self) = valves self
  /\ openai_response_models (turns rt ts self) = openai_response_models self
  /\ (api_key_index self <= api_key_index (turns rt ts self)
      <= api_key_index self + length ts)%nat
  /\ forall body user,
       _get_conversation_id (turns rt ts self) body user
       = _get_conversation_id self body user.
Proof.
  cut (valves (turns rt ts self) = valves self
       /\ openai_response_models (turns rt ts self) = openai_response_models self
       /\ (api_key_index self <= api_key_index (turns rt ts self)
           <= api_key_index self + length ts)%nat).
  { intros (Hv & Hm & Hi). repeat split; try assumption; try lia.
    intros body user. apply conversation_id_settings, Hv. }
  revert self. induction ts as [|[[net body] user] ts IH]; intros self.
  - repeat split; simpl; lia.
  - cbn [turns length].
    destruct (IH (final (pipe rt net body user self))) as (Hv & Hm & Hi).
    destruct (pipe_final_settings net body user self) as (Hv1 & Hm1 & Hi1).
    rewrite Hv, Hm, Hv1, Hm1. repeat split; lia.
Qed.

Lemma turns_message_counts (ts : list (network * dict * dict)) :
  forall (self : Pipe) (n : Z),
    0 <= n ->
    (forall c b, conversation_costs self !! c = Some b -> 1 <= message_count b <= n) ->
    forall c a, conversation_costs (turns rt ts self) !! c = Some a ->
                1 <= message_count a <= n + Z.of_nat (length ts).
Proof.
  induction ts as [|[[net body] user] ts IH]; intros self n Hn Hinv conv_id a Ha.
  - cbn [turns length] in *. specialize (Hinv _ _ Ha). lia.
  - cbn [turns] in Ha. cbn [length].
    replace (n + Z.of_nat (S (length ts))) with ((n + 1) + Z.of_nat (length ts)) by lia.
    apply (IH (final (pipe rt net body user self)) (n + 1)) with (c := conv_id);
      [lia| |exact Ha].
    intros c b Hb.
    destruct (pipe_costs_cases rt net body user self) as [H|(c0 & cost & t & _ & H)];
      rewrite H in Hb.
    + specialize (Hinv _ _ Hb). lia.
    + destruct (decide (c0 = c)) as [->|Hne].
      * rewrite update_lookup in Hb. injection Hb as <-.
        destruct (conversation_costs self !! c) as [b0|] eqn:Hc0; simpl.
        -- specialize (Hinv _ _ Hc0). lia.
        -- lia.
      * rewrite update_lookup_other in Hb by exact Hne.
        specialize (Hinv _ _ Hb). lia.
Qed.

(** X20: no account without a message: in a session that starts
    without accounts, as every instance does, each account that exists
    afterwards counts at least one message and at most as many as
    there were turns. *)
Theorem session_accounts_count_messages (ts : list (network * dict * dict))
    (self : Pipe) (conv_id : string) (a : account) :
  conversation_costs self = ∅ ->
  conversation_costs (turns rt ts self) !! conv_id = Some a ->
  1 <= message_count a <= Z.of_nat (length ts).
Proof.
  intros Hempty Ha.
  apply (turns_message_counts ts self 0) with (c := conv_id); [lia| |exact Ha].
  intros c b. rewrite Hempty, lookup_empty. discriminate.
Qed.
End Sessions.

Lemma session_accounts_count_messages_witness :
  let net := answering (ok_response [("output_text", VStr "hi"); ("usage", sample_usage)]) in
  let turn := (net, sample_body "openai.o3-pro" [user_msg "hello"], sample_user) in
  1 <= message_count
         (default new_account
            (conversation_costs (turns sample_runtime [turn; turn] (with_keys init "k1"))
               !! "conv_u1_5a35054eb23d7d5b"))
    <= Z.of_nat (length [turn; turn]).
Proof.
  cbv zeta.
  apply (session_accounts_count_messages sample_runtime _ (with_keys init "k1")
           "conv_u1_5a35054eb23d7d5b").
  - reflexivity.
  - vm_compute. reflexivity.
Defined.

(** ** Failures of the service *)

(** X21: an answer of the service with a status other than 200 ends
    the turn with two fragments, the notice and [Error:] with the
    status and the body of the answer; the body is not decoded,
    nothing is accounted, and the credential is consumed. *)
Theorem http_error_fragments (rt : Runtime) (net : network) (body user : dict)
    (self : Pipe) (rq : request) (resp : response) :
  sent (pipe rt net body user self) = [rq] ->
  net rq = Ok resp ->
  status_code resp <> 200 ->
  (exists conv_id model_id,
     _get_conversation_id self body user = Ok conv_id
     /\ yielded (pipe rt net body user self)
        = [VStr (processing_text model_id (next_message_number self conv_id));
           VStr ("Error: " +:+ str_of_Z (status_code resp) +:+ " " +:+ text resp)])
  /\ final (pipe rt net body user self)
     = with_api_key_index self (api_key_index self + 1).
Proof.
  intros Hsent Hnet Hcode. rewrite pipe_sent in Hsent.
  destruct (pipe_try_sent rt net body user self rq Hsent)
    as (c & k & self1 & model & model_id & Hc & Hk & _ & _ & _ & Hrun).
  rewrite Hnet in Hrun.
  replace (negb (status_code resp =? 200)) with true in Hrun
    by (symmetry; apply negb_true_iff, Z.eqb_neq, Hcode).
  rewrite (pipe_completed rt net body user self tt) by (rewrite Hrun; reflexivity).
  rewrite Hrun. cbn [yielded final].
  destruct (next_key_result _ _ _ Hk) as [-> _].
  split; [|reflexivity]. exists c, model_id. split; [exact Hc|reflexivity].
Qed.

Lemma http_error_fragments_witness :
  final (pipe sample_runtime
           (answering {| status_code := 429; text := "slow down"; json := Ok [] |})
           (sample_body "openai.o3-pro" [user_msg "hello"]) sample_user
           (with_keys init "k1"))
  = with_api_key_index (with_keys init "k1") (api_key_index (with_keys init "k1") + 1).
Proof.
  eapply (http_error_fragments sample_runtime
            (answering {| status_code := 429; text := "slow down"; json := Ok [] |})
            (sample_body "openai.o3-pro" [user_msg "hello"]) sample_user
            (with_keys init "k1")).
  - vm_compute. reflexivity.
  - reflexivity.
  - vm_compute. discriminate.
Defined.

(** ** Logging *)

(** X22: the debug mode never changes an identifier, but it can make
    the call fail: an identifier computed with the mode on is the one
    computed with it off, while the count of user messages that is
    only logged walks over the whole history and fails on an entry
    that is no object, which the search for the first user message
    never reaches. *)
Theorem debug_mode_only_adds_failures (self quiet : Pipe) (body user : dict)
    (s : string) (junk : value) :
  DEBUG_MODE (valves quiet) = false ->
  (forall d, junk <> VDict d) ->
  (forall conv_id,
     _get_conversation_id self body user = Ok conv_id ->
     _get_conversation_id quiet body user = Ok conv_id)
  /\ (DEBUG_MODE (valves self) = true ->
      _get_conversation_id quiet (sample_body "m" [user_msg s; junk]) user
      = Ok (conv_id_of (str (dict_get user "id" (VStr "unknown")))
              (take_chars 50 (message_or_placeholder (Some s))))
      /\ _get_conversation_id self (sample_body "m" [user_msg s; junk]) user
         = Raise (Fault "get" junk)).
Proof.
  intros Hq Hjunk. split.
  - intros conv_id. unfold _get_conversation_id. rewrite Hq.
    destruct (iter _) as [messages|e]; [|discriminate]. cbn [rbind].
    destruct (first_user_message messages) as [first|e]; [|discriminate].
    cbn [rbind]. cbv zeta.
    destruct (DEBUG_MODE (valves self)); [|exact (fun H => H)].
    destruct (debug_count_user_messages messages); [|discriminate].
    exact (fun H => H).
  - intros Hd. unfold _get_conversation_id. rewrite Hq, Hd.
    change (iter (dict_get (sample_body "m" [user_msg s; junk]) "messages" (VList [])))
      with (Ok [user_msg s; junk]).
    cbn [rbind].
    change (first_user_message [user_msg s; junk]) with (Ok (Some (str (VStr s)))).
    cbn [rbind str]. cbv zeta. split; [reflexivity|].
    unfold debug_count_user_messages. cbn [rmap].
    change (get (user_msg s) "role" VNone) with (Ok (VStr "user")). cbn [rbind].
    destruct junk as [| | | | |d]; try reflexivity.
    exfalso. exact (Hjunk d eq_refl).
Qed.

Lemma debug_mode_only_adds_failures_witness :
  _get_conversation_id (with_valves init {|
      NAME_PREFIX := "OpenAI: "; BASE_URL := "https://api.openai.com/v1";
      API_KEYS := "k1"; THINKING_EFFORT := "medium";
      SHOW_TOKEN_STATS := true; SHOW_CUMULATIVE_COST := true;
      MAX_OUTPUT_TOKENS := 3200; TIMEOUT_SECONDS := 600; DEBUG_MODE := true |})
    (sample_body "m" [user_msg "hello"; VStr "note"]) sample_user
  = Raise (Fault "get" (VStr "note")).
Proof.
  apply (debug_mode_only_adds_failures _ init [] sample_user "hello" (VStr "note")).
  - reflexivity.
  - intros d. discriminate.
  - reflexivity.
Defined.

(** ** The totals shown *)

Section Totals.
Context (rt : Runtime).

(** X23: the totals are updated before they are shown: when both
    displays are on, the statistics yielded for a priced usage block
    contain the totals of the conversation with the current message
    already added, so the number of messages shown is the number the
    notice of the turn announced. *)
Theorem statistics_include_current_message (data : dict) (model_id conv_id : string)
    (status reason : value) (self : Pipe) (cost : float) (t : tokens) :
  SHOW_TOKEN_STATS (valves self) = true ->
  SHOW_CUMULATIVE_COST (valves self) = true ->
  str_nonempty conv_id = true ->
  truthy (dict_get data "usage" (VDict [])) = true ->
  usage_cost model_id (dict_get data "usage" (VDict [])) = Ok (Some (cost, t)) ->
  outcome (report_usage rt data model_id conv_id status reason self) = Ok tt ->
  let shown := add_to_account (default new_account (conversation_costs self !! conv_id))
                 cost t in
  message_count shown = next_message_number self conv_id
  /\ exists before after,
       yielded (report_usage rt data model_id conv_id status reason self)
       = [VStr (before +:+ conversation_totals shown +:+ after)].
Proof.
  intros Hshow Hcum Hid Hu Hc. cbv zeta. rewrite report_usage_unfold. cbv zeta.
  rewrite Hu, Hc. intros Hok. split.
  { unfold next_message_number. destruct (conversation_costs self !! conv_id); reflexivity. }
  revert Hok. unfold _format_token_stats.
  change (valves (_update_conversation_cost self conv_id cost t)) with (valves self).
  rewrite Hshow, Hcum, Hid, Hu, update_lookup. cbn [negb orb andb].
  destruct (dict_get data "usage" (VDict [])) as [| | | | |u]; try discriminate.
  destruct (reasoning_of u) as [r|e]; [|discriminate]. cbn [rbind].
  destruct (fmt_grouped (dict_get u "input_tokens" (VInt 0))) as [si|e]; [|discriminate].
  cbn [rbind].
  destruct (gt_zero r) as [shown|e]; [|discriminate]. cbn [rbind].
  match goal with
  | |- context [rbind ?x _] => destruct x as [sr|e]; [|discriminate]
  end.
  cbn [rbind].
  destruct (fmt_grouped (dict_get u "output_tokens" (VInt 0))) as [so|e]; [|discriminate].
  cbn [rbind].
  destruct (fmt_grouped (dict_get u "total_tokens" (VInt 0))) as [st|e]; [|discriminate].
  cbn [rbind]. intros _. cbn [str_nonempty].
  eexists (nl +:+ nl +:+ "---" +:+ nl +:+ mark_stats
           +:+ " **Token Usage (This Message)**:" +:+ nl
           +:+ "- Input: " +:+ si +:+ " tokens" +:+ nl
           +:+ sr
           +:+ "- Output: " +:+ so +:+ " tokens" +:+ nl
           +:+ "- Total: " +:+ st +:+ " tokens" +:+ nl
           +:+ "- **Cost for this message**: $" +:+ fmt_4f cost +:+ nl), _.
  rewrite <- !str_app_assoc. reflexivity.
Qed.
End Totals.

Lemma statistics_include_current_message_witness :
  message_count
    (add_to_account
       (default new_account (conversation_costs (with_keys init "k1") !! "conv_a"))
       (1000 / 1000000 * 20 + 2000 / 1000000 * 80 + 500 / 1000000 * 80)%float
       {| tok_input := 1000; tok_output := 2000; tok_reasoning := 500 |})
  = next_message_number (with_keys init "k1") "conv_a".
Proof.
  apply (statistics_include_current_message sample_runtime [("usage", sample_usage)]
           "o3-pro" "conv_a" (VStr "completed") VNone (with_keys init "k1"));
    vm_compute; reflexivity.
Defined.

(** ** Independent conversations *)

Lemma pipe_eq (a b : Pipe) :
  valves a = valves b ->
  openai_response_models a = openai_response_models b ->
  api_key_index a = api_key_index b ->
  conversation_costs a = conversation_costs b ->
  a = b.
Proof. destruct a, b. simpl. congruence. Qed.

(** X24: the accounts of two conversations are independent: updates
    of different conversations can be made in either order, the
    instance that results is the same. *)
Theorem updates_commute (self : Pipe) (c1 c2 : string) (cost1 cost2 : float)
    (t1 t2 : tokens) :
  c1 <> c2 ->
  _update_conversation_cost (_update_conversation_cost self c1 cost1 t1) c2 cost2 t2
  = _update_conversation_cost (_update_conversation_cost self c2 cost2 t2) c1 cost1 t1.
Proof.
  intros Hne.
  assert (H : conversation_costs
                (_update_conversation_cost
                   (_update_conversation_cost self c1 cost1 t1) c2 cost2 t2)
              = conversation_costs
                  (_update_conversation_cost
                     (_update_conversation_cost self c2 cost2 t2) c1 cost1 t1)).
  { apply map_eq. intros c.
    destruct (decide (c = c1)) as [->|H1]; [|destruct (decide (c = c2)) as [->|H2]].
    - rewrite update_lookup_other, !update_lookup, update_lookup_other by congruence.
      reflexivity.
    - rewrite update_lookup, update_lookup_other, update_lookup_other, update_lookup
        by congruence.
      reflexivity.
    - rewrite !update_lookup_other by congruence. reflexivity. }
  apply pipe_eq; [reflexivity ..|exact H].
Qed.

Lemma updates_commute_witness :
  let t := {| tok_input := 1; tok_output := 2; tok_reasoning := 0 |} in
  _update_conversation_cost (_update_conversation_cost init "conv_a" 1 t) "conv_b" 2 t
  = _update_conversation_cost (_update_conversation_cost init "conv_b" 2 t) "conv_a" 1 t.
Proof. cbv zeta. apply updates_commute. discriminate. Defined.

(** ** Items that are no assistant message *)

(** X25: from bare strings, and from items that carry a [text] or a
    string [content] and are no assistant message, the extraction
    takes every text as it is, in order, joined with newlines; unlike
    the segments of an assistant message, empty texts are kept here
    and leave empty lines. *)
Theorem extraction_of_plain_items (ss : list string) :
  _extract_text_from_output (VList (map VStr ss)) = Ok (str_join nl ss)
  /\ _extract_text_from_output (VList (map (fun s => VDict [("text", VStr s)]) ss))
     = Ok (str_join nl ss)
  /\ _extract_text_from_output (VList (map (fun s => VDict [("content", VStr s)]) ss))
     = Ok (str_join nl ss).
Proof.
  assert (H : forall f : string -> value,
            (forall s, item_texts (f s) = Ok [VStr s]) ->
            _extract_text_from_output (VList (map f ss)) = Ok (str_join nl ss)).
  { intros f Hf. unfold _extract_text_from_output. cbn [iter rbind].
    assert (Hr : rmap item_texts (map f ss) = Ok (map (fun s => [VStr s]) ss)).
    { induction ss as [|s ss IH]; [reflexivity|].
      cbn [map rmap]. rewrite Hf, IH. reflexivity. }
    rewrite Hr. cbn [rbind].
    assert (Hc : concat (map (fun s => [VStr s]) ss) = map VStr ss).
    { clear Hr. induction ss as [|s ss IH]; [reflexivity|].
      cbn [map concat app]. rewrite IH. reflexivity. }
    rewrite Hc. apply join_strings. }
  repeat split; apply H; reflexivity.
Qed.
